(** * l3_engine: a shallow embedding of the level-3 backtesting engine

    The development follows the Python sources module by module:

    - [domain/enums.py]            enumerations
    - [domain/events.py]           event records (the module is not among
                                   the sources; the records follow the data
                                   model of the specification)
    - [core/order_book.py]         [OrderBook]
    - [data/loader.py]             [_create_event_from_row]
    - [core/execution.py]          [ExecutionHandler]
    - [core/portfolio.py]          [Portfolio]
    - [backtest.py]                [BacktestController]

    Conventions.

    - Python [int] is [Z].
    - [Decimal] prices and money are exact rationals [Q]; equality of
      [Decimal]s is equality of values, hence [==] on [Q].  The rounding of
      the [decimal] context (12 significant digits, set in backtest.py) is
      not represented: the model is exact for results that fit the context.
    - [Decimal] quantities that the code builds from [int]s with [+], [-],
      [max] and [min] are integers; they are [Z], and [Decimal('inf')] is the
      extra point of [DecQty].
    - A Python [dict] is an association list in insertion order ([Dict]); a
      [SortedDict] is an association list kept sorted by its key function.
    - A call that raises returns [None]. *)

From Stdlib Require Import ZArith QArith Qminmax Bool List Ascii String Lia Lqa.
From Stdlib Require Import DecimalString DecimalPos DecimalZ.
Import ListNotations.

Local Open Scope Z_scope.

(** ** domain/enums.py *)

Inductive EventType := MARKET_TRADE | MARKET_DEPTH | SIGNAL | ORDER | FILL.

(** [BUY = 0]: ask side in the book, buy aggressor in a trade;
    [SELL = 1]: bid side in the book, sell aggressor in a trade. *)
Inductive Side := BUY | SELL.

Inductive OrderCommand :=
  | DELETE | INSERT | UPDATE
  | UNKNOWN_4 | UNKNOWN_5 | UNKNOWN_6 | UNKNOWN_7.

Inductive OrderType := MARKET | LIMIT | STOP_MARKET.

Inductive OrderStatus :=
  | PENDING_SUBMIT | ACCEPTED | REJECTED | PARTIALLY_FILLED | FILLED
  | PENDING_CANCEL | CANCELLED | TRIGGERED.

Definition Side_eqb (a b : Side) : bool :=
  match a, b with BUY, BUY | SELL, SELL => true | _, _ => false end.

Definition OrderStatus_eqb (a b : OrderStatus) : bool :=
  match a, b with
  | PENDING_SUBMIT, PENDING_SUBMIT | ACCEPTED, ACCEPTED | REJECTED, REJECTED
  | PARTIALLY_FILLED, PARTIALLY_FILLED | FILLED, FILLED
  | PENDING_CANCEL, PENDING_CANCEL | CANCELLED, CANCELLED
  | TRIGGERED, TRIGGERED => true
  | _, _ => false
  end.

(** [OrderCommand(n)]: the member whose value is [n]; [None] is the
    [ValueError] of the enum constructor. *)
Definition OrderCommand_of_value (n : Z) : option OrderCommand :=
  match n with
  | 1 => Some INSERT
  | 2 => Some UPDATE
  | 3 => Some DELETE
  | 4 => Some UNKNOWN_4
  | 5 => Some UNKNOWN_5
  | 6 => Some UNKNOWN_6
  | 7 => Some UNKNOWN_7
  | _ => None
  end.

(** [Side(n)]. *)
Definition Side_of_value (n : Z) : option Side :=
  match n with 0 => Some BUY | 1 => Some SELL | _ => None end.

(** ** Decimal values *)

Abbreviation Decimal := Q (only parsing).

Definition Qlt_bool (x y : Q) : bool := negb (Qle_bool y x).

(** Truth value of an [Optional[Decimal]]: [None] and zero are false. *)
Definition truthy (p : option Decimal) : bool :=
  match p with
  | Some q => negb (Qeq_bool q 0)
  | None => false
  end.

(** Truth value of an [Optional[str]]: [None] and the empty string are
    false. *)
Definition truthy_str (s : option string) : bool :=
  match s with
  | Some s => negb (String.eqb s EmptyString)
  | None => false
  end.

(** Integer-valued [Decimal]s extended with the two infinities. *)
Inductive DecQty := Fin (z : Z) | Inf | NegInf.

(** [a - b] for [a] possibly infinite and [b] finite. *)
Definition DecQty_sub_int (a : DecQty) (b : Z) : DecQty :=
  match a with Fin z => Fin (z - b) | Inf => Inf | NegInf => NegInf end.

(** [b - a] for [b] finite and [a] possibly infinite. *)
Definition int_sub_DecQty (b : Z) (a : DecQty) : DecQty :=
  match a with Fin z => Fin (b - z) | Inf => NegInf | NegInf => Inf end.

(** [max(Decimal(0), x)]. *)
Definition DecQty_max0 (x : DecQty) : DecQty :=
  match x with Fin z => Fin (Z.max 0 z) | Inf => Inf | NegInf => Fin 0 end.

(** [int(min(x, n))] for an [int] [n]: the minimum is finite unless [x] is
    minus infinity, where [int] raises [OverflowError]. *)
Definition DecQty_min_int (x : DecQty) (n : Z) : option Z :=
  match x with Fin z => Some (Z.min z n) | Inf => Some n | NegInf => None end.

(** The finite value of a [Decimal] known not to be infinite. *)
Definition DecQty_finite (x : DecQty) : option Z :=
  match x with Fin z => Some z | _ => None end.

(** ** Python dictionaries with string keys

    Insertion order is kept: assigning to a present key replaces the value in
    place, assigning to an absent key appends it. *)

Module Dict.

Section WithValue.
Context {V : Type}.

Definition t := list (string * V).

Definition empty : t := [].

Fixpoint get (k : string) (d : t) : option V :=
  match d with
  | [] => None
  | (k', v) :: d' => if String.eqb k k' then Some v else get k d'
  end.

Definition mem (k : string) (d : t) : bool :=
  match get k d with Some _ => true | None => false end.

Fixpoint set (k : string) (v : V) (d : t) : t :=
  match d with
  | [] => [(k, v)]
  | (k', v') :: d' =>
      if String.eqb k k' then (k, v) :: d' else (k', v') :: set k v d'
  end.

(** [del d[k]]; keys are unique, so at most one item goes.  The callers
    delete keys that are present (Python raises [KeyError] otherwise). *)
Definition del (k : string) (d : t) : t :=
  filter (fun kv => negb (String.eqb k (fst kv))) d.

Definition keys (d : t) : list string := map fst d.

(** Keys are unique, as in every dictionary. *)
Definition wf (d : t) : Prop := NoDup (keys d).

End WithValue.

Arguments t : clear implicits.

End Dict.

(** ** domain/events.py

    The module is not among the sources.  Its event classes are modelled
    from the data model of the specification, with the attribute names under
    which the other modules construct and read the events. *)

Module MarketData_TradeEvent.
(** Modelled from the spec: the class [MarketData_TradeEvent] of the missing
    [domain/events.py], [MarketTrade{ts, symbol, price, qty, side}]. *)
Record t := mk {
  timestamp : Z;
  symbol : string;
  price : Decimal;
  quantity : Z;
  side : Side }.
End MarketData_TradeEvent.

Module MarketData_DepthEvent.
(** Modelled from the spec: the class [MarketData_DepthEvent] of the missing
    [domain/events.py],
    [MarketDepth{ts, symbol, side, price, qty, num_orders, command, flags}]. *)
Record t := mk {
  timestamp : Z;
  symbol : string;
  price : Decimal;
  quantity : Z;
  side : Side;
  command : OrderCommand;
  flags : Z;
  num_orders : Z }.
End MarketData_DepthEvent.

Module SignalEvent.
(** Modelled from the spec: the class [SignalEvent] of the missing
    [domain/events.py],
    [Signal{ts, strategy_id, symbol, dir, order_type, qty, trigger_price,
    stop_price, target_price}], with the optional limit and stop prices of
    the order that [process_signal] reads from it. *)
Record t := mk {
  timestamp : Z;
  strategy_id : string;
  symbol : string;
  direction : Side;
  order_type : OrderType;
  quantity : Z;
  limit_price : option Decimal;
  stop_price : option Decimal;
  signal_trigger_price : option Decimal;
  signal_stop_price : option Decimal;
  signal_target_price : option Decimal }.
End SignalEvent.

Module OrderEvent.
(** Modelled from the spec: the class [OrderEvent] of the missing
    [domain/events.py],
    [Order{ts, order_id, strategy_id, symbol, qty, order_type, dir,
    limit_price?, stop_price?, filled_qty, status, linked_stop?,
    linked_target?, parent_order_id?}]. *)
Record t := mk {
  timestamp : Z;
  order_id : string;
  status : OrderStatus;
  strategy_id : string;
  symbol : string;
  quantity : Z;
  order_type : OrderType;
  direction : Side;
  limit_price : option Decimal;
  stop_price : option Decimal;
  filled_quantity : Z;
  linked_stop_price : option Decimal;
  linked_target_price : option Decimal;
  parent_order_id : option string }.

(** [order.filled_quantity = q]. *)
Definition set_filled_quantity (q : Z) (o : t) : t :=
  mk (timestamp o) (order_id o) (status o) (strategy_id o) (symbol o)
     (quantity o) (order_type o) (direction o) (limit_price o) (stop_price o)
     q (linked_stop_price o) (linked_target_price o) (parent_order_id o).

(** Modelled from the spec: the default of [filled_quantity] in the missing
    [domain/events.py], for the constructor calls that do not pass it; a new
    order has nothing filled. *)
Definition default_filled_quantity : Z := 0.
End OrderEvent.

Module FillEvent.
(** Modelled from the spec: the class [FillEvent] of the missing
    [domain/events.py],
    [Fill{ts, order_id, strategy_id, symbol, dir, qty_filled, fill_price,
    commission, linked_stop?, linked_target?}].  The portfolio also reads
    [fill_time], which no constructor call passes; it is the time of the
    fill, the [ts] of the event. *)
Record t := mk {
  timestamp : Z;
  order_id : string;
  strategy_id : string;
  symbol : string;
  direction : Side;
  quantity_filled : Z;
  fill_price : Decimal;
  commission : Decimal;
  linked_stop_price : option Decimal;
  linked_target_price : option Decimal;
  fill_time : Z }.
End FillEvent.

(** Modelled from the spec: the base class [Event] of the missing
    [domain/events.py], a tagged union of the five classes; every
    constructor call passes the [event_type] of its class, which is the
    tag. *)
Inductive Event :=
  | EvTrade (e : MarketData_TradeEvent.t)
  | EvDepth (e : MarketData_DepthEvent.t)
  | EvSignal (e : SignalEvent.t)
  | EvOrder (e : OrderEvent.t)
  | EvFill (e : FillEvent.t).

Definition event_type (e : Event) : EventType :=
  match e with
  | EvTrade _ => MARKET_TRADE
  | EvDepth _ => MARKET_DEPTH
  | EvSignal _ => SIGNAL
  | EvOrder _ => ORDER
  | EvFill _ => FILL
  end.

Definition event_timestamp (e : Event) : Z :=
  match e with
  | EvTrade e => MarketData_TradeEvent.timestamp e
  | EvDepth e => MarketData_DepthEvent.timestamp e
  | EvSignal e => SignalEvent.timestamp e
  | EvOrder e => OrderEvent.timestamp e
  | EvFill e => FillEvent.timestamp e
  end.

(** ** core/order_book.py *)

(** A price level, [{'qty': ..., 'num_orders': ...}]. *)
Record Level := mkLevel { qty : Z; num_orders : Z }.

(** [sortedcontainers.SortedDict] with [Decimal] keys.  The items are kept
    in increasing order of [kf key], where [kf] is the key function given to
    the constructor (the identity when there is none).  [irange] bounds are
    values: the library maps them through [kf] and ranges over the sort keys
    ([SortedKeyList.irange] calls [self._key(minimum)]; its documentation
    shows [SortedKeyList([11..15], key=neg).irange(14.5, 11.5)] yielding
    [14, 13, 12]). *)
Module SortedDict.

Definition t := list (Decimal * Level).

Fixpoint get (k : Decimal) (d : t) : option Level :=
  match d with
  | [] => None
  | (k', v) :: d' => if Qeq_bool k k' then Some v else get k d'
  end.

Definition mem (k : Decimal) (d : t) : bool :=
  match get k d with Some _ => true | None => false end.

(** [d[k] = v]. *)
Fixpoint setitem (kf : Decimal -> Decimal) (k : Decimal) (v : Level) (d : t) : t :=
  match d with
  | [] => [(k, v)]
  | (k', v') :: d' =>
      if Qeq_bool k k' then (k', v) :: d'
      else if Qlt_bool (kf k) (kf k') then (k, v) :: (k', v') :: d'
      else (k', v') :: setitem kf k v d'
  end.

(** [del d[k]]; without effect when [k] is absent. *)
Definition delitem (k : Decimal) (d : t) : t :=
  filter (fun kv => negb (Qeq_bool k (fst kv))) d.

(** [next(iter(d), None)]. *)
Definition first_key (d : t) : option Decimal :=
  match d with
  | [] => None
  | (k, _) :: _ => Some k
  end.

(** [d.irange(minimum, maximum, inclusive=(False, False))]: the items whose
    sort key lies strictly between the sort keys of the bounds; [None] is no
    bound. *)
Definition irange_exclusive (kf : Decimal -> Decimal)
  (minimum maximum : option Decimal) (d : t) : t :=
  filter (fun kv =>
            match minimum with
            | Some m => Qlt_bool (kf m) (kf (fst kv))
            | None => true
            end
            &&
            match maximum with
            | Some m => Qlt_bool (kf (fst kv)) (kf m)
            | None => true
            end) d.

End SortedDict.

(** [lambda k: -k], the key function of the bid side. *)
Definition bids_key (k : Decimal) : Decimal := (- k)%Q.

(** The ask side has no key function. *)
Definition asks_key (k : Decimal) : Decimal := k.

Module OrderBook.

Record t := mk {
  symbol : string;
  tick_size : Decimal;
  bids : SortedDict.t;
  asks : SortedDict.t;
  last_update_time : Z;
  best_bid : option Decimal;
  best_ask : option Decimal }.

Definition with_sides (b : t) (bids' asks' : SortedDict.t) : t :=
  mk (symbol b) (tick_size b) bids' asks' (last_update_time b)
     (SortedDict.first_key bids') (SortedDict.first_key asks').

(** [_initialize_synthetic_data]: ten levels a side around 5950.00. *)
Fixpoint synthetic_levels (tick : Decimal) (i : nat) (bids asks : SortedDict.t)
  (n : nat) : SortedDict.t * SortedDict.t :=
  match n with
  | O => (bids, asks)
  | S n' =>
      let iz := Z.of_nat i in
      let base_price := (5950 # 1)%Q in
      let bids' :=
        SortedDict.setitem bids_key (base_price - inject_Z iz * tick)%Q
          (mkLevel (100 * (10 - iz)) 5) bids in
      let asks' :=
        SortedDict.setitem asks_key
          (base_price + tick + inject_Z iz * tick)%Q
          (mkLevel (100 * (iz + 1)) 5) asks in
      synthetic_levels tick (S i) bids' asks' n'
  end.

Definition _initialize_synthetic_data (b : t) : t :=
  let '(bids', asks') := synthetic_levels (tick_size b) 0 (bids b) (asks b) 10 in
  with_sides b bids' asks'.

(** [OrderBook(symbol, tick_size, initialize_synthetic_data)]. *)
Definition init (symbol : string) (tick_size : Decimal)
  (initialize_synthetic_data : bool) : t :=
  let b := mk symbol tick_size [] [] 0 None None in
  if initialize_synthetic_data then _initialize_synthetic_data b else b.

Definition OrderCommand_eqb (a b : OrderCommand) : bool :=
  match a, b with
  | DELETE, DELETE | INSERT, INSERT | UPDATE, UPDATE
  | UNKNOWN_4, UNKNOWN_4 | UNKNOWN_5, UNKNOWN_5
  | UNKNOWN_6, UNKNOWN_6 | UNKNOWN_7, UNKNOWN_7 => true
  | _, _ => false
  end.

(** [process_depth_event]. *)
Definition process_depth_event (b : t) (event : MarketData_DepthEvent.t) : t :=
  if negb (String.eqb (MarketData_DepthEvent.symbol event) (symbol b))
     || (MarketData_DepthEvent.timestamp event <? last_update_time b)
  then b
  else
    let is_bid_side := Side_eqb (MarketData_DepthEvent.side event) SELL in
    let book_side := if is_bid_side then bids b else asks b in
    let kf := if is_bid_side then bids_key else asks_key in
    let price := MarketData_DepthEvent.price event in
    let command := MarketData_DepthEvent.command event in
    let quantity := MarketData_DepthEvent.quantity event in
    let book_side' :=
      if OrderCommand_eqb command DELETE
         || (OrderCommand_eqb command UPDATE && (quantity <=? 0))
      then SortedDict.delitem price book_side
      else if OrderCommand_eqb command INSERT || OrderCommand_eqb command UPDATE
      then
        if quantity >? 0
        then SortedDict.setitem kf price
               (mkLevel quantity (MarketData_DepthEvent.num_orders event))
               book_side
        else SortedDict.delitem price book_side
      else book_side in
    let bids' := if is_bid_side then book_side' else bids b in
    let asks' := if is_bid_side then asks b else book_side' in
    mk (symbol b) (tick_size b) bids' asks'
       (MarketData_DepthEvent.timestamp event)
       (SortedDict.first_key bids') (SortedDict.first_key asks').

(** [get_bbo]. *)
Definition get_bbo (b : t) : option Decimal * Z * option Decimal * Z :=
  let bid_price := best_bid b in
  let bid_qty :=
    match bid_price with
    | Some p =>
        if truthy bid_price
        then match SortedDict.get p (bids b) with Some l => qty l | None => 0 end
        else 0
    | None => 0
    end in
  let ask_price := best_ask b in
  let ask_qty :=
    match ask_price with
    | Some p =>
        if truthy ask_price
        then match SortedDict.get p (asks b) with Some l => qty l | None => 0 end
        else 0
    | None => 0
    end in
  (bid_price, bid_qty, ask_price, ask_qty).

(** [get_level_data]: [Side.SELL] for bids, [Side.BUY] for asks; a [None]
    price is no key of either side. *)
Definition get_level_data (b : t) (price : option Decimal) (side : Side)
  : option Level :=
  let book_side := if Side_eqb side SELL then bids b else asks b in
  match price with
  | Some p => SortedDict.get p book_side
  | None => None
  end.

(** [estimate_quantity_ahead]: the loop adds [self.bids[price]['qty']] for
    the keys that [irange] yields. *)
Definition estimate_quantity_ahead (b : t) (order_price : option Decimal)
  (order_side : Side) : Z :=
  match order_side with
  | BUY =>
      fold_left (fun qty_ahead kv => qty_ahead + qty (snd kv))
        (SortedDict.irange_exclusive bids_key order_price None (bids b)) 0
  | SELL =>
      fold_left (fun qty_ahead kv => qty_ahead + qty (snd kv))
        (SortedDict.irange_exclusive asks_key None order_price (asks b)) 0
  end.

End OrderBook.

(** ** data/loader.py *)

Module SQLiteDataLoader.

(** A row of the depth table, [timestamp, command, flags, num_orders, price,
    qty], after the conversions [int(...)] and [Decimal(str(...))]; a row on
    which a conversion of another column than [command] fails is skipped. *)
Record DepthRow := mkDepthRow {
  row_timestamp : Z;
  row_command : Z;
  row_flags : Z;
  row_num_orders : Z;
  row_price : Decimal;
  row_qty : Z }.

(** A row of the time-and-sales table, [timestamp, price, qty, side]. *)
Record TasRow := mkTasRow {
  tas_timestamp : Z;
  tas_price : Decimal;
  tas_qty : Z;
  tas_side : Z }.

(** [_determine_side_from_flags]. *)
Definition _determine_side_from_flags (flags : Z) : Side :=
  if flags mod 2 =? 1 then SELL else BUY.

(** [_create_event_from_row] on a depth row: a command value that is no
    member of [OrderCommand] is replaced by [UPDATE]. *)
Definition _create_event_from_depth_row (symbol : string) (row : DepthRow)
  : MarketData_DepthEvent.t :=
  let command :=
    match OrderCommand_of_value (row_command row) with
    | Some c => c
    | None => UPDATE
    end in
  MarketData_DepthEvent.mk (row_timestamp row) symbol (row_price row)
    (row_qty row) (_determine_side_from_flags (row_flags row)) command
    (row_flags row) (row_num_orders row).

(** [_create_event_from_row] on a trade row; [Side(n)] raises [ValueError]
    outside 0 and 1 and the row is skipped. *)
Definition _create_event_from_tas_row (symbol : string) (row : TasRow)
  : option MarketData_TradeEvent.t :=
  match Side_of_value (tas_side row) with
  | Some s =>
      Some (MarketData_TradeEvent.mk (tas_timestamp row) symbol
              (tas_price row) (tas_qty row) s)
  | None => None
  end.

End SQLiteDataLoader.

(** ** core/execution.py *)

(** Decimal rendering of an [int], as an f-string does it. *)
Definition string_of_Z (z : Z) : string :=
  NilZero.string_of_int (Z.to_int z).

Module ExecutionHandler.

(** A value of [pending_limit_orders]:
    [{'order': ..., 'qty_ahead': ..., 'qty_filled': ...}]. *)
Record PendingLimit := mkPendingLimit {
  order : OrderEvent.t;
  qty_ahead : Z;
  qty_filled : Z }.

(** A value of [linked_exit_orders]: [{'stop_id': ..., 'target_id': ...}]. *)
Record LinkedExits := mkLinkedExits {
  stop_id : option string;
  target_id : option string }.

(** The handler.  [event_queue] is the object given to the constructor, on
    which the class only calls [append]: the field records the appended
    events in order.  [order_book] is the book shared with the controller.

    An [OrderEvent] is stored in [submitted_orders] under its id when it is
    created, and the same object later travels to the pending tables; the
    only attribute written after creation is [filled_quantity], through
    [submitted_orders], and the pending tables never read it for an order
    that has been written to.  The tables therefore hold values. *)
Record t := mk {
  event_queue : list Event;
  order_book : OrderBook.t;
  tick_size : Decimal;
  latency_data_signal_ns : Z;
  latency_signal_order_ns : Z;
  commission_per_contract : Decimal;
  order_counter : Z;
  submitted_orders : Dict.t OrderEvent.t;
  pending_limit_orders : Dict.t PendingLimit;
  pending_stop_orders : Dict.t OrderEvent.t;
  linked_exit_orders : Dict.t LinkedExits }.

(** [ExecutionHandler(event_queue, order_book, params)] with an empty
    queue. *)
Definition init (order_book : OrderBook.t) (tick_size : Decimal)
  (latency_data_signal_ns latency_signal_order_ns : Z)
  (commission_per_contract : Decimal) : t :=
  mk [] order_book tick_size latency_data_signal_ns latency_signal_order_ns
     commission_per_contract 0 [] [] [] [].

Definition append (e : Event) (h : t) : t :=
  mk (event_queue h ++ [e]) (order_book h) (tick_size h)
     (latency_data_signal_ns h) (latency_signal_order_ns h)
     (commission_per_contract h) (order_counter h) (submitted_orders h)
     (pending_limit_orders h) (pending_stop_orders h) (linked_exit_orders h).

Definition set_order_book (b : OrderBook.t) (h : t) : t :=
  mk (event_queue h) b (tick_size h)
     (latency_data_signal_ns h) (latency_signal_order_ns h)
     (commission_per_contract h) (order_counter h) (submitted_orders h)
     (pending_limit_orders h) (pending_stop_orders h) (linked_exit_orders h).

Definition set_order_counter (n : Z) (h : t) : t :=
  mk (event_queue h) (order_book h) (tick_size h)
     (latency_data_signal_ns h) (latency_signal_order_ns h)
     (commission_per_contract h) n (submitted_orders h)
     (pending_limit_orders h) (pending_stop_orders h) (linked_exit_orders h).

Definition set_submitted_orders (d : Dict.t OrderEvent.t) (h : t) : t :=
  mk (event_queue h) (order_book h) (tick_size h)
     (latency_data_signal_ns h) (latency_signal_order_ns h)
     (commission_per_contract h) (order_counter h) d
     (pending_limit_orders h) (pending_stop_orders h) (linked_exit_orders h).

Definition set_pending_limit_orders (d : Dict.t PendingLimit) (h : t) : t :=
  mk (event_queue h) (order_book h) (tick_size h)
     (latency_data_signal_ns h) (latency_signal_order_ns h)
     (commission_per_contract h) (order_counter h) (submitted_orders h)
     d (pending_stop_orders h) (linked_exit_orders h).

Definition set_pending_stop_orders (d : Dict.t OrderEvent.t) (h : t) : t :=
  mk (event_queue h) (order_book h) (tick_size h)
     (latency_data_signal_ns h) (latency_signal_order_ns h)
     (commission_per_contract h) (order_counter h) (submitted_orders h)
     (pending_limit_orders h) d (linked_exit_orders h).

Definition set_linked_exit_orders (d : Dict.t LinkedExits) (h : t) : t :=
  mk (event_queue h) (order_book h) (tick_size h)
     (latency_data_signal_ns h) (latency_signal_order_ns h)
     (commission_per_contract h) (order_counter h) (submitted_orders h)
     (pending_limit_orders h) (pending_stop_orders h) d.

(** [_generate_order_id]; [time_ns] is the reading of [time.time_ns()]. *)
Definition _generate_order_id (h : t) (prefix : string) (time_ns : Z)
  : t * string :=
  let counter := order_counter h + 1 in
  (set_order_counter counter h,
   (prefix ++ "_" ++ string_of_Z counter ++ "_" ++ string_of_Z time_ns)%string).

(** [status in [FILLED, REJECTED, CANCELLED]]. *)
Definition is_terminal (status : OrderStatus) : bool :=
  match status with
  | FILLED | REJECTED | CANCELLED => true
  | _ => false
  end.

(** [_update_order_status]. *)
Definition _update_order_status (h : t) (order_id : string)
  (status : OrderStatus) (timestamp : Z) (filled_qty : option Z) : t :=
  match Dict.get order_id (submitted_orders h) with
  | None => h
  | Some original_order =>
      let current_filled :=
        match filled_qty with
        | Some q => q
        | None => OrderEvent.filled_quantity original_order
        end in
      let original_order' :=
        match status with
        | PARTIALLY_FILLED =>
            OrderEvent.set_filled_quantity current_filled original_order
        | FILLED =>
            OrderEvent.set_filled_quantity
              (OrderEvent.quantity original_order) original_order
        | _ => original_order
        end in
      let status_event :=
        OrderEvent.mk timestamp order_id status
          (OrderEvent.strategy_id original_order')
          (OrderEvent.symbol original_order')
          (OrderEvent.quantity original_order')
          (OrderEvent.order_type original_order')
          (OrderEvent.direction original_order')
          (OrderEvent.limit_price original_order')
          (OrderEvent.stop_price original_order')
          current_filled
          (OrderEvent.linked_stop_price original_order')
          (OrderEvent.linked_target_price original_order')
          (OrderEvent.parent_order_id original_order') in
      let h1 :=
        set_submitted_orders
          (Dict.set order_id original_order' (submitted_orders h)) h in
      let h2 := append (EvOrder status_event) h1 in
      if is_terminal status
      then set_submitted_orders (Dict.del order_id (submitted_orders h2)) h2
      else h2
  end.

(** [_reject_order]. *)
Definition _reject_order (h : t) (order : OrderEvent.t) : t :=
  _update_order_status h (OrderEvent.order_id order) REJECTED
    (OrderEvent.timestamp order) None.

(** [process_signal]. *)
Definition process_signal (h : t) (event : SignalEvent.t) (time_ns : Z) : t :=
  let simulated_arrival_time :=
    SignalEvent.timestamp event + latency_data_signal_ns h
    + latency_signal_order_ns h in
  let '(h1, entry_order_id) := _generate_order_id h "ENTRY" time_ns in
  let entry_order :=
    OrderEvent.mk simulated_arrival_time entry_order_id PENDING_SUBMIT
      (SignalEvent.strategy_id event) (SignalEvent.symbol event)
      (SignalEvent.quantity event) (SignalEvent.order_type event)
      (SignalEvent.direction event) (SignalEvent.limit_price event)
      (SignalEvent.stop_price event) OrderEvent.default_filled_quantity
      (SignalEvent.signal_stop_price event)
      (SignalEvent.signal_target_price event) None in
  let h2 :=
    set_submitted_orders
      (Dict.set entry_order_id entry_order (submitted_orders h1)) h1 in
  let h3 := append (EvOrder entry_order) h2 in
  if truthy (SignalEvent.signal_stop_price event)
     || truthy (SignalEvent.signal_target_price event)
  then set_linked_exit_orders
         (Dict.set entry_order_id (mkLinkedExits None None)
            (linked_exit_orders h3)) h3
  else h3.

(** The loop of [_execute_market_order] over the levels of one side, best
    price first.  [book_side] is a list of the side's items whose level
    dictionaries are those of the book: the loop lowers a level's [qty] in
    place and deletes the key of a level left with nothing.  The result is
    [(filled_qty, total_value, levels of the side after the loop)]. *)
Fixpoint walk_book_side (qty_to_fill : Z) (book_side : SortedDict.t)
  (filled_qty : Z) (total_value : Decimal) : Z * Decimal * SortedDict.t :=
  match book_side with
  | [] => (filled_qty, total_value, [])
  | (price, level_data) :: rest =>
      let available_qty := qty level_data in
      let fill_on_this_level := Z.min qty_to_fill available_qty in
      let filled_qty' := filled_qty + fill_on_this_level in
      let total_value' :=
        (total_value + inject_Z fill_on_this_level * price)%Q in
      let qty_to_fill' := qty_to_fill - fill_on_this_level in
      let level_data' :=
        mkLevel (qty level_data - fill_on_this_level) (num_orders level_data) in
      let kept :=
        if qty level_data' <=? 0 then [] else [(price, level_data')] in
      if qty_to_fill' =? 0
      then (filled_qty', total_value', kept ++ rest)
      else
        let '(f, v, rest') :=
          walk_book_side qty_to_fill' rest filled_qty' total_value' in
        (f, v, kept ++ rest')
  end.

(** [_execute_market_order]. *)
Definition _execute_market_order (h : t) (order : OrderEvent.t) : t :=
  let book := order_book h in
  let order_qty := OrderEvent.quantity order in
  let is_buy := Side_eqb (OrderEvent.direction order) BUY in
  let book_side := if is_buy then OrderBook.asks book else OrderBook.bids book in
  match book_side with
  | [] => _reject_order h order
  | _ =>
      let '(filled_qty, total_value, book_side') :=
        walk_book_side order_qty book_side 0 0%Q in
      let book' :=
        if is_buy
        then OrderBook.with_sides book (OrderBook.bids book) book_side'
        else OrderBook.with_sides book book_side' (OrderBook.asks book) in
      let h1 := set_order_book book' h in
      if filled_qty >? 0
      then
        let avg_fill_price := (total_value / inject_Z filled_qty)%Q in
        let commission :=
          (commission_per_contract h * inject_Z filled_qty)%Q in
        let fill :=
          FillEvent.mk (OrderEvent.timestamp order) (OrderEvent.order_id order)
            (OrderEvent.strategy_id order) (OrderEvent.symbol order)
            (OrderEvent.direction order) filled_qty avg_fill_price commission
            (OrderEvent.linked_stop_price order)
            (OrderEvent.linked_target_price order)
            (OrderEvent.timestamp order) in
        let h2 := append (EvFill fill) h1 in
        let final_status :=
          if filled_qty =? order_qty then FILLED else PARTIALLY_FILLED in
        _update_order_status h2 (OrderEvent.order_id order) final_status
          (OrderEvent.timestamp order) (Some filled_qty)
      else _reject_order h1 order
  end.

(** [_handle_limit_order_placement]. *)
Definition _handle_limit_order_placement (h : t) (order : OrderEvent.t) : t :=
  let book := order_book h in
  let '(bbo_bid, _, bbo_ask, _) := OrderBook.get_bbo book in
  let limit_price := OrderEvent.limit_price order in
  let crosses (cmp : Decimal -> Decimal -> bool) (bbo : option Decimal) :=
    truthy limit_price && truthy bbo
    && match limit_price, bbo with
       | Some l, Some p => cmp l p
       | _, _ => false
       end in
  let immediate_fill :=
    if Side_eqb (OrderEvent.direction order) BUY
       && crosses (fun l p => Qle_bool p l) bbo_ask
    then true
    else if Side_eqb (OrderEvent.direction order) SELL
            && crosses (fun l p => Qle_bool l p) bbo_bid
    then true
    else false in
  if immediate_fill
  then _execute_market_order h order
  else
    let qty_better :=
      OrderBook.estimate_quantity_ahead book limit_price
        (OrderEvent.direction order) in
    let book_side_for_order :=
      if Side_eqb (OrderEvent.direction order) BUY then SELL else BUY in
    let qty_at_level_data :=
      OrderBook.get_level_data book limit_price book_side_for_order in
    let qty_at_level :=
      match qty_at_level_data with Some l => qty l | None => 0 end in
    set_pending_limit_orders
      (Dict.set (OrderEvent.order_id order)
         (mkPendingLimit order (qty_better + qty_at_level) 0)
         (pending_limit_orders h)) h.

(** [_handle_stop_order_placement]. *)
Definition _handle_stop_order_placement (h : t) (order : OrderEvent.t) : t :=
  match OrderEvent.stop_price order with
  | None => _reject_order h order
  | Some _ =>
      set_pending_stop_orders
        (Dict.set (OrderEvent.order_id order) order (pending_stop_orders h)) h
  end.

(** [execute_order]; the three members of [OrderType] leave nothing for the
    final [else]. *)
Definition execute_order (h : t) (order_event : OrderEvent.t) : t :=
  let h1 :=
    _update_order_status h (OrderEvent.order_id order_event) ACCEPTED
      (OrderEvent.timestamp order_event) None in
  match OrderEvent.order_type order_event with
  | MARKET => _execute_market_order h1 order_event
  | LIMIT => _handle_limit_order_placement h1 order_event
  | STOP_MARKET => _handle_stop_order_placement h1 order_event
  end.

(** [_cancel_linked_stop]. *)
Definition _cancel_linked_stop (h : t) (filled_target_order_id : string)
  (timestamp : Z) : t :=
  let target_order := Dict.get filled_target_order_id (submitted_orders h) in
  let entry_id :=
    match target_order with
    | Some o => OrderEvent.parent_order_id o
    | None => None
    end in
  match entry_id with
  | Some entry =>
      if truthy_str entry_id
      then
        match Dict.get entry (linked_exit_orders h) with
        | Some exits =>
            match stop_id exits with
            | Some sid =>
                if truthy_str (stop_id exits)
                   && Dict.mem sid (pending_stop_orders h)
                then
                  let h1 :=
                    set_pending_stop_orders
                      (Dict.del sid (pending_stop_orders h)) h in
                  let h2 := _update_order_status h1 sid CANCELLED timestamp None in
                  set_linked_exit_orders
                    (Dict.del entry (linked_exit_orders h2)) h2
                else h
            | None => h
            end
        | None => h
        end
      else h
  | None => h
  end.

(** [_cancel_linked_target]. *)
Definition _cancel_linked_target (h : t) (triggered_stop_order_id : string)
  (timestamp : Z) : t :=
  let stop_order := Dict.get triggered_stop_order_id (submitted_orders h) in
  let entry_id :=
    match stop_order with
    | Some o => OrderEvent.parent_order_id o
    | None => None
    end in
  match entry_id with
  | Some entry =>
      if truthy_str entry_id
      then
        match Dict.get entry (linked_exit_orders h) with
        | Some exits =>
            match target_id exits with
            | Some tid =>
                if truthy_str (target_id exits)
                   && Dict.mem tid (pending_limit_orders h)
                then
                  let h1 :=
                    set_pending_limit_orders
                      (Dict.del tid (pending_limit_orders h)) h in
                  let h2 := _update_order_status h1 tid CANCELLED timestamp None in
                  set_linked_exit_orders
                    (Dict.del entry (linked_exit_orders h2)) h2
                else h
            | None => h
            end
        | None => h
        end
      else h
  | None => h
  end.

(** [a and b and trade_price <= limit]: the comparison is reached only when
    the first two operands hold, and raises [TypeError] on a [None] limit. *)
Definition guarded_compare (guard : bool) (cmp : Decimal -> Decimal -> bool)
  (trade_price : Decimal) (bound : option Decimal) : option bool :=
  if guard
  then match bound with
       | Some l => Some (cmp trade_price l)
       | None => None
       end
  else Some false.

(** [trade_consumes]: the trade quantity at the limit price, infinity
    through it. *)
Definition trade_consumes (trade_event : MarketData_TradeEvent.t)
  (limit_price : Decimal) : DecQty :=
  if Qeq_bool (MarketData_TradeEvent.price trade_event) limit_price
  then Fin (MarketData_TradeEvent.quantity trade_event)
  else Inf.

(** The body of the loop of [check_limit_fills] for one item of the snapshot
    [list(self.pending_limit_orders.items())].  [data] is the dictionary
    stored under [order_id]; what the body assigns to it is seen through the
    table. *)
Definition check_limit_fill (trade_event : MarketData_TradeEvent.t)
  (h : t) (order_id : string) (data : PendingLimit) : option t :=
  let order := order data in
  let trade_price := MarketData_TradeEvent.price trade_event in
  let trade_side := MarketData_TradeEvent.side trade_event in
  if negb (String.eqb (OrderEvent.symbol order)
             (MarketData_TradeEvent.symbol trade_event))
  then Some h
  else
    match guarded_compare
            (Side_eqb (OrderEvent.direction order) BUY && Side_eqb trade_side SELL)
            Qle_bool trade_price (OrderEvent.limit_price order) with
    | None => None
    | Some can_fill_buy =>
        match guarded_compare
                (Side_eqb (OrderEvent.direction order) SELL
                 && Side_eqb trade_side BUY)
                (fun p l => Qle_bool l p) trade_price
                (OrderEvent.limit_price order) with
        | None => None
        | Some can_fill_sell =>
            if can_fill_buy || can_fill_sell
            then
              match OrderEvent.limit_price order with
              | None => None
              | Some limit_price =>
                  let qty_ahead := qty_ahead data in
                  let qty_rem := OrderEvent.quantity order - qty_filled data in
                  let consumes := trade_consumes trade_event limit_price in
                  let fill_after_queue :=
                    DecQty_max0 (DecQty_sub_int consumes qty_ahead) in
                  match DecQty_min_int fill_after_queue qty_rem,
                        DecQty_finite
                          (DecQty_max0 (int_sub_DecQty qty_ahead consumes)) with
                  | Some fill_qty, Some qty_ahead' =>
                      let data1 :=
                        mkPendingLimit order qty_ahead' (qty_filled data) in
                      let h1 :=
                        set_pending_limit_orders
                          (Dict.set order_id data1 (pending_limit_orders h)) h in
                      if fill_qty >? 0
                      then
                        let data2 :=
                          mkPendingLimit order qty_ahead'
                            (qty_filled data + fill_qty) in
                        let h2 :=
                          set_pending_limit_orders
                            (Dict.set order_id data2 (pending_limit_orders h1))
                            h1 in
                        let commission :=
                          (commission_per_contract h * inject_Z fill_qty)%Q in
                        let fill :=
                          FillEvent.mk
                            (MarketData_TradeEvent.timestamp trade_event)
                            order_id (OrderEvent.strategy_id order)
                            (OrderEvent.symbol order)
                            (OrderEvent.direction order) fill_qty limit_price
                            commission None None
                            (MarketData_TradeEvent.timestamp trade_event) in
                        let h3 := append (EvFill fill) h2 in
                        if qty_filled data2 >=? OrderEvent.quantity order
                        then
                          let h4 :=
                            set_pending_limit_orders
                              (Dict.del order_id (pending_limit_orders h3)) h3 in
                          let h5 :=
                            _update_order_status h4 order_id FILLED
                              (MarketData_TradeEvent.timestamp trade_event)
                              (Some (qty_filled data2)) in
                          Some (_cancel_linked_stop h5 order_id
                                  (MarketData_TradeEvent.timestamp trade_event))
                        else
                          Some (_update_order_status h3 order_id
                                  PARTIALLY_FILLED
                                  (MarketData_TradeEvent.timestamp trade_event)
                                  (Some (qty_filled data2)))
                      else Some h1
                  | _, _ => None
                  end
              end
            else Some h
        end
    end.

(** A [for] loop over a snapshot of a table whose body may raise. *)
Fixpoint for_items {V : Type} (body : t -> string -> V -> option t)
  (h : t) (items : list (string * V)) : option t :=
  match items with
  | [] => Some h
  | (k, v) :: items' =>
      match body h k v with
      | Some h' => for_items body h' items'
      | None => None
      end
  end.

(** [check_limit_fills]. *)
Definition check_limit_fills (h : t) (trade_event : MarketData_TradeEvent.t)
  : option t :=
  for_items (check_limit_fill trade_event) h (pending_limit_orders h).

(** The body of the loop of [check_stop_triggers]. *)
Definition check_stop_trigger (trade_event : MarketData_TradeEvent.t)
  (h : t) (order_id : string) (order : OrderEvent.t) : option t :=
  if negb (String.eqb (OrderEvent.symbol order)
             (MarketData_TradeEvent.symbol trade_event))
  then Some h
  else
    let trade_price := MarketData_TradeEvent.price trade_event in
    let timestamp := MarketData_TradeEvent.timestamp trade_event in
    match guarded_compare (Side_eqb (OrderEvent.direction order) SELL)
            Qle_bool trade_price (OrderEvent.stop_price order) with
    | None => None
    | Some sell_triggered =>
        match (if sell_triggered then Some true
               else guarded_compare (Side_eqb (OrderEvent.direction order) BUY)
                      (fun p s => Qle_bool s p) trade_price
                      (OrderEvent.stop_price order)) with
        | None => None
        | Some triggered =>
            if triggered
            then
              let h1 :=
                set_pending_stop_orders
                  (Dict.del order_id (pending_stop_orders h)) h in
              let h2 := _update_order_status h1 order_id TRIGGERED timestamp None in
              let h3 := _cancel_linked_target h2 order_id timestamp in
              let market_order :=
                OrderEvent.mk (timestamp + latency_signal_order_ns h)
                  (order_id ++ "_MKT")%string PENDING_SUBMIT
                  (OrderEvent.strategy_id order) (OrderEvent.symbol order)
                  (OrderEvent.quantity order - OrderEvent.filled_quantity order)
                  MARKET (OrderEvent.direction order) None None
                  OrderEvent.default_filled_quantity None None (Some order_id) in
              if OrderEvent.quantity market_order >? 0
              then
                let h4 :=
                  set_submitted_orders
                    (Dict.set (OrderEvent.order_id market_order) market_order
                       (submitted_orders h3)) h3 in
                Some (append (EvOrder market_order) h4)
              else Some h3
            else Some h
        end
    end.

(** [check_stop_triggers]. *)
Definition check_stop_triggers (h : t) (trade_event : MarketData_TradeEvent.t)
  : option t :=
  for_items (check_stop_trigger trade_event) h (pending_stop_orders h).

(** [_activate_linked_exits]; [time_ns_stop] and [time_ns_target] are the
    clock readings of the two calls of [_generate_order_id]. *)
Definition _activate_linked_exits (h : t) (entry_order_id : string)
  (entry_fill_event : FillEvent.t) (time_ns_stop time_ns_target : Z) : t :=
  match Dict.get entry_order_id (linked_exit_orders h) with
  | None => h
  | Some exits =>
      let now := FillEvent.timestamp entry_fill_event in
      let exit_dir :=
        if Side_eqb (FillEvent.direction entry_fill_event) BUY
        then SELL else BUY in
      let exit_qty := FillEvent.quantity_filled entry_fill_event in
      let '(h_stop, exits_stop) :=
        if truthy (FillEvent.linked_stop_price entry_fill_event)
           && negb (truthy_str (stop_id exits))
        then
          let '(h1, sid) := _generate_order_id h "STOP" time_ns_stop in
          let exits1 := mkLinkedExits (Some sid) (target_id exits) in
          let h2 :=
            set_linked_exit_orders
              (Dict.set entry_order_id exits1 (linked_exit_orders h1)) h1 in
          let stop_order :=
            OrderEvent.mk (now + latency_signal_order_ns h) sid PENDING_SUBMIT
              (FillEvent.strategy_id entry_fill_event)
              (FillEvent.symbol entry_fill_event) exit_qty STOP_MARKET exit_dir
              None (FillEvent.linked_stop_price entry_fill_event)
              OrderEvent.default_filled_quantity None None
              (Some entry_order_id) in
          let h3 :=
            set_submitted_orders
              (Dict.set sid stop_order (submitted_orders h2)) h2 in
          (append (EvOrder stop_order) h3, exits1)
        else (h, exits) in
      if truthy (FillEvent.linked_target_price entry_fill_event)
         && negb (truthy_str (target_id exits_stop))
      then
        let '(h1, tid) := _generate_order_id h_stop "TARGET" time_ns_target in
        let exits1 := mkLinkedExits (stop_id exits_stop) (Some tid) in
        let h2 :=
          set_linked_exit_orders
            (Dict.set entry_order_id exits1 (linked_exit_orders h1)) h1 in
        let target_order :=
          OrderEvent.mk (now + latency_signal_order_ns h) tid PENDING_SUBMIT
            (FillEvent.strategy_id entry_fill_event)
            (FillEvent.symbol entry_fill_event) exit_qty LIMIT exit_dir
            (FillEvent.linked_target_price entry_fill_event) None
            OrderEvent.default_filled_quantity None None
            (Some entry_order_id) in
        let h3 :=
          set_submitted_orders
            (Dict.set tid target_order (submitted_orders h2)) h2 in
        append (EvOrder target_order) h3
      else h_stop
  end.

End ExecutionHandler.

(** ** core/portfolio.py *)

Module OpenPosition.
Inductive Direction := LONG | SHORT.

(** A value of [open_positions]. *)
Record t := mk {
  entry_time : Z;
  entry_price : Decimal;
  quantity : Z;
  direction : Direction;
  commission : Decimal }.
End OpenPosition.

Module ClosedTrade.
(** An entry of [trade_log]; the two times are kept as the nanosecond
    stamps from which the code builds [datetime] objects. *)
Record t := mk {
  symbol : string;
  entry_time : Z;
  exit_time : Z;
  direction : OpenPosition.Direction;
  entry_price : Decimal;
  exit_price : Decimal;
  quantity : Z;
  pnl : Decimal;
  commission : Decimal }.
End ClosedTrade.

(** [a / b] on [Decimal]: a zero divisor raises. *)
Definition Decimal_div (a b : Decimal) : option Decimal :=
  if Qeq_bool b 0 then None else Some (a / b)%Q.

Module Portfolio.

Record t := mk {
  initial_capital : Decimal;
  cash : Decimal;
  commission_per_contract : Decimal;
  tick_value : Decimal;
  tick_size : Decimal;
  holdings : Dict.t Z;
  positions_avg_price : Dict.t Decimal;
  realized_pnl : Decimal;
  equity_curve : list (Z * Decimal);
  last_market_price : Dict.t Decimal;
  trade_log : list ClosedTrade.t;
  open_positions : Dict.t OpenPosition.t }.

(** [Portfolio(initial_capital, commission_per_contract, tick_value,
    tick_size)]. *)
Definition init (initial_capital commission_per_contract tick_value
  tick_size : Decimal) : t :=
  mk initial_capital initial_capital commission_per_contract tick_value
     tick_size [] [] 0%Q [(0, initial_capital)] [] [] [].

(** [update_market_price]. *)
Definition update_market_price (p : t) (event : MarketData_TradeEvent.t) : t :=
  mk (initial_capital p) (cash p) (commission_per_contract p) (tick_value p)
     (tick_size p) (holdings p) (positions_avg_price p) (realized_pnl p)
     (equity_curve p)
     (Dict.set (MarketData_TradeEvent.symbol event)
        (MarketData_TradeEvent.price event) (last_market_price p))
     (trade_log p) (open_positions p).

(** The loop of [_update_equity] over [self.holdings.items()]. *)
Fixpoint unrealized_pnl (p : t) (items : list (string * Z))
  (unrealized : Decimal) : option Decimal :=
  match items with
  | [] => Some unrealized
  | (symbol, quantity) :: items' =>
      if negb (quantity =? 0)
      then
        match Dict.get symbol (last_market_price p),
              Dict.get symbol (positions_avg_price p) with
        | Some last, Some avg =>
            let price_diff := (last - avg)%Q in
            match Decimal_div price_diff (tick_size p) with
            | Some ticks =>
                let pnl_per_contract := (ticks * tick_value p)%Q in
                unrealized_pnl p items'
                  (unrealized + pnl_per_contract * inject_Z quantity)%Q
            | None => None
            end
        | _, _ => unrealized_pnl p items' unrealized
        end
      else unrealized_pnl p items' unrealized
  end.

(** [equity_curve[-1] = x]. *)
Definition replace_last {A : Type} (x : A) (l : list A) : list A :=
  removelast l ++ [x].

(** [_update_equity]. *)
Definition _update_equity (p : t) (timestamp : Z) : option t :=
  match unrealized_pnl p (holdings p) 0%Q with
  | None => None
  | Some unrealized =>
      let current_equity := (cash p + unrealized)%Q in
      let curve := equity_curve p in
      let curve' :=
        match last (map Some curve) None with
        | None => curve ++ [(timestamp, current_equity)]
        | Some (last_ts, last_equity) =>
            if last_ts <? timestamp
            then curve ++ [(timestamp, current_equity)]
            else if negb (Qeq_bool current_equity last_equity)
            then replace_last (timestamp, current_equity) curve
            else curve
        end in
      Some (mk (initial_capital p) (cash p) (commission_per_contract p)
              (tick_value p) (tick_size p) (holdings p)
              (positions_avg_price p) (realized_pnl p) curve'
              (last_market_price p) (trade_log p) (open_positions p))
  end.

(** The position bookkeeping of [update_fill]: the result is
    [(positions_avg_price, realized_pnl, trade_log, open_positions)]. *)
Definition update_position (p : t) (event : FillEvent.t)
  (current_pos new_pos pos_change : Z)
  : option (Dict.t Decimal * Decimal * list ClosedTrade.t
            * Dict.t OpenPosition.t) :=
  let symbol := FillEvent.symbol event in
  let qty := FillEvent.quantity_filled event in
  let price := FillEvent.fill_price event in
  let comm := FillEvent.commission event in
  let opened :=
    OpenPosition.mk (FillEvent.fill_time event) price new_pos
      (if new_pos >? 0 then OpenPosition.LONG else OpenPosition.SHORT) comm in
  if negb (current_pos =? 0) && (new_pos * current_pos <=? 0)
  then
    let qty_closed := Z.min (Z.abs current_pos) qty in
    match Dict.get symbol (open_positions p) with
    | Some entry_details =>
        let avg_entry_price := OpenPosition.entry_price entry_details in
        let pnl_dir :=
          match OpenPosition.direction entry_details with
          | OpenPosition.LONG => 1
          | OpenPosition.SHORT => -1
          end in
        let pnl :=
          ((price - avg_entry_price) * inject_Z pnl_dir * inject_Z qty_closed)%Q in
        match Decimal_div pnl (tick_size p) with
        | None => None
        | Some pnl_ticks =>
            let realized := (realized_pnl p + pnl_ticks * tick_value p)%Q in
            let log :=
              trade_log p ++
              [ClosedTrade.mk symbol (OpenPosition.entry_time entry_details)
                 (FillEvent.fill_time event)
                 (OpenPosition.direction entry_details) avg_entry_price price
                 qty_closed (pnl_ticks * tick_value p)%Q
                 (OpenPosition.commission entry_details + comm)%Q] in
            if new_pos =? 0
            then
              if Dict.mem symbol (positions_avg_price p)
              then Some (Dict.del symbol (positions_avg_price p), realized, log,
                         Dict.del symbol (open_positions p))
              else None
            else
              Some (Dict.set symbol price (positions_avg_price p), realized, log,
                    Dict.set symbol opened (open_positions p))
        end
    | None =>
        Some (positions_avg_price p, realized_pnl p, trade_log p,
              open_positions p)
    end
  else if negb (new_pos =? 0)
  then
    if current_pos =? 0
    then
      Some (Dict.set symbol price (positions_avg_price p), realized_pnl p,
            trade_log p, Dict.set symbol opened (open_positions p))
    else
      match Dict.get symbol (positions_avg_price p),
            Dict.get symbol (open_positions p) with
      | Some avg, Some details =>
          let old_val := (avg * inject_Z current_pos)%Q in
          let new_val := (price * inject_Z pos_change)%Q in
          match Decimal_div (old_val + new_val)%Q (inject_Z new_pos) with
          | None => None
          | Some avg' =>
              Some (Dict.set symbol avg' (positions_avg_price p),
                    realized_pnl p, trade_log p,
                    Dict.set symbol
                      (OpenPosition.mk (OpenPosition.entry_time details)
                         (OpenPosition.entry_price details) new_pos
                         (OpenPosition.direction details)
                         (OpenPosition.commission details + comm)%Q)
                      (open_positions p))
          end
      | _, _ => None
      end
  else
    Some (positions_avg_price p, realized_pnl p, trade_log p, open_positions p).

(** [update_fill]. *)
Definition update_fill (p : t) (event : FillEvent.t) : option t :=
  let symbol := FillEvent.symbol event in
  let qty := FillEvent.quantity_filled event in
  let price := FillEvent.fill_price event in
  let comm := FillEvent.commission event in
  let direction :=
    if Side_eqb (FillEvent.direction event) BUY then 1 else -1 in
  let pos_change := qty * direction in
  let cash' :=
    (cash p - (price * inject_Z qty * inject_Z direction + comm))%Q in
  let current_pos :=
    match Dict.get symbol (holdings p) with Some n => n | None => 0 end in
  let new_pos := current_pos + pos_change in
  match update_position p event current_pos new_pos pos_change with
  | None => None
  | Some (avg', realized', log', open') =>
      let holdings1 := Dict.set symbol new_pos (holdings p) in
      let holdings2 :=
        if new_pos =? 0 then Dict.del symbol holdings1 else holdings1 in
      _update_equity
        (mk (initial_capital p) cash' (commission_per_contract p)
           (tick_value p) (tick_size p) holdings2 avg' realized'
           (equity_curve p) (last_market_price p) log' open')
        (FillEvent.timestamp event)
  end.

(** [on_order_status] only logs. *)
Definition on_order_status (p : t) (event : OrderEvent.t) : t := p.

(** The fills of a list, in order. *)
Fixpoint update_fills (p : t) (events : list FillEvent.t) : option t :=
  match events with
  | [] => Some p
  | event :: events' =>
      match update_fill p event with
      | Some p' => update_fills p' events'
      | None => None
      end
  end.

End Portfolio.

(** ** strategy/base.py

    The abstract methods of [Strategy]; a method that raises returns
    [None]. *)
Class Strategy (S : Type) := {
  on_market_data : S -> MarketData_TradeEvent.t -> option S;
  on_fill : S -> FillEvent.t -> option S;
  on_order_status : S -> OrderEvent.t -> option S }.

(** ** backtest.py *)

Module BacktestController.

Section WithStrategy.
Context {S : Type} {strategy_class : Strategy S}.

(** The comparisons of [domain/events.py] that [heapq] uses on events. *)
Context (event_lt event_eq : Event -> Event -> bool).

(** The controller; its order book is the one of the execution handler. *)
Record t := mk {
  event_queue : list Event;
  current_time : Z;
  execution_handler : ExecutionHandler.t;
  portfolio : Portfolio.t;
  strategy : S }.

Definition order_book (c : t) : OrderBook.t :=
  ExecutionHandler.order_book (execution_handler c).

(** [heapq.merge(xs, ys)] of two iterables: the smaller head first, the head
    of the first iterable on a tie; an exhausted iterable leaves the
    other. *)
Fixpoint heapq_merge (xs : list Event) : list Event -> list Event :=
  match xs with
  | [] => fun ys => ys
  | x :: xs' =>
      fix merge_ys (ys : list Event) : list Event :=
        match ys with
        | [] => x :: xs'
        | y :: ys' =>
            if event_eq x y || event_lt x y
            then x :: heapq_merge xs' (y :: ys')
            else y :: merge_ys ys'
        end
  end.

(** The execution handler is constructed with the controller itself as its
    [event_queue], and [BacktestController] defines no [append]: the first
    event that a handler call hands over raises [AttributeError].  [h] is
    the handler before the call and [h'] after it. *)
Definition hand_over (h h' : ExecutionHandler.t) : option ExecutionHandler.t :=
  if Nat.eqb (List.length (ExecutionHandler.event_queue h'))
       (List.length (ExecutionHandler.event_queue h))
  then Some h'
  else None.

Definition set_execution_handler (h : ExecutionHandler.t) (c : t) : t :=
  mk (event_queue c) (current_time c) h (portfolio c) (strategy c).

Definition set_portfolio (p : Portfolio.t) (c : t) : t :=
  mk (event_queue c) (current_time c) (execution_handler c) p (strategy c).

Definition set_strategy (s : S) (c : t) : t :=
  mk (event_queue c) (current_time c) (execution_handler c) (portfolio c) s.

Definition set_current_time (n : Z) (c : t) : t :=
  mk (event_queue c) n (execution_handler c) (portfolio c) (strategy c).

(** The body of the loop of [run] after the count check: dispatch on the
    event type.  [time_ns] is the clock reading for an order id. *)
Definition dispatch (c : t) (event : Event) (time_ns : Z) : option t :=
  match event with
  | EvSignal e =>
      match hand_over (execution_handler c)
              (ExecutionHandler.process_signal (execution_handler c) e time_ns) with
      | Some h => Some (set_execution_handler h c)
      | None => None
      end
  | EvOrder e =>
      if OrderStatus_eqb (OrderEvent.status e) PENDING_SUBMIT
      then
        match hand_over (execution_handler c)
                (ExecutionHandler.execute_order (execution_handler c) e) with
        | Some h => Some (set_execution_handler h c)
        | None => None
        end
      else
        let c1 := set_portfolio (Portfolio.on_order_status (portfolio c) e) c in
        match on_order_status (strategy c1) e with
        | Some s => Some (set_strategy s c1)
        | None => None
        end
  | EvFill e =>
      match Portfolio.update_fill (portfolio c) e with
      | Some p =>
          let c1 := set_portfolio p c in
          match on_fill (strategy c1) e with
          | Some s => Some (set_strategy s c1)
          | None => None
          end
      | None => None
      end
  | EvDepth e =>
      Some (set_execution_handler
              (ExecutionHandler.set_order_book
                 (OrderBook.process_depth_event (order_book c) e)
                 (execution_handler c)) c)
  | EvTrade e =>
      let c1 := set_portfolio (Portfolio.update_market_price (portfolio c) e) c in
      match on_market_data (strategy c1) e with
      | None => None
      | Some s =>
          let c2 := set_strategy s c1 in
          let h := execution_handler c2 in
          match ExecutionHandler.check_limit_fills h e with
          | None => None
          | Some h1 =>
              match hand_over h h1 with
              | None => None
              | Some h1 =>
                  match ExecutionHandler.check_stop_triggers h1 e with
                  | None => None
                  | Some h2 =>
                      match hand_over h1 h2 with
                      | None => None
                      | Some h2 => Some (set_execution_handler h2 c2)
                      end
                  end
              end
          end
      end
  end.

(** [max_events and count > max_events]. *)
Definition over_limit (max_events : option Z) (count : Z) : bool :=
  match max_events with
  | Some m => negb (m =? 0) && (count >? m)
  | None => false
  end.

(** The [for] loop of [run] over the merged stream.  The result is the list
    of the events whose dispatch was started, in order, and the controller
    when the loop ended without an exception. *)
Fixpoint run_loop (max_events : option Z) (clock : Z -> Z) (count : Z)
  (c : t) (merged_stream : list Event) (dispatched : list Event)
  : list Event * option t :=
  match merged_stream with
  | [] => (dispatched, Some c)
  | event :: rest =>
      let c1 := set_current_time (event_timestamp event) c in
      let count' := count + 1 in
      if over_limit max_events count'
      then (dispatched, Some c1)
      else
        match dispatch c1 event (clock count') with
        | Some c2 =>
            run_loop max_events clock count' c2 rest (dispatched ++ [event])
        | None => (dispatched ++ [event], None)
        end
  end.

(** [run].  With a test scenario, [_run_test_scenario] pushes its first
    synthetic trade on the queue and then builds a signal with
    [OrderType.MARKET]; backtest.py does not import [OrderType], so the call
    raises [NameError] and [run] ends before its loop, outside the [try].
    Without one, the queue of the controller is merged once with the market
    stream, the loop runs over the result, and the [finally] clause records
    a last equity point at [current_time].  [clock] gives the reading of
    [time.time_ns()] during an iteration.  The result is the list of the
    events dispatched and the final controller when nothing has raised. *)
Definition run (test_scenario : option string) (max_events : option Z)
  (clock : Z -> Z) (c : t) (market_stream : list Event)
  : list Event * option t :=
  if truthy_str test_scenario
  then ([], None)
  else
    let merged_stream := heapq_merge (event_queue c) market_stream in
    let result := run_loop max_events clock 0 c merged_stream [] in
    (fst result,
     match snd result with
     | Some c' =>
         match Portfolio._update_equity (portfolio c') (current_time c') with
         | Some p => Some (set_portfolio p c')
         | None => None
         end
     | None => None
     end).

(** [BacktestController(config)]; the two latencies are given in
    nanoseconds.  The book starts with the synthetic levels when the
    configuration has a [test_scenario] that is not [None]. *)
Definition init (symbol : string) (tick_size capital commission tick_value : Decimal)
  (latency_data_signal_ns latency_signal_order_ns : Z)
  (test_scenario : option string) (strategy : S) : t :=
  let use_synthetic_book :=
    match test_scenario with Some _ => true | None => false end in
  let order_book := OrderBook.init symbol tick_size use_synthetic_book in
  mk [] 0
     (ExecutionHandler.init order_book tick_size latency_data_signal_ns
        latency_signal_order_ns commission)
     (Portfolio.init capital commission tick_value tick_size)
     strategy.

End WithStrategy.

End BacktestController.

(** ** Notions used to state the properties *)

(** Total quantity of a list of levels. *)
Definition total_qty (levels : SortedDict.t) : Z :=
  fold_right (fun kv acc => qty (snd kv) + acc) 0 levels.

(** The levels at prices strictly above, and strictly below, a price. *)
Definition levels_above (p : Decimal) (levels : SortedDict.t) : SortedDict.t :=
  filter (fun kv => Qlt_bool p (fst kv)) levels.

Definition levels_below (p : Decimal) (levels : SortedDict.t) : SortedDict.t :=
  filter (fun kv => Qlt_bool (fst kv) p) levels.

(** [+1] for a buy fill, [-1] for a sell fill. *)
Definition fill_dir (f : FillEvent.t) : Z :=
  if Side_eqb (FillEvent.direction f) BUY then 1 else -1.

(** Sum of [price * qty * dir] over a list of fills. *)
Fixpoint sum_notional (fills : list FillEvent.t) : Q :=
  match fills with
  | [] => 0%Q
  | f :: fills' =>
      (FillEvent.fill_price f * inject_Z (FillEvent.quantity_filled f)
       * inject_Z (fill_dir f) + sum_notional fills')%Q
  end.

(** Sum of the commissions of a list of fills. *)
Fixpoint sum_commission (fills : list FillEvent.t) : Q :=
  match fills with
  | [] => 0%Q
  | f :: fills' => (FillEvent.commission f + sum_commission fills')%Q
  end.

(** Every symbol held has a non-zero position, an average price and an
    open-position record. *)
Definition positions_consistent (p : Portfolio.t) : Prop :=
  forall s n,
    Dict.get s (Portfolio.holdings p) = Some n ->
    n <> 0
    /\ Dict.get s (Portfolio.positions_avg_price p) <> None
    /\ Dict.get s (Portfolio.open_positions p) <> None.

(** An event is a status update [status] of the order [order_id]. *)
Definition is_status_of (order_id : string) (status : OrderStatus) (e : Event)
  : bool :=
  match e with
  | EvOrder o =>
      String.eqb (OrderEvent.order_id o) order_id
      && OrderStatus_eqb (OrderEvent.status o) status
  | _ => false
  end.

(** An event is an order event with status [status]. *)
Definition has_status (status : OrderStatus) (e : Event) : bool :=
  match e with
  | EvOrder o => OrderStatus_eqb (OrderEvent.status o) status
  | _ => false
  end.

(** An event is a fill of the order [order_id]. *)
Definition is_fill_of (order_id : string) (e : Event) : bool :=
  match e with
  | EvFill f => String.eqb (FillEvent.order_id f) order_id
  | _ => false
  end.

(** An event is a fill. *)
Definition is_fill (e : Event) : bool :=
  match e with
  | EvFill _ => true
  | _ => false
  end.

(** The handler [h'] has appended the events [new] to the queue of [h]. *)
Definition appended (h h' : ExecutionHandler.t) (new : list Event) : Prop :=
  ExecutionHandler.event_queue h' = ExecutionHandler.event_queue h ++ new.

(** What a handler call leaves alone when it never reaches a cancellation:
    the pending stops, the linkage records, and a queue that only grows by
    events other than CANCELLED. *)
Definition keeps_stops (h h' : ExecutionHandler.t) : Prop :=
  ExecutionHandler.pending_stop_orders h' = ExecutionHandler.pending_stop_orders h
  /\ ExecutionHandler.linked_exit_orders h' = ExecutionHandler.linked_exit_orders h
  /\ exists new, appended h h' new
                 /\ Forall (fun e => has_status CANCELLED e = false) new.

(** Timestamps never decrease along a list of events. *)
Fixpoint nondecreasing (l : list Event) : Prop :=
  match l with
  | [] => True
  | e :: l' =>
      match l' with
      | [] => True
      | e' :: _ => event_timestamp e <= event_timestamp e'
      end
      /\ nondecreasing l'
  end.

(** A strategy without state that emits nothing, for closed examples. *)
Definition idle_strategy : Strategy unit :=
  {| on_market_data := fun s _ => Some s;
     on_fill := fun s _ => Some s;
     on_order_status := fun s _ => Some s |}.

(** *** Walking a side of the book

    The quantities a market order of [qty_to_fill] contracts takes from the
    levels of a side, best price first: from each level the smaller of what
    is still to fill and what the level holds, until nothing is left to
    fill. *)
Fixpoint consumption (qty_to_fill : Z) (levels : SortedDict.t)
  : list (Decimal * Z) :=
  match levels with
  | [] => []
  | (price, level) :: rest =>
      let c := Z.min qty_to_fill (qty level) in
      (price, c)
      :: (if qty_to_fill - c =? 0 then [] else consumption (qty_to_fill - c) rest)
  end.

Definition consumed_qty (cs : list (Decimal * Z)) : Z :=
  fold_right (fun pc acc => snd pc + acc) 0 cs.

Definition consumed_value (cs : list (Decimal * Z)) : Q :=
  fold_right (fun pc acc => (inject_Z (snd pc) * fst pc + acc)%Q) 0%Q cs.

(** The quantity-weighted average price of the consumed levels. *)
Definition weighted_average_price (cs : list (Decimal * Z)) : Q :=
  (consumed_value cs / inject_Z (consumed_qty cs))%Q.

(** The levels of a side once the quantities [cs] have been taken from its
    first levels: a level left with nothing is deleted. *)
Fixpoint levels_after (cs : list (Decimal * Z)) (levels : SortedDict.t)
  : SortedDict.t :=
  match cs, levels with
  | (_, c) :: cs', (price, level) :: rest =>
      (if qty level - c <=? 0
       then []
       else [(price, mkLevel (qty level - c) (num_orders level))])
      ++ levels_after cs' rest
  | _, _ => levels
  end.

(** The side of the book that an order of direction [dir] trades against. *)
Definition opposite_side (b : OrderBook.t) (dir : Side) : SortedDict.t :=
  if Side_eqb dir BUY then OrderBook.asks b else OrderBook.bids b.

(** Every level of a side holds a positive quantity. *)
Definition positive_levels (levels : SortedDict.t) : Prop :=
  Forall (fun kv => 0 < qty (snd kv)) levels.

(** *** Calls of the handler

    The calls that reach the execution handler, from the run loop or from
    its own methods. *)
Inductive Call :=
  | ProcessSignal (event : SignalEvent.t) (time_ns : Z)
  | ExecuteOrder (order_event : OrderEvent.t)
  | CheckLimitFills (trade_event : MarketData_TradeEvent.t)
  | CheckStopTriggers (trade_event : MarketData_TradeEvent.t)
  | ActivateLinkedExits (entry_order_id : string) (fill : FillEvent.t)
      (time_ns_stop time_ns_target : Z).

Definition call (h : ExecutionHandler.t) (c : Call) : option ExecutionHandler.t :=
  match c with
  | ProcessSignal e time_ns => Some (ExecutionHandler.process_signal h e time_ns)
  | ExecuteOrder o => Some (ExecutionHandler.execute_order h o)
  | CheckLimitFills t => ExecutionHandler.check_limit_fills h t
  | CheckStopTriggers t => ExecutionHandler.check_stop_triggers h t
  | ActivateLinkedExits id f t1 t2 =>
      Some (ExecutionHandler._activate_linked_exits h id f t1 t2)
  end.

(** A sequence of calls; a call that raises ends it. *)
Fixpoint calls (h : ExecutionHandler.t) (cs : list Call)
  : option ExecutionHandler.t :=
  match cs with
  | [] => Some h
  | c :: cs' =>
      match call h c with
      | Some h' => calls h' cs'
      | None => None
      end
  end.

(** The call executes an order with the id [order_id]. *)
Definition executes (order_id : string) (c : Call) : Prop :=
  match c with
  | ExecuteOrder o => OrderEvent.order_id o = order_id
  | _ => False
  end.

(** The order [order_id] is registered and rests in neither pending
    table. *)
Definition lingering (order_id : string) (h : ExecutionHandler.t) : Prop :=
  Dict.get order_id (ExecutionHandler.submitted_orders h) <> None
  /\ Dict.get order_id (ExecutionHandler.pending_limit_orders h) = None
  /\ Dict.get order_id (ExecutionHandler.pending_stop_orders h) = None.

(** The event is neither a fill nor a status update of the order
    [order_id]: an order event with this id can only be a newly created
    order, in status PENDING_SUBMIT. *)
Definition quiet (order_id : string) (e : Event) : bool :=
  match e with
  | EvFill f => negb (String.eqb (FillEvent.order_id f) order_id)
  | EvOrder o =>
      negb (String.eqb (OrderEvent.order_id o) order_id)
      || OrderStatus_eqb (OrderEvent.status o) PENDING_SUBMIT
  | _ => true
  end.

(** From [h] to [h'] a lingering order keeps lingering, and the events
    appended on the way are quiet about it. *)
Definition lingers_through (order_id : string) (h h' : ExecutionHandler.t)
  : Prop :=
  lingering order_id h ->
  lingering order_id h'
  /\ exists new, appended h h' new
                 /\ Forall (fun e => quiet order_id e = true) new.

(** *** Limit orders against a trade

    [clamp x lo hi] for [x] possibly infinite. *)
Definition clamp (x : DecQty) (lo hi : Z) : Z :=
  match x with
  | Fin z => Z.max lo (Z.min z hi)
  | Inf => Z.max lo hi
  | NegInf => lo
  end.

(** The trade matches a limit order with limit price [l]: a buy limit with
    a sell trade at or below the limit, a sell limit with a buy trade at or
    above it. *)
Definition limit_matches (o : OrderEvent.t) (l : Decimal)
  (t : MarketData_TradeEvent.t) : bool :=
  (Side_eqb (OrderEvent.direction o) BUY
   && Side_eqb (MarketData_TradeEvent.side t) SELL
   && Qle_bool (MarketData_TradeEvent.price t) l)
  || (Side_eqb (OrderEvent.direction o) SELL
      && Side_eqb (MarketData_TradeEvent.side t) BUY
      && Qle_bool l (MarketData_TradeEvent.price t)).

(** [clamp(trade_consumes - qty_ahead, 0, qty_remaining)]. *)
Definition fill_on_trade (d : ExecutionHandler.PendingLimit) (l : Decimal)
  (t : MarketData_TradeEvent.t) : Z :=
  clamp (DecQty_sub_int (ExecutionHandler.trade_consumes t l)
           (ExecutionHandler.qty_ahead d))
    0
    (OrderEvent.quantity (ExecutionHandler.order d)
     - ExecutionHandler.qty_filled d).

(** [max(0, qty_ahead - trade_consumes)]: what is left of the queue after a
    trade at the limit price, nothing after a trade through it. *)
Definition queue_after (d : ExecutionHandler.PendingLimit) (l : Decimal)
  (t : MarketData_TradeEvent.t) : Z :=
  if Qeq_bool (MarketData_TradeEvent.price t) l
  then Z.max 0 (ExecutionHandler.qty_ahead d - MarketData_TradeEvent.quantity t)
  else 0.

(** The limit price of a pending order that the trade matches, on the
    symbol of the order. *)
Definition applies (d : ExecutionHandler.PendingLimit)
  (t : MarketData_TradeEvent.t) : option Decimal :=
  match OrderEvent.limit_price (ExecutionHandler.order d) with
  | Some l =>
      if String.eqb (OrderEvent.symbol (ExecutionHandler.order d))
           (MarketData_TradeEvent.symbol t)
         && limit_matches (ExecutionHandler.order d) l t
      then Some l
      else None
  | None => None
  end.

(** The record of a pending order after a trade: [None] when the order has
    left [pending_limit_orders]. *)
Definition pending_after (d : ExecutionHandler.PendingLimit)
  (t : MarketData_TradeEvent.t) : option ExecutionHandler.PendingLimit :=
  match applies d t with
  | Some l =>
      let f := fill_on_trade d l t in
      if (f >? 0)
         && (ExecutionHandler.qty_filled d + f
             >=? OrderEvent.quantity (ExecutionHandler.order d))
      then None
      else Some (ExecutionHandler.mkPendingLimit (ExecutionHandler.order d)
                   (queue_after d l t) (ExecutionHandler.qty_filled d + f))
  | None => Some d
  end.

(** The fills of a pending order on a trade: one fill at the limit price
    when the fill quantity is positive. *)
Definition fills_on_trade (commission_per_contract : Decimal) (order_id : string)
  (d : ExecutionHandler.PendingLimit) (t : MarketData_TradeEvent.t)
  : list Event :=
  match applies d t with
  | Some l =>
      let f := fill_on_trade d l t in
      if f >? 0
      then [EvFill
              (FillEvent.mk (MarketData_TradeEvent.timestamp t) order_id
                 (OrderEvent.strategy_id (ExecutionHandler.order d))
                 (OrderEvent.symbol (ExecutionHandler.order d))
                 (OrderEvent.direction (ExecutionHandler.order d)) f l
                 (commission_per_contract * inject_Z f)%Q None None
                 (MarketData_TradeEvent.timestamp t))]
      else []
  | None => []
  end.

(** Every pending limit order has a limit price. *)
Definition priced (h : ExecutionHandler.t) : Prop :=
  forall k v,
    In (k, v) (ExecutionHandler.pending_limit_orders h) ->
    OrderEvent.limit_price (ExecutionHandler.order v) <> None.

(** The quantity of a fill event, zero for another event. *)
Definition fill_quantity (e : Event) : Z :=
  match e with
  | EvFill f => FillEvent.quantity_filled f
  | _ => 0
  end.

(** The quantity filled for the order [order_id] by the fills among a list
    of events. *)
Definition filled_by (order_id : string) (events : list Event) : Z :=
  fold_right (fun e acc => fill_quantity e + acc) 0
    (filter (is_fill_of order_id) events).

(** Every pending limit order is filled for less than its quantity. *)
Definition partly_filled (h : ExecutionHandler.t) : Prop :=
  forall id d,
    Dict.get id (ExecutionHandler.pending_limit_orders h) = Some d ->
    0 <= ExecutionHandler.qty_filled d
         < OrderEvent.quantity (ExecutionHandler.order d).

(** A limit order of the given quantity, bought at 5949.00 on the synthetic
    book, once placed. *)
Definition placed_limit_buy (quantity : Z) : option ExecutionHandler.t :=
  let h1 :=
    ExecutionHandler.process_signal
      (ExecutionHandler.init (OrderBook.init "ES" (1 # 4)%Q true) (1 # 4)%Q
         100000 500000 (5 # 2)%Q)
      (SignalEvent.mk 2 "S" "ES" BUY LIMIT quantity (Some (23796 # 4)%Q) None
         None None None) 1000 in
  match ExecutionHandler.event_queue h1 with
  | [EvOrder entry] => Some (ExecutionHandler.execute_order h1 entry)
  | _ => None
  end.

(** *** An order larger than a small book

    Two ask levels, three contracts at 5950.25 and four at 5950.50, and a buy
    signal for ten contracts. *)
Module Oversized.

Definition book : OrderBook.t :=
  OrderBook.process_depth_event
    (OrderBook.process_depth_event (OrderBook.init "ES" (1 # 4)%Q false)
       (MarketData_DepthEvent.mk 1 "ES" (23801 # 4)%Q 3 BUY INSERT 0 1))
    (MarketData_DepthEvent.mk 2 "ES" (23802 # 4)%Q 4 BUY INSERT 0 2).

Definition handler0 : ExecutionHandler.t :=
  ExecutionHandler.init book (1 # 4)%Q 100000 500000 (5 # 2)%Q.

Definition signal : SignalEvent.t :=
  SignalEvent.mk 3 "S" "ES" BUY MARKET 10 None None None None None.

(** The handler after the signal, with the entry order. *)
Definition signalled : option (ExecutionHandler.t * OrderEvent.t) :=
  let h1 := ExecutionHandler.process_signal handler0 signal 1000 in
  match ExecutionHandler.event_queue h1 with
  | [EvOrder entry] => Some (h1, entry)
  | _ => None
  end.

(** Later calls: two trades, and a second signal with its order. *)
Definition later : list Call :=
  [CheckLimitFills (MarketData_TradeEvent.mk 700000 "ES" (23802 # 4)%Q 5 BUY);
   CheckStopTriggers (MarketData_TradeEvent.mk 700000 "ES" (23802 # 4)%Q 5 BUY);
   ProcessSignal
     (SignalEvent.mk 800000 "S" "ES" SELL LIMIT 2 (Some (23810 # 4)%Q) None
        None None None) 2000;
   CheckLimitFills (MarketData_TradeEvent.mk 1500000 "ES" (23810 # 4)%Q 5 BUY)].

End Oversized.

(** *** A bracket on the synthetic book

    A buy signal for one contract with a stop at 5947.50 and a target at
    5956.625 is turned into an entry order, the entry is executed on the
    synthetic book, the linked exits are activated for its fill, and both
    exits are placed. *)
Module Bracket.

Definition handler0 : ExecutionHandler.t :=
  ExecutionHandler.init (OrderBook.init "ES" (1 # 4)%Q true) (1 # 4)%Q
    100000 500000 (5 # 2)%Q.

Definition signal : SignalEvent.t :=
  SignalEvent.mk 2 "S" "ES" BUY MARKET 1 None None
    (Some (23801 # 4)%Q) (Some (11895 # 2)%Q) (Some (47653 # 8)%Q).

(** The handler after the signal, with the entry order it has appended. *)
Definition signalled : option (ExecutionHandler.t * OrderEvent.t) :=
  let h1 := ExecutionHandler.process_signal handler0 signal 1000 in
  match ExecutionHandler.event_queue h1 with
  | [EvOrder entry] => Some (h1, entry)
  | _ => None
  end.

(** The handler after the execution of the entry, with the entry fill. *)
Definition entered : option (ExecutionHandler.t * FillEvent.t) :=
  match signalled with
  | Some (h1, entry) =>
      let h2 := ExecutionHandler.execute_order h1 entry in
      match ExecutionHandler.event_queue h2 with
      | [_; _; EvFill fill; _] => Some (h2, fill)
      | _ => None
      end
  | None => None
  end.

(** The handler after [_activate_linked_exits] on the entry fill, with the
    two exit orders. *)
Definition activated
  : option (ExecutionHandler.t * OrderEvent.t * OrderEvent.t) :=
  match entered with
  | Some (h2, fill) =>
      let h3 :=
        ExecutionHandler._activate_linked_exits h2 (FillEvent.order_id fill)
          fill 2000 3000 in
      match skipn 4 (ExecutionHandler.event_queue h3) with
      | [EvOrder stop; EvOrder target] => Some (h3, stop, target)
      | _ => None
      end
  | None => None
  end.

(** The handler with both exits placed. *)
Definition placed : option ExecutionHandler.t :=
  match activated with
  | Some (h3, stop, target) =>
      Some (ExecutionHandler.execute_order
              (ExecutionHandler.execute_order h3 stop) target)
  | None => None
  end.

(** A buy trade of ten contracts through the target price. *)
Definition target_trade : MarketData_TradeEvent.t :=
  MarketData_TradeEvent.mk 9000000 "ES" (5957 # 1)%Q 10 BUY.

End Bracket.

(** ** Notions for the order book *)

(** The items of a side lie in strictly increasing order of their sort
    keys. *)
Fixpoint sorted_side (kf : Decimal -> Decimal) (d : SortedDict.t) : Prop :=
  match d with
  | [] => True
  | (k, _) :: d' =>
      Forall (fun kv => (kf k < kf (fst kv))%Q) d' /\ sorted_side kf d'
  end.

(** The two cached best prices are the first keys of the two sides. *)
Definition synced (b : OrderBook.t) : Prop :=
  OrderBook.best_bid b = SortedDict.first_key (OrderBook.bids b)
  /\ OrderBook.best_ask b = SortedDict.first_key (OrderBook.asks b).

(** A book in order: both sides sorted by their key functions, the cached
    best prices in step with them. *)
Definition book_ok (b : OrderBook.t) : Prop :=
  sorted_side bids_key (OrderBook.bids b)
  /\ sorted_side asks_key (OrderBook.asks b)
  /\ synced b.

(** The book takes the depth event: it is for its symbol and not older than
    the last update. *)
Definition accepted (b : OrderBook.t) (e : MarketData_DepthEvent.t) : Prop :=
  MarketData_DepthEvent.symbol e = OrderBook.symbol b
  /\ OrderBook.last_update_time b <= MarketData_DepthEvent.timestamp e.

(** What [get_bbo] reports for a side: the first price, and the quantity at
    it unless that price is zero. *)
Definition best_level (d : SortedDict.t) : option Decimal * Z :=
  match d with
  | [] => (None, 0)
  | (p, l) :: _ => (Some p, if Qeq_bool p 0 then 0 else qty l)
  end.

(** ** Notions for the execution handler *)

(** The side of the book on which an order of direction [dir] would rest:
    the bids for a buy order, the asks for a sell order. *)
Definition own_side (b : OrderBook.t) (dir : Side) : SortedDict.t :=
  if Side_eqb dir BUY then OrderBook.bids b else OrderBook.asks b.

(** The aggressor side of the trades that can fill a resting order of
    direction [dir]. *)
Definition filling_side (dir : Side) : Side :=
  if Side_eqb dir BUY then SELL else BUY.

(** The trade triggers the stop order: a sell stop at or below its stop
    price, a buy stop at or above it, on the symbol of the order. *)
Definition stop_triggered (t : MarketData_TradeEvent.t) (o : OrderEvent.t) : bool :=
  String.eqb (OrderEvent.symbol o) (MarketData_TradeEvent.symbol t)
  && match OrderEvent.stop_price o with
     | Some s =>
         (Side_eqb (OrderEvent.direction o) SELL
          && Qle_bool (MarketData_TradeEvent.price t) s)
         || (Side_eqb (OrderEvent.direction o) BUY
             && Qle_bool s (MarketData_TradeEvent.price t))
     | None => false
     end.

(** Every pending stop order has a stop price. *)
Definition stops_priced (h : ExecutionHandler.t) : Prop :=
  forall k o,
    In (k, o) (ExecutionHandler.pending_stop_orders h) ->
    OrderEvent.stop_price o <> None.

(** The character occurs in the string. *)
Fixpoint contains_char (c : Ascii.ascii) (s : string) : bool :=
  match s with
  | EmptyString => false
  | String c' s' => Ascii.eqb c c' || contains_char c s'
  end.

(** The prefixes under which the handler generates order ids. *)
Definition id_prefixes : list string :=
  ["ENTRY"%string; "STOP"%string; "TARGET"%string].

(** ** Notions for the portfolio *)

(** The position in a symbol: the entry of [holdings], zero without one. *)
Definition position (p : Portfolio.t) (s : string) : Z :=
  match Dict.get s (Portfolio.holdings p) with Some n => n | None => 0 end.

(** The signed quantity of the fills of a list in a symbol. *)
Fixpoint net_position (s : string) (fills : list FillEvent.t) : Z :=
  match fills with
  | [] => 0
  | f :: fills' =>
      (if String.eqb s (FillEvent.symbol f)
       then FillEvent.quantity_filled f * fill_dir f
       else 0)
      + net_position s fills'
  end.

(** The timestamps of an equity curve increase strictly. *)
Fixpoint curve_increasing (l : list (Z * Decimal)) : Prop :=
  match l with
  | [] => True
  | pt :: l' =>
      match l' with
      | [] => True
      | pt' :: _ => fst pt < fst pt'
      end
      /\ curve_increasing l'
  end.

(** No point of the curve is later than [ts]. *)
Definition curve_until (ts : Z) (l : list (Z * Decimal)) : Prop :=
  Forall (fun pt => fst pt <= ts) l.

(** ** domain/enums.py: the action on a zero denominator *)

Inductive ZeroCompareAction := SET_0_TO_1 | SET_PERC_1000.

(** ** strategy/base.py and strategy/footprint_diagonal.py

    The signal side of [FootprintDiagonalRatioStrategy]: [_generate_signal]
    of the base class and [_calculate_and_signal].  The bar bookkeeping of
    [on_market_data] works on local [datetime] values and is not part of
    the model; the volume profile is taken as it stands when a bar ends.
    The order book is the one shared with the controller and is passed to
    the methods that read it. *)

Module FootprintDiagonalRatioStrategy.

(** A value of [volume_profile]: [{'bid_vol': ..., 'ask_vol': ...}]. *)
Record Volumes := mkVolumes { bid_vol : Z; ask_vol : Z }.

Record t := mk {
  symbol : string;
  event_queue : list Event;
  strategy_id : string;
  active_order_id : option string;
  current_position : Z;
  tick_size : Decimal;
  percentage_threshold : Decimal;
  enable_zero_compares : bool;
  zero_compare_action : ZeroCompareAction;
  stop_ticks : Z;
  risk_reward : Decimal;
  min_liquidity_check : Z;
  volume_profile : list (Decimal * Volumes) }.

(** [volume_profile.get(price)]. *)
Fixpoint profile_get (price : Decimal) (profile : list (Decimal * Volumes))
  : option Volumes :=
  match profile with
  | [] => None
  | (k, v) :: profile' =>
      if Qeq_bool price k then Some v else profile_get price profile'
  end.

(** [sorted(prices)]. *)
Fixpoint insert_price (p : Decimal) (l : list Decimal) : list Decimal :=
  match l with
  | [] => [p]
  | q :: l' => if Qle_bool p q then p :: l else q :: insert_price p l'
  end.

Definition sorted (prices : list Decimal) : list Decimal :=
  fold_right insert_price [] prices.

(** [_generate_signal] of the base class.  With an active order the method
    returns at once.  Otherwise it builds the [SignalEvent], passing
    [event_type=EventType.SIGNAL]: base.py imports [Side] and [OrderType]
    from the enums but not [EventType], so the evaluation of the arguments
    raises [NameError], and neither the append to the queue nor the
    assignment of [active_order_id] after it is reached. *)
Definition _generate_signal (s : t) (b : OrderBook.t) (direction : Side)
  (order_type : OrderType) (quantity : Z) (limit_price stop_price : option Decimal)
  (signal_trigger_price signal_stop_price signal_target_price : option Decimal)
  (timestamp : option Z) : option t :=
  match active_order_id s with
  | Some _ => Some s
  | None => None
  end.

(** The loop of [_calculate_and_signal] over the sorted prices with bid
    volume; [continue] is the recursive call, [return] ends the loop. *)
Fixpoint signal_loop (s : t) (b : OrderBook.t) (timestamp : Z)
  (prices_with_bids : list Decimal) : option t :=
  match prices_with_bids with
  | [] => Some s
  | price_bid :: rest =>
      let bid_vol :=
        inject_Z (match profile_get price_bid (volume_profile s) with
                  | Some v => bid_vol v
                  | None => 0
                  end) in
      let price_ask_diag := (price_bid + tick_size s)%Q in
      let ask_vol_diag :=
        inject_Z (match profile_get price_ask_diag (volume_profile s) with
                  | Some v => ask_vol v
                  | None => 0
                  end) in
      let zero := Qeq_bool bid_vol 0 || Qeq_bool ask_vol_diag 0 in
      if zero && negb (enable_zero_compares s)
      then signal_loop s b timestamp rest
      else
        let '(d_bid, d_ask, perc_ratio0, skip_calc) :=
          if zero
          then
            match zero_compare_action s with
            | SET_0_TO_1 =>
                (if Qeq_bool bid_vol 0 then 1%Q else bid_vol,
                 if Qeq_bool ask_vol_diag 0 then 1%Q else ask_vol_diag,
                 0%Q, false)
            | SET_PERC_1000 =>
                (bid_vol, ask_vol_diag,
                 if Qeq_bool bid_vol 0 then (1000 # 1)%Q else (- (1000 # 1))%Q,
                 true)
            end
          else (bid_vol, ask_vol_diag, 0%Q, false) in
        let perc_ratio :=
          if skip_calc then perc_ratio0
          else if Qle_bool bid_vol ask_vol_diag
          then if Qlt_bool 0 d_bid
               then (d_ask / d_bid * (100 # 1))%Q
               else (1000 # 1)%Q
          else if Qlt_bool 0 d_ask
               then (d_bid / d_ask * - (100 # 1))%Q
               else (- (1000 # 1))%Q in
        let signal :=
          if Qlt_bool 0 perc_ratio && Qle_bool (percentage_threshold s) perc_ratio
          then Some (BUY, price_ask_diag)
          else if Qlt_bool perc_ratio 0
                  && Qle_bool perc_ratio (- percentage_threshold s)
          then Some (SELL, price_bid)
          else None in
        match signal with
        | Some (signal_dir, trigger_price) =>
            if current_position s =? 0
            then
              let '(_, bbo_bid_q, _, bbo_ask_q) := OrderBook.get_bbo b in
              if (min_liquidity_check s >? 0)
                 && ((Side_eqb signal_dir BUY
                      && (bbo_ask_q <? min_liquidity_check s))
                     || (Side_eqb signal_dir SELL
                         && (bbo_bid_q <? min_liquidity_check s)))
              then signal_loop s b timestamp rest
              else
                let stop_dist := (inject_Z (stop_ticks s) * tick_size s)%Q in
                let target_dist := (stop_dist * risk_reward s)%Q in
                let stop_price :=
                  if Side_eqb signal_dir BUY
                  then (trigger_price - stop_dist)%Q
                  else (trigger_price + stop_dist)%Q in
                let target_price :=
                  if Side_eqb signal_dir BUY
                  then (trigger_price + target_dist)%Q
                  else (trigger_price - target_dist)%Q in
                _generate_signal s b signal_dir MARKET 1 None None
                  (Some trigger_price) (Some stop_price) (Some target_price)
                  (Some timestamp)
            else signal_loop s b timestamp rest
        | None => signal_loop s b timestamp rest
        end
  end.

(** [_calculate_and_signal]. *)
Definition _calculate_and_signal (s : t) (b : OrderBook.t) (timestamp : Z)
  : option t :=
  match volume_profile s with
  | [] => Some s
  | _ =>
      if truthy_str (active_order_id s)
      then Some s
      else
        signal_loop s b timestamp
          (sorted (map fst (filter (fun kv => bid_vol (snd kv) >? 0)
                              (volume_profile s))))
  end.

End FootprintDiagonalRatioStrategy.

(** A bar with 10 contracts sold at 5950.00 and 40 bought at 5950.25, in a
    strategy with the default parameters, the given position and no active
    order: the diagonal ratio is 400 percent, above the threshold of 150. *)
Definition strategy_at_bar_end (current_position : Z)
  : FootprintDiagonalRatioStrategy.t :=
  FootprintDiagonalRatioStrategy.mk "ES" [] "FootprintDiagonalRatioStrategy_ES"
    None current_position (1 # 4)%Q (150 # 1)%Q false SET_0_TO_1 11 (5 # 2)%Q 0
    [((5950 # 1)%Q, FootprintDiagonalRatioStrategy.mkVolumes 10 0);
     ((23801 # 4)%Q, FootprintDiagonalRatioStrategy.mkVolumes 0 40)].

(** ** Notions for the controller *)

(** An event of the market stream: a trade or a depth update. *)
Definition market_event (e : Event) : Prop :=
  match e with
  | EvTrade _ | EvDepth _ => True
  | _ => False
  end.

(** Nothing rests in the pending tables of the handler. *)
Definition nothing_pending (h : ExecutionHandler.t) : Prop :=
  ExecutionHandler.pending_limit_orders h = []
  /\ ExecutionHandler.pending_stop_orders h = [].

(** Two handlers agree in everything except the order book. *)
Definition same_orders (h h' : ExecutionHandler.t) : Prop :=
  ExecutionHandler.event_queue h' = ExecutionHandler.event_queue h
  /\ ExecutionHandler.order_counter h' = ExecutionHandler.order_counter h
  /\ ExecutionHandler.submitted_orders h' = ExecutionHandler.submitted_orders h
  /\ ExecutionHandler.pending_limit_orders h' = ExecutionHandler.pending_limit_orders h
  /\ ExecutionHandler.pending_stop_orders h' = ExecutionHandler.pending_stop_orders h
  /\ ExecutionHandler.linked_exit_orders h' = ExecutionHandler.linked_exit_orders h.

(** Two portfolios agree in cash, positions and trades. *)
Definition same_account (p p' : Portfolio.t) : Prop :=
  Portfolio.cash p' = Portfolio.cash p
  /\ Portfolio.tick_size p' = Portfolio.tick_size p
  /\ Portfolio.holdings p' = Portfolio.holdings p
  /\ Portfolio.positions_avg_price p' = Portfolio.positions_avg_price p
  /\ Portfolio.open_positions p' = Portfolio.open_positions p
  /\ Portfolio.realized_pnl p' = Portfolio.realized_pnl p
  /\ Portfolio.trade_log p' = Portfolio.trade_log p.

(** * Properties *)

(** ** Dictionaries *)

Lemma Dict_get_set_same {V : Type} (k : string) (v : V) (d : Dict.t V) :
  Dict.get k (Dict.set k v d) = Some v.
Proof.
  induction d as [|[k' v'] d IH]; simpl.
  - now rewrite String.eqb_refl.
  - destruct (String.eqb k k') eqn:E; simpl.
    + now rewrite String.eqb_refl.
    + now rewrite E.
Qed.

Lemma Dict_get_set_other {V : Type} (k k' : string) (v : V) (d : Dict.t V) :
  k' <> k -> Dict.get k' (Dict.set k v d) = Dict.get k' d.
Proof.
  intros Hne. induction d as [|[k0 v0] d IH]; simpl.
  - destruct (String.eqb k' k) eqn:E; [apply String.eqb_eq in E; contradiction | reflexivity].
  - destruct (String.eqb k k0) eqn:E; simpl.
    + apply String.eqb_eq in E. subst k0.
      destruct (String.eqb k' k) eqn:E'; [apply String.eqb_eq in E'; contradiction | reflexivity].
    + destruct (String.eqb k' k0); [reflexivity | exact IH].
Qed.

Lemma Dict_get_del_same {V : Type} (k : string) (d : Dict.t V) :
  Dict.get k (Dict.del k d) = None.
Proof.
  unfold Dict.del. induction d as [|[k' v'] d IH]; simpl; [reflexivity|].
  destruct (String.eqb k k') eqn:E; simpl; [exact IH | now rewrite E].
Qed.

Lemma Dict_get_del_other {V : Type} (k k' : string) (d : Dict.t V) :
  k' <> k -> Dict.get k' (Dict.del k d) = Dict.get k' d.
Proof.
  intros Hne. unfold Dict.del. induction d as [|[k0 v0] d IH]; simpl; [reflexivity|].
  destruct (String.eqb k k0) eqn:E; simpl.
  - apply String.eqb_eq in E. subst k0.
    destruct (String.eqb k' k) eqn:E'; [apply String.eqb_eq in E'; contradiction | exact IH].
  - destruct (String.eqb k' k0); [reflexivity | exact IH].
Qed.

Lemma Dict_get_In {V : Type} (k : string) (v : V) (d : Dict.t V) :
  Dict.get k d = Some v -> In (k, v) d.
Proof.
  induction d as [|[k' v'] d IH]; simpl; [discriminate|].
  destruct (String.eqb k k') eqn:E.
  - apply String.eqb_eq in E. intros [= ->]. subst. now left.
  - intros H. right. now apply IH.
Qed.

Lemma Dict_get_None_notin {V : Type} (k : string) (d : Dict.t V) :
  Dict.get k d = None -> ~ In k (Dict.keys d).
Proof.
  induction d as [|[k' v'] d IH]; simpl; [tauto|].
  destruct (String.eqb k k') eqn:E; [discriminate|].
  intros H [Heq|Hin].
  - subst. now rewrite String.eqb_refl in E.
  - now apply IH.
Qed.

Lemma Dict_notin_get_None {V : Type} (k : string) (d : Dict.t V) :
  ~ In k (Dict.keys d) -> Dict.get k d = None.
Proof.
  induction d as [|[k' v'] d IH]; simpl; [reflexivity|].
  intros H. destruct (String.eqb k k') eqn:E.
  - apply String.eqb_eq in E. subst. tauto.
  - apply IH. tauto.
Qed.

Lemma Dict_In_get {V : Type} (k : string) (v : V) (d : Dict.t V) :
  Dict.wf d -> In (k, v) d -> Dict.get k d = Some v.
Proof.
  unfold Dict.wf. induction d as [|[k' v'] d IH]; simpl; [tauto|].
  intros Hnd [Heq|Hin].
  - injection Heq as -> ->. now rewrite String.eqb_refl.
  - inversion Hnd; subst. destruct (String.eqb k k') eqn:E.
    + apply String.eqb_eq in E. subst. exfalso. apply H1.
      change k' with (fst (k', v)). now apply in_map.
    + now apply IH.
Qed.

(** ** Sorted dictionaries *)

Lemma Qeq_bool_refl (x : Q) : Qeq_bool x x = true.
Proof. apply Qeq_bool_iff. reflexivity. Qed.

Lemma Qlt_bool_iff (x y : Q) : Qlt_bool x y = true <-> (x < y)%Q.
Proof.
  unfold Qlt_bool. rewrite negb_true_iff. split.
  - intros H. apply Qnot_le_lt. intros Hle. apply Qle_bool_iff in Hle. congruence.
  - intros H. destruct (Qle_bool y x) eqn:E; [|reflexivity].
    apply Qle_bool_iff in E. exfalso. now apply (Qlt_not_le x y).
Qed.

Lemma SortedDict_get_setitem_same kf (k : Decimal) (v : Level) (d : SortedDict.t) :
  SortedDict.get k (SortedDict.setitem kf k v d) = Some v.
Proof.
  induction d as [|[k' v'] d IH]; simpl.
  - now rewrite Qeq_bool_refl.
  - destruct (Qeq_bool k k') eqn:E; simpl.
    + now rewrite E.
    + destruct (Qlt_bool (kf k) (kf k')); simpl.
      * now rewrite Qeq_bool_refl.
      * now rewrite E.
Qed.

Lemma SortedDict_get_delitem_same (k : Decimal) (d : SortedDict.t) :
  SortedDict.get k (SortedDict.delitem k d) = None.
Proof.
  unfold SortedDict.delitem. induction d as [|[k' v'] d IH]; simpl; [reflexivity|].
  destruct (Qeq_bool k k') eqn:E; simpl; [exact IH | now rewrite E].
Qed.

(** ** Order book: quantity ahead (C6) *)

Lemma fold_left_qty (l : SortedDict.t) (a : Z) :
  fold_left (fun qty_ahead kv => qty_ahead + qty (snd kv)) l a = a + total_qty l.
Proof.
  revert a. induction l as [|kv l IH]; intros a; simpl.
  - lia.
  - rewrite IH. lia.
Qed.

Lemma Qlt_bool_opp (x y : Q) : Qlt_bool (- x) (- y) = Qlt_bool y x.
Proof.
  destruct (Qlt_bool y x) eqn:E.
  - apply Qlt_bool_iff. apply Qlt_bool_iff in E. lra.
  - destruct (Qlt_bool (- x) (- y)) eqn:E'; [|reflexivity].
    apply Qlt_bool_iff in E'. assert (H : (y < x)%Q) by lra.
    apply Qlt_bool_iff in H. congruence.
Qed.

(** What the code computes for a buy order: the bids strictly BELOW the
    order price, because [irange] maps its [minimum] through the key function
    [-k] of the bid side. *)
Lemma estimate_quantity_ahead_buy_below (b : OrderBook.t) (p : Decimal) :
  OrderBook.estimate_quantity_ahead b (Some p) BUY
  = total_qty (levels_below p (OrderBook.bids b)).
Proof.
  unfold OrderBook.estimate_quantity_ahead, SortedDict.irange_exclusive, levels_below.
  rewrite fold_left_qty. simpl. f_equal. apply filter_ext. intros [k v]. simpl.
  unfold bids_key. rewrite Qlt_bool_opp. apply andb_true_r.
Qed.

(** For a sell order the code adds the asks strictly below the order price,
    the better prices of that side. *)
Lemma estimate_quantity_ahead_sell_below (b : OrderBook.t) (p : Decimal) :
  OrderBook.estimate_quantity_ahead b (Some p) SELL
  = total_qty (levels_below p (OrderBook.asks b)).
Proof.
  unfold OrderBook.estimate_quantity_ahead, SortedDict.irange_exclusive, levels_below.
  rewrite fold_left_qty. simpl. f_equal.
Qed.

(** C6.  On the synthetic book of the repository (bids 5950.00 down to
    5947.75 with 1000, 900, ..., 100 contracts), the quantity ahead of a buy
    order at 5949.75 is computed as 3600, the total of the eight bids below
    5949.75; the bids strictly above 5949.75, which the claim and the
    docstring of the method name, hold 1000.  For a sell order at 5950.75 the
    result, 300, is the total of the asks below that price, as claimed. *)
Theorem estimate_quantity_ahead_buy_sums_lower_bids :
  let b := OrderBook.init "ES" (1 # 4)%Q true in
  OrderBook.estimate_quantity_ahead b (Some (23799 # 4)%Q) BUY = 3600
  /\ total_qty (levels_above (23799 # 4)%Q (OrderBook.bids b)) = 1000
  /\ total_qty (levels_below (23799 # 4)%Q (OrderBook.bids b)) = 3600
  /\ OrderBook.estimate_quantity_ahead b (Some (23803 # 4)%Q) SELL = 300
  /\ total_qty (levels_below (23803 # 4)%Q (OrderBook.asks b)) = 300.
Proof. vm_compute. repeat split. Qed.

(** ** Depth rows with other command codes (C8) *)

Lemma OrderCommand_of_value_outside (n : Z) :
  n < 1 \/ 7 < n -> OrderCommand_of_value n = None.
Proof.
  intros H. unfold OrderCommand_of_value.
  destruct n as [|p|p]; try reflexivity.
  repeat (destruct p as [p|p|]; try reflexivity; try lia).
Qed.

Lemma OrderCommand_of_value_placeholder (n : Z) :
  4 <= n <= 7 ->
  exists c, OrderCommand_of_value n = Some c
            /\ c <> DELETE /\ c <> INSERT /\ c <> UPDATE.
Proof.
  intros H.
  assert (Hn : n = 4 \/ n = 5 \/ n = 6 \/ n = 7) by lia.
  destruct Hn as [-> | [-> | [-> | ->]]]; simpl; eexists; repeat split; discriminate.
Qed.

(** The side of the book that a depth event addresses. *)
Lemma get_level_data_process_update (b : OrderBook.t) (e : MarketData_DepthEvent.t) :
  MarketData_DepthEvent.symbol e = OrderBook.symbol b ->
  OrderBook.last_update_time b <= MarketData_DepthEvent.timestamp e ->
  MarketData_DepthEvent.command e = UPDATE ->
  OrderBook.get_level_data (OrderBook.process_depth_event b e)
    (Some (MarketData_DepthEvent.price e)) (MarketData_DepthEvent.side e)
  = if MarketData_DepthEvent.quantity e >? 0
    then Some (mkLevel (MarketData_DepthEvent.quantity e)
                 (MarketData_DepthEvent.num_orders e))
    else None.
Proof.
  intros Hsym Hts Hcmd. unfold OrderBook.process_depth_event, OrderBook.get_level_data.
  rewrite Hsym, String.eqb_refl. simpl.
  destruct (MarketData_DepthEvent.timestamp e <? OrderBook.last_update_time b) eqn:E;
    [apply Z.ltb_lt in E; lia|].
  rewrite Hcmd. simpl.
  destruct (MarketData_DepthEvent.quantity e <=? 0) eqn:Eq.
  - assert (Hgt : (MarketData_DepthEvent.quantity e >? 0) = false).
    { apply Z.leb_le in Eq. destruct (Z.gtb_spec (MarketData_DepthEvent.quantity e) 0); [lia|reflexivity]. }
    rewrite Hgt. destruct (MarketData_DepthEvent.side e); simpl;
      apply SortedDict_get_delitem_same.
  - assert (Hgt : (MarketData_DepthEvent.quantity e >? 0) = true).
    { apply Z.leb_gt in Eq. destruct (Z.gtb_spec (MarketData_DepthEvent.quantity e) 0); [reflexivity|lia]. }
    rewrite Hgt. destruct (MarketData_DepthEvent.side e); simpl;
      apply SortedDict_get_setitem_same.
Qed.

(** C8, as amended.  A depth row whose command code is no value of
    [OrderCommand] (below 1 or above 7) becomes an UPDATE event: applied to
    a book of the same symbol that is not newer than the row, it sets the
    level at its price to the row's quantity and number of orders when the
    quantity is positive and removes the level otherwise.  The codes 4 to 7
    are members of the enumeration: they keep their own command, and the
    book keeps its levels. *)
Theorem depth_row_unknown_command (symbol : string) (b : OrderBook.t)
  (row : SQLiteDataLoader.DepthRow) :
  OrderBook.symbol b = symbol ->
  OrderBook.last_update_time b <= SQLiteDataLoader.row_timestamp row ->
  let e := SQLiteDataLoader._create_event_from_depth_row symbol row in
  let b' := OrderBook.process_depth_event b e in
  (SQLiteDataLoader.row_command row < 1 \/ 7 < SQLiteDataLoader.row_command row ->
     MarketData_DepthEvent.command e = UPDATE
     /\ (SQLiteDataLoader.row_qty row > 0 ->
         OrderBook.get_level_data b' (Some (SQLiteDataLoader.row_price row))
           (MarketData_DepthEvent.side e)
         = Some (mkLevel (SQLiteDataLoader.row_qty row)
                   (SQLiteDataLoader.row_num_orders row)))
     /\ (SQLiteDataLoader.row_qty row <= 0 ->
         OrderBook.get_level_data b' (Some (SQLiteDataLoader.row_price row))
           (MarketData_DepthEvent.side e)
         = None))
  /\ (4 <= SQLiteDataLoader.row_command row <= 7 ->
      MarketData_DepthEvent.command e <> UPDATE
      /\ OrderBook.bids b' = OrderBook.bids b
      /\ OrderBook.asks b' = OrderBook.asks b).
Proof.
  intros Hsym Hts e b'. split.
  - intros Hout.
    assert (Hcmd : MarketData_DepthEvent.command e = UPDATE).
    { unfold e, SQLiteDataLoader._create_event_from_depth_row. simpl.
      now rewrite (OrderCommand_of_value_outside _ Hout). }
    split; [exact Hcmd|].
    assert (Hlvl := get_level_data_process_update b e (eq_sym Hsym) Hts Hcmd).
    change (OrderBook.get_level_data b' (Some (SQLiteDataLoader.row_price row))
              (MarketData_DepthEvent.side e)
            = if SQLiteDataLoader.row_qty row >? 0
              then Some (mkLevel (SQLiteDataLoader.row_qty row)
                           (SQLiteDataLoader.row_num_orders row))
              else None) in Hlvl.
    split; intros Hq.
    + rewrite Hlvl.
      destruct (Z.gtb_spec (SQLiteDataLoader.row_qty row) 0); [reflexivity|lia].
    + rewrite Hlvl.
      destruct (Z.gtb_spec (SQLiteDataLoader.row_qty row) 0); [lia|reflexivity].
  - intros Hin. destruct (OrderCommand_of_value_placeholder _ Hin) as (c & Hc & Hd & Hi & Hu).
    assert (Hcmd : MarketData_DepthEvent.command e = c).
    { unfold e, SQLiteDataLoader._create_event_from_depth_row. simpl. now rewrite Hc. }
    split; [congruence|].
    unfold b', OrderBook.process_depth_event.
    destruct (negb _ || _); [split; reflexivity|].
    rewrite Hcmd.
    destruct c; try contradiction;
      destruct (Side_eqb (MarketData_DepthEvent.side e) SELL); simpl; split; reflexivity.
Qed.

Lemma depth_row_unknown_command_witness :
  let b := OrderBook.init "ES" (1 # 4)%Q false in
  let row := SQLiteDataLoader.mkDepthRow 5 9 1 3 (5950 # 1)%Q 12 in
  OrderBook.get_level_data
    (OrderBook.process_depth_event b
       (SQLiteDataLoader._create_event_from_depth_row "ES" row))
    (Some (5950 # 1)%Q) SELL
  = Some (mkLevel 12 3).
Proof.
  intros b row.
  assert (Hsym : OrderBook.symbol b = "ES"%string) by reflexivity.
  assert (Hts : OrderBook.last_update_time b <= SQLiteDataLoader.row_timestamp row)
    by (vm_compute; discriminate).
  destruct (depth_row_unknown_command "ES" b row Hsym Hts) as [Hout _].
  assert (Hcode : SQLiteDataLoader.row_command row < 1 \/ 7 < SQLiteDataLoader.row_command row)
    by (right; vm_compute; reflexivity).
  destruct (Hout Hcode) as (_ & Hpos & _).
  apply Hpos. vm_compute. reflexivity.
Defined.

(** C8 as stated fails on code 4: the row of a bid at 5950 with 12 contracts
    in 3 orders keeps the command [UNKNOWN_4], and the book has no level at
    5950 afterwards. *)
Lemma depth_row_code_4_is_not_update :
  let b := OrderBook.init "ES" (1 # 4)%Q false in
  let row := SQLiteDataLoader.mkDepthRow 5 4 1 3 (5950 # 1)%Q 12 in
  let e := SQLiteDataLoader._create_event_from_depth_row "ES" row in
  SQLiteDataLoader.row_command row <> 1
  /\ SQLiteDataLoader.row_command row <> 2
  /\ SQLiteDataLoader.row_command row <> 3
  /\ SQLiteDataLoader.row_qty row > 0
  /\ MarketData_DepthEvent.command e = UNKNOWN_4
  /\ OrderBook.get_level_data (OrderBook.process_depth_event b e)
       (Some (5950 # 1)%Q) (MarketData_DepthEvent.side e)
     = None.
Proof. vm_compute. repeat split; discriminate. Qed.

(** ** Portfolio: cash accounting (C7) *)

Lemma Decimal_div_nonzero (a b : Decimal) :
  ~ (b == 0)%Q -> Decimal_div a b = Some (a / b)%Q.
Proof.
  intros H. unfold Decimal_div. destruct (Qeq_bool b 0) eqn:E; [|reflexivity].
  apply Qeq_bool_iff in E. contradiction.
Qed.

Lemma inject_Z_nonzero (n : Z) : n <> 0 -> ~ (inject_Z n == 0)%Q.
Proof. intros H E. unfold Qeq in E. simpl in E. lia. Qed.

Lemma unrealized_pnl_total (p : Portfolio.t) (items : list (string * Z)) (a : Decimal) :
  ~ (Portfolio.tick_size p == 0)%Q ->
  exists u, Portfolio.unrealized_pnl p items a = Some u.
Proof.
  intros Ht. revert a. induction items as [|[s q] items IH]; intros a; simpl.
  - now exists a.
  - destruct (negb (q =? 0)); [|apply IH].
    destruct (Dict.get s (Portfolio.last_market_price p)); [|apply IH].
    destruct (Dict.get s (Portfolio.positions_avg_price p)); [|apply IH].
    rewrite (Decimal_div_nonzero _ _ Ht). apply IH.
Qed.

Lemma _update_equity_total (p : Portfolio.t) (ts : Z) :
  ~ (Portfolio.tick_size p == 0)%Q ->
  exists p', Portfolio._update_equity p ts = Some p'
             /\ Portfolio.cash p' = Portfolio.cash p
             /\ Portfolio.tick_size p' = Portfolio.tick_size p
             /\ Portfolio.holdings p' = Portfolio.holdings p
             /\ Portfolio.positions_avg_price p' = Portfolio.positions_avg_price p
             /\ Portfolio.open_positions p' = Portfolio.open_positions p.
Proof.
  intros Ht. unfold Portfolio._update_equity.
  destruct (unrealized_pnl_total p (Portfolio.holdings p) 0%Q Ht) as [u ->].
  eexists. split; [reflexivity|]. simpl. repeat split.
Qed.

Lemma _update_equity_cash (p p' : Portfolio.t) (ts : Z) :
  Portfolio._update_equity p ts = Some p' -> Portfolio.cash p' = Portfolio.cash p.
Proof.
  unfold Portfolio._update_equity.
  destruct (Portfolio.unrealized_pnl p (Portfolio.holdings p) 0%Q); [|discriminate].
  intros [= <-]. reflexivity.
Qed.

(** One fill changes the cash by its signed notional and its commission. *)
Lemma update_fill_cash (p p' : Portfolio.t) (f : FillEvent.t) :
  Portfolio.update_fill p f = Some p' ->
  Portfolio.cash p'
  = (Portfolio.cash p
     - (FillEvent.fill_price f * inject_Z (FillEvent.quantity_filled f)
        * inject_Z (fill_dir f) + FillEvent.commission f))%Q.
Proof.
  unfold Portfolio.update_fill, fill_dir.
  destruct (Portfolio.update_position _ _ _ _ _) as [[[[avg' realized'] log'] open']|];
    [|discriminate].
  intros H. apply _update_equity_cash in H. exact H.
Qed.

Lemma update_fills_cash (fills : list FillEvent.t) (p p' : Portfolio.t) :
  Portfolio.update_fills p fills = Some p' ->
  (Portfolio.cash p' == Portfolio.cash p - sum_notional fills - sum_commission fills)%Q.
Proof.
  revert p. induction fills as [|f fills IH]; intros p; simpl.
  - intros [= <-]. ring.
  - destruct (Portfolio.update_fill p f) as [p1|] eqn:E; [|discriminate].
    intros H. rewrite (IH _ H), (update_fill_cash _ _ _ E). ring.
Qed.



(** The position tables stay consistent, so that [update_fill] raises
    neither [KeyError] nor a division error when the tick size is not
    zero. *)
Lemma holdings_current (p : Portfolio.t) (s : string) :
  positions_consistent p ->
  match Dict.get s (Portfolio.holdings p) with Some n => n | None => 0 end <> 0 ->
  Dict.get s (Portfolio.positions_avg_price p) <> None
  /\ Dict.get s (Portfolio.open_positions p) <> None.
Proof.
  intros Hc Hn. destruct (Dict.get s (Portfolio.holdings p)) as [n|] eqn:E; [|congruence].
  destruct (Hc _ _ E) as (_ & Ha & Ho). now split.
Qed.

Lemma update_position_total (p : Portfolio.t) (f : FillEvent.t) (chg : Z) :
  positions_consistent p ->
  ~ (Portfolio.tick_size p == 0)%Q ->
  let s := FillEvent.symbol f in
  let cur := match Dict.get s (Portfolio.holdings p) with Some n => n | None => 0 end in
  exists avg' realized' log' open',
    Portfolio.update_position p f cur (cur + chg) chg
    = Some (avg', realized', log', open')
    /\ (forall s', s' <> s ->
          Dict.get s' avg' = Dict.get s' (Portfolio.positions_avg_price p)
          /\ Dict.get s' open' = Dict.get s' (Portfolio.open_positions p))
    /\ (cur + chg <> 0 -> Dict.get s avg' <> None /\ Dict.get s open' <> None).
Proof.
  intros Hc Ht s cur. unfold Portfolio.update_position. fold s.
  assert (Hcur : cur <> 0 ->
                 Dict.get s (Portfolio.positions_avg_price p) <> None
                 /\ Dict.get s (Portfolio.open_positions p) <> None)
    by (apply holdings_current; exact Hc).
  destruct (negb (cur =? 0) && (((cur + chg) * cur) <=? 0)) eqn:EA.
  - apply andb_true_iff in EA. destruct EA as [EA _].
    apply negb_true_iff, Z.eqb_neq in EA. destruct (Hcur EA) as [Ha Ho].
    destruct (Dict.get s (Portfolio.open_positions p)) as [d|] eqn:Ed; [|congruence].
    rewrite (Decimal_div_nonzero _ _ Ht).
    destruct (cur + chg =? 0) eqn:En.
    + unfold Dict.mem.
      destruct (Dict.get s (Portfolio.positions_avg_price p)) eqn:Eavg; [|congruence].
      do 4 eexists. split; [reflexivity|]. split.
      * intros s' Hs'. split; apply Dict_get_del_other; exact Hs'.
      * apply Z.eqb_eq in En. intros; contradiction.
    + do 4 eexists. split; [reflexivity|]. split.
      * intros s' Hs'. split; apply Dict_get_set_other; exact Hs'.
      * intros _. rewrite !Dict_get_set_same. split; discriminate.
  - destruct (negb (cur + chg =? 0)) eqn:EB.
    + apply negb_true_iff, Z.eqb_neq in EB.
      destruct (cur =? 0) eqn:E0.
      * do 4 eexists. split; [reflexivity|]. split.
        -- intros s' Hs'. split; apply Dict_get_set_other; exact Hs'.
        -- intros _. rewrite !Dict_get_set_same. split; discriminate.
      * apply Z.eqb_neq in E0. destruct (Hcur E0) as [Ha Ho].
        destruct (Dict.get s (Portfolio.positions_avg_price p)) as [a|]; [|congruence].
        destruct (Dict.get s (Portfolio.open_positions p)) as [d|]; [|congruence].
        rewrite (Decimal_div_nonzero _ _ (inject_Z_nonzero _ EB)).
        do 4 eexists. split; [reflexivity|]. split.
        -- intros s' Hs'. split; apply Dict_get_set_other; exact Hs'.
        -- intros _. rewrite !Dict_get_set_same. split; discriminate.
    + apply negb_false_iff, Z.eqb_eq in EB.
      do 4 eexists. split; [reflexivity|]. split.
      * intros s' Hs'. split; reflexivity.
      * intros; contradiction.
Qed.

Lemma update_fill_total (p : Portfolio.t) (f : FillEvent.t) :
  positions_consistent p ->
  ~ (Portfolio.tick_size p == 0)%Q ->
  exists p', Portfolio.update_fill p f = Some p'
             /\ positions_consistent p'
             /\ Portfolio.tick_size p' = Portfolio.tick_size p.
Proof.
  intros Hc Ht. unfold Portfolio.update_fill.
  set (s := FillEvent.symbol f).
  set (chg := FillEvent.quantity_filled f
              * (if Side_eqb (FillEvent.direction f) BUY then 1 else -1)).
  set (cur := match Dict.get s (Portfolio.holdings p) with Some n => n | None => 0 end).
  destruct (update_position_total p f chg Hc Ht)
    as (avg' & realized' & log' & open' & Hup & Hother & Hsame).
  fold s cur in Hup, Hother, Hsame. rewrite Hup.
  match goal with
  | |- exists p', Portfolio._update_equity ?q ?ts = Some p' /\ _ =>
      destruct (_update_equity_total q ts Ht) as (p' & Heq & _ & Htick & Hh & Ha & Ho)
  end.
  exists p'. split; [exact Heq|]. split; [|exact Htick].
  intros s' n. rewrite Hh, Ha, Ho. simpl.
  destruct (String.eqb s' s) eqn:Es.
  - apply String.eqb_eq in Es. subst s'.
    destruct (cur + chg =? 0) eqn:En.
    + now rewrite Dict_get_del_same.
    + rewrite Dict_get_set_same. intros [= <-]. apply Z.eqb_neq in En.
      split; [exact En|]. now apply Hsame.
  - apply String.eqb_neq in Es. intros Hget.
    assert (Hold : Dict.get s' (Portfolio.holdings p) = Some n).
    { destruct (cur + chg =? 0).
      - rewrite Dict_get_del_other, Dict_get_set_other in Hget; assumption.
      - rewrite Dict_get_set_other in Hget; assumption. }
    destruct (Hc _ _ Hold) as (Hn & Hav & Hop).
    destruct (Hother s' Es) as [-> ->]. now repeat split.
Qed.

(** Every list of fills is processed to the end by a new portfolio with a
    non-zero tick size. *)
Lemma update_fills_total (fills : list FillEvent.t) (p : Portfolio.t) :
  positions_consistent p ->
  ~ (Portfolio.tick_size p == 0)%Q ->
  exists p', Portfolio.update_fills p fills = Some p'.
Proof.
  revert p. induction fills as [|f fills IH]; intros p Hc Ht; simpl.
  - now exists p.
  - destruct (update_fill_total p f Hc Ht) as (p1 & -> & Hc1 & Ht1).
    apply IH; [exact Hc1 | now rewrite Ht1].
Qed.

Lemma update_fills_from_init_total
  (initial_capital commission tick_value tick_size : Decimal)
  (fills : list FillEvent.t) :
  ~ (tick_size == 0)%Q ->
  exists p',
    Portfolio.update_fills
      (Portfolio.init initial_capital commission tick_value tick_size) fills
    = Some p'.
Proof.
  intros Ht. apply update_fills_total; [|exact Ht].
  intros s n H. discriminate.
Qed.

(** ** Execution handler: status updates *)

Lemma _update_order_status_frame (h : ExecutionHandler.t) (id : string)
  (st : OrderStatus) (ts : Z) (q : option Z) :
  let h' := ExecutionHandler._update_order_status h id st ts q in
  ExecutionHandler.order_book h' = ExecutionHandler.order_book h
  /\ ExecutionHandler.pending_limit_orders h' = ExecutionHandler.pending_limit_orders h
  /\ ExecutionHandler.pending_stop_orders h' = ExecutionHandler.pending_stop_orders h
  /\ ExecutionHandler.linked_exit_orders h' = ExecutionHandler.linked_exit_orders h
  /\ ExecutionHandler.commission_per_contract h' = ExecutionHandler.commission_per_contract h
  /\ ExecutionHandler.latency_signal_order_ns h' = ExecutionHandler.latency_signal_order_ns h.
Proof.
  unfold ExecutionHandler._update_order_status.
  destruct (Dict.get id (ExecutionHandler.submitted_orders h)); simpl.
  - destruct (ExecutionHandler.is_terminal st); simpl; repeat split.
  - repeat split.
Qed.

(** A status update appends nothing for an unknown order and one status
    event for a known one. *)
Lemma _update_order_status_appended (h : ExecutionHandler.t) (id : string)
  (st : OrderStatus) (ts : Z) (q : option Z) :
  exists new,
    appended h (ExecutionHandler._update_order_status h id st ts q) new
    /\ (Dict.get id (ExecutionHandler.submitted_orders h) = None -> new = [])
    /\ (Dict.get id (ExecutionHandler.submitted_orders h) <> None ->
        exists o, new = [EvOrder o]
                  /\ OrderEvent.order_id o = id
                  /\ OrderEvent.status o = st
                  /\ OrderEvent.timestamp o = ts)
    /\ Forall (fun e => exists o, e = EvOrder o
                                  /\ OrderEvent.order_id o = id
                                  /\ OrderEvent.status o = st) new.
Proof.
  unfold appended, ExecutionHandler._update_order_status.
  destruct (Dict.get id (ExecutionHandler.submitted_orders h)) as [o|]; simpl.
  - eexists. split.
    + destruct (ExecutionHandler.is_terminal st); simpl; reflexivity.
    + split; [discriminate|]. split.
      * intros _. eexists. split; [reflexivity|]. simpl. repeat split.
      * constructor; [|constructor]. eexists. split; [reflexivity|]. simpl. split; reflexivity.
  - exists []. split; [now rewrite app_nil_r|]. split; [reflexivity|].
    split; [congruence|constructor].
Qed.

Lemma _update_order_status_submitted_other (h : ExecutionHandler.t) (id k : string)
  (st : OrderStatus) (ts : Z) (q : option Z) :
  k <> id ->
  Dict.get k (ExecutionHandler.submitted_orders
                (ExecutionHandler._update_order_status h id st ts q))
  = Dict.get k (ExecutionHandler.submitted_orders h).
Proof.
  intros Hne. unfold ExecutionHandler._update_order_status.
  destruct (Dict.get id (ExecutionHandler.submitted_orders h)); [|reflexivity].
  destruct (ExecutionHandler.is_terminal st); simpl.
  - rewrite Dict_get_del_other, Dict_get_set_other; auto.
  - rewrite Dict_get_set_other; auto.
Qed.

(** After a terminal status the order is no key of [submitted_orders]. *)
Lemma _update_order_status_terminal (h : ExecutionHandler.t) (id : string)
  (st : OrderStatus) (ts : Z) (q : option Z) :
  ExecutionHandler.is_terminal st = true ->
  Dict.get id (ExecutionHandler.submitted_orders
                 (ExecutionHandler._update_order_status h id st ts q))
  = None.
Proof.
  intros Ht. unfold ExecutionHandler._update_order_status.
  destruct (Dict.get id (ExecutionHandler.submitted_orders h)) eqn:E; [|exact E].
  rewrite Ht. simpl. apply Dict_get_del_same.
Qed.

(** A status that is not terminal keeps the order where it is, with the
    filled quantity that the status carries. *)
Lemma _update_order_status_nonterminal (h : ExecutionHandler.t) (id : string)
  (st : OrderStatus) (ts : Z) (q : option Z) (o : OrderEvent.t) :
  ExecutionHandler.is_terminal st = false ->
  Dict.get id (ExecutionHandler.submitted_orders h) = Some o ->
  exists o',
    Dict.get id (ExecutionHandler.submitted_orders
                   (ExecutionHandler._update_order_status h id st ts q))
    = Some o'
    /\ OrderEvent.status o' = OrderEvent.status o
    /\ (st = PARTIALLY_FILLED ->
        OrderEvent.filled_quantity o'
        = match q with Some n => n | None => OrderEvent.filled_quantity o end).
Proof.
  intros Ht Hget. unfold ExecutionHandler._update_order_status. rewrite Hget, Ht.
  simpl. rewrite Dict_get_set_same. eexists. split; [reflexivity|].
  destruct st; simpl in *; try discriminate; split; try reflexivity; discriminate.
Qed.

(** ** One-cancels-other on a filled target (C2) *)

(** Without the target in [submitted_orders], [_cancel_linked_stop] finds no
    parent and returns at once. *)
Lemma _cancel_linked_stop_unknown (h : ExecutionHandler.t) (id : string) (ts : Z) :
  Dict.get id (ExecutionHandler.submitted_orders h) = None ->
  ExecutionHandler._cancel_linked_stop h id ts = h.
Proof. intros H. unfold ExecutionHandler._cancel_linked_stop. now rewrite H. Qed.

(** The FILLED status update removes the target from [submitted_orders], so
    the call of [_cancel_linked_stop] that follows it does nothing. *)
Lemma _cancel_linked_stop_after_filled (h : ExecutionHandler.t) (id : string)
  (ts : Z) (q : option Z) :
  let h' := ExecutionHandler._update_order_status h id FILLED ts q in
  ExecutionHandler._cancel_linked_stop h' id ts = h'.
Proof.
  intros h'. apply _cancel_linked_stop_unknown.
  now apply _update_order_status_terminal.
Qed.

Lemma keeps_stops_refl (h : ExecutionHandler.t) : keeps_stops h h.
Proof.
  repeat split. exists []. split; [unfold appended; now rewrite app_nil_r | constructor].
Qed.

Lemma keeps_stops_trans (h1 h2 h3 : ExecutionHandler.t) :
  keeps_stops h1 h2 -> keeps_stops h2 h3 -> keeps_stops h1 h3.
Proof.
  intros (Hs1 & Hl1 & n1 & Ha1 & Hf1) (Hs2 & Hl2 & n2 & Ha2 & Hf2).
  split; [congruence|]. split; [congruence|].
  exists (n1 ++ n2). split.
  - unfold appended in *. now rewrite Ha2, Ha1, app_assoc.
  - apply Forall_app. now split.
Qed.

Lemma keeps_stops_update (h : ExecutionHandler.t) (id : string) (st : OrderStatus)
  (ts : Z) (q : option Z) :
  st <> CANCELLED ->
  keeps_stops h (ExecutionHandler._update_order_status h id st ts q).
Proof.
  intros Hst. destruct (_update_order_status_frame h id st ts q) as (_ & _ & Hs & Hl & _).
  split; [exact Hs|]. split; [exact Hl|].
  destruct (_update_order_status_appended h id st ts q) as (new & Ha & _ & _ & Hall).
  exists new. split; [exact Ha|].
  eapply Forall_impl; [|exact Hall]. intros e (o & -> & _ & Ho). simpl. rewrite Ho.
  destruct st; try reflexivity. contradiction.
Qed.

Lemma keeps_stops_fill (h : ExecutionHandler.t) (f : FillEvent.t) :
  keeps_stops h (ExecutionHandler.append (EvFill f) h).
Proof.
  repeat split. exists [EvFill f]. split; [reflexivity|]. repeat constructor.
Qed.

Lemma keeps_stops_pending_limit (h : ExecutionHandler.t)
  (d : Dict.t ExecutionHandler.PendingLimit) :
  keeps_stops h (ExecutionHandler.set_pending_limit_orders d h).
Proof.
  repeat split. exists []. split; [unfold appended; simpl; now rewrite app_nil_r | constructor].
Qed.

Lemma check_limit_fill_keeps_stops (t : MarketData_TradeEvent.t)
  (h h' : ExecutionHandler.t) (id : string) (data : ExecutionHandler.PendingLimit) :
  ExecutionHandler.check_limit_fill t h id data = Some h' -> keeps_stops h h'.
Proof.
  unfold ExecutionHandler.check_limit_fill.
  destruct (negb _); [intros [= <-]; apply keeps_stops_refl|].
  destruct (ExecutionHandler.guarded_compare _ _ _ _) as [b1|]; [|discriminate].
  destruct (ExecutionHandler.guarded_compare _ _ _ _) as [b2|]; [|discriminate].
  destruct (b1 || b2); [|intros [= <-]; apply keeps_stops_refl].
  destruct (OrderEvent.limit_price _) as [l|]; [|discriminate].
  destruct (DecQty_min_int _ _) as [fill_qty|]; [|discriminate].
  destruct (DecQty_finite _) as [qa'|]; [|discriminate].
  destruct (fill_qty >? 0).
  - destruct (_ >=? _); intros [= <-].
    + rewrite _cancel_linked_stop_after_filled.
      eapply keeps_stops_trans; [apply keeps_stops_pending_limit|].
      eapply keeps_stops_trans; [apply keeps_stops_pending_limit|].
      eapply keeps_stops_trans; [apply keeps_stops_fill|].
      eapply keeps_stops_trans; [apply keeps_stops_pending_limit|].
      apply keeps_stops_update. discriminate.
    + eapply keeps_stops_trans; [apply keeps_stops_pending_limit|].
      eapply keeps_stops_trans; [apply keeps_stops_pending_limit|].
      eapply keeps_stops_trans; [apply keeps_stops_fill|].
      apply keeps_stops_update. discriminate.
  - intros [= <-]. apply keeps_stops_pending_limit.
Qed.

Lemma for_items_keeps_stops (t : MarketData_TradeEvent.t)
  (items : list (string * ExecutionHandler.PendingLimit)) (h h' : ExecutionHandler.t) :
  ExecutionHandler.for_items (ExecutionHandler.check_limit_fill t) h items = Some h' ->
  keeps_stops h h'.
Proof.
  revert h. induction items as [|[k v] items IH]; intros h; simpl.
  - intros [= <-]. apply keeps_stops_refl.
  - destruct (ExecutionHandler.check_limit_fill t h k v) as [h1|] eqn:E; [|discriminate].
    intros H. eapply keeps_stops_trans; [exact (check_limit_fill_keeps_stops _ _ _ _ _ E)|].
    now apply IH.
Qed.

(** [check_limit_fills] never cancels a stop: whatever it fills, the pending
    stops and the linkage records are those of before, and no CANCELLED
    status is appended. *)
Lemma check_limit_fills_never_cancels (h h' : ExecutionHandler.t)
  (t : MarketData_TradeEvent.t) :
  ExecutionHandler.check_limit_fills h t = Some h' ->
  ExecutionHandler.pending_stop_orders h' = ExecutionHandler.pending_stop_orders h
  /\ ExecutionHandler.linked_exit_orders h' = ExecutionHandler.linked_exit_orders h
  /\ exists new, appended h h' new
                 /\ Forall (fun e => has_status CANCELLED e = false) new.
Proof. intros H. exact (for_items_keeps_stops _ _ _ _ H). Qed.

(** C2.  In the bracket on the synthetic book both exits are placed: the
    target [TARGET_3_3000] is a pending limit order for one contract and the
    stop [STOP_2_2000] is a pending stop order, linked through the record of
    [ENTRY_1_1000].  A buy trade through the target price fills the target
    completely (one fill, FILLED status, target no longer pending), and after
    [check_limit_fills] the stop is still in [pending_stop_orders], the
    queue holds no CANCELLED status, and the linkage record is still there. *)
Theorem filled_target_leaves_stop_pending :
  match Bracket.placed with
  | Some h =>
      match ExecutionHandler.check_limit_fills h Bracket.target_trade with
      | Some h' =>
          Dict.mem "TARGET_3_3000" (ExecutionHandler.pending_limit_orders h) = true
          /\ Dict.mem "STOP_2_2000" (ExecutionHandler.pending_stop_orders h) = true
          /\ Dict.get "ENTRY_1_1000" (ExecutionHandler.linked_exit_orders h)
             = Some (ExecutionHandler.mkLinkedExits
                       (Some "STOP_2_2000"%string) (Some "TARGET_3_3000"%string))
          /\ Dict.mem "TARGET_3_3000" (ExecutionHandler.pending_limit_orders h') = false
          /\ existsb (is_fill_of "TARGET_3_3000") (ExecutionHandler.event_queue h') = true
          /\ existsb (is_status_of "TARGET_3_3000" FILLED)
               (ExecutionHandler.event_queue h') = true
          /\ Dict.mem "STOP_2_2000" (ExecutionHandler.pending_stop_orders h') = true
          /\ existsb (has_status CANCELLED) (ExecutionHandler.event_queue h') = false
          /\ Dict.get "ENTRY_1_1000" (ExecutionHandler.linked_exit_orders h')
             = Some (ExecutionHandler.mkLinkedExits
                       (Some "STOP_2_2000"%string) (Some "TARGET_3_3000"%string))
      | None => False
      end
  | None => False
  end.
Proof. vm_compute. repeat split. Qed.

(** The sibling path works: a sell trade at the stop price triggers the
    stop of the bracket, and [check_stop_triggers] removes the target from
    [pending_limit_orders], appends its CANCELLED status and drops the
    linkage record. *)
Lemma triggered_stop_cancels_target :
  match Bracket.placed with
  | Some h =>
      match ExecutionHandler.check_stop_triggers h
              (MarketData_TradeEvent.mk 9000000 "ES" (11895 # 2)%Q 10 SELL) with
      | Some h' =>
          Dict.mem "TARGET_3_3000" (ExecutionHandler.pending_limit_orders h') = false
          /\ existsb (is_status_of "TARGET_3_3000" CANCELLED)
               (ExecutionHandler.event_queue h') = true
          /\ Dict.mem "ENTRY_1_1000" (ExecutionHandler.linked_exit_orders h') = false
      | None => False
      end
  | None => False
  end.
Proof. vm_compute. repeat split. Qed.

(** ** The run loop on fills (C1) *)

(** The FILL branch of the loop calls the portfolio and the strategy only:
    the execution handler after the dispatch of a fill is the one of
    before. *)
Lemma dispatch_fill_keeps_execution_handler {S : Type} {sc : Strategy S}
  (c c' : BacktestController.t) (f : FillEvent.t) (time_ns : Z) :
  BacktestController.dispatch c (EvFill f) time_ns = Some c' ->
  BacktestController.execution_handler c' = BacktestController.execution_handler c.
Proof.
  unfold BacktestController.dispatch.
  destruct (Portfolio.update_fill _ f) as [p|]; [|discriminate].
  destruct (on_fill _ f) as [s|]; [|discriminate].
  intros [= <-]. reflexivity.
Qed.

(** C1.  The entry fill of the bracket carries a stop price and a target
    price, and the linkage record of its entry has neither a stop id nor a
    target id.  Dispatching this fill through the run loop leaves the
    execution handler as it was: no exit order is created or enqueued, and
    the record stays empty.  [_activate_linked_exits], which the loop never
    calls, would append a STOP_MARKET and a LIMIT order in the opposite
    direction for the filled quantity, with the entry as parent, at the fill
    timestamp plus [latency_signal_order_ns]. *)
Theorem fill_dispatch_activates_no_exit :
  match Bracket.entered with
  | Some (h, fill) =>
      let c :=
        BacktestController.mk [] 600002 h
          (Portfolio.init (100000 # 1)%Q (5 # 2)%Q (25 # 2)%Q (1 # 4)%Q) tt in
      match BacktestController.dispatch (strategy_class := idle_strategy)
              c (EvFill fill) 5000 with
      | Some c' =>
          truthy (FillEvent.linked_stop_price fill) = true
          /\ truthy (FillEvent.linked_target_price fill) = true
          /\ Dict.get (FillEvent.order_id fill) (ExecutionHandler.linked_exit_orders h)
             = Some (ExecutionHandler.mkLinkedExits None None)
          /\ BacktestController.execution_handler c' = h
          /\ skipn (List.length (ExecutionHandler.event_queue h))
               (ExecutionHandler.event_queue
                  (ExecutionHandler._activate_linked_exits h
                     (FillEvent.order_id fill) fill 2000 3000))
             = [EvOrder
                  (OrderEvent.mk 1100002 "STOP_2_2000" PENDING_SUBMIT "S" "ES" 1
                     STOP_MARKET SELL None (Some (11895 # 2)%Q) 0 None None
                     (Some "ENTRY_1_1000"%string));
                EvOrder
                  (OrderEvent.mk 1100002 "TARGET_3_3000" PENDING_SUBMIT "S" "ES" 1
                     LIMIT SELL (Some (47653 # 8)%Q) None 0 None None
                     (Some "ENTRY_1_1000"%string))]
      | None => False
      end
  | None => False
  end.
Proof. vm_compute. repeat split. Qed.

(** ** The run loop: order of dispatch (C3) *)

Lemma heapq_merge_nil (event_lt event_eq : Event -> Event -> bool) (ys : list Event) :
  BacktestController.heapq_merge event_lt event_eq [] ys = ys.
Proof. reflexivity. Qed.

(** The loop dispatches an initial segment of the merged stream. *)
Lemma run_loop_dispatched {S : Type} {sc : Strategy S}
  (max_events : option Z) (clock : Z -> Z) (stream : list Event) :
  forall (count : Z) (c : BacktestController.t) (acc : list Event),
  exists k,
    fst (BacktestController.run_loop max_events clock count c stream acc)
    = acc ++ firstn k stream.
Proof.
  induction stream as [|e stream IH]; intros count c acc; simpl.
  - exists O. now rewrite app_nil_r.
  - destruct (BacktestController.over_limit max_events (count + 1)).
    + exists O. simpl. now rewrite app_nil_r.
    + destruct (BacktestController.dispatch _ e _) as [c2|].
      * destruct (IH (count + 1) c2 (acc ++ [e])) as [k Hk].
        exists (Datatypes.S k). rewrite Hk. simpl. now rewrite <- app_assoc.
      * exists 1%nat. simpl. reflexivity.
Qed.

Lemma nondecreasing_firstn (k : nat) (l : list Event) :
  nondecreasing l -> nondecreasing (firstn k l).
Proof.
  revert l. induction k as [|k IH]; intros l; [intros _; exact I|].
  destruct l as [|e l]; [intros _; exact I|].
  simpl. intros [Hhd Htl]. split; [|now apply IH].
  destruct l as [|e' l]; [destruct k; exact I|].
  destruct k; simpl; [exact I | exact Hhd].
Qed.

(** The queue of the controller is empty when the streams are merged, so
    the events dispatched are market events only: an initial segment of the
    market stream.  What the handlers generate during the loop is never
    dispatched. *)
Lemma run_dispatches_market_prefix {S : Type} {sc : Strategy S}
  (event_lt event_eq : Event -> Event -> bool) (test_scenario : option string)
  (max_events : option Z) (clock : Z -> Z) (c : BacktestController.t)
  (market_stream : list Event) :
  BacktestController.event_queue c = [] ->
  exists k,
    fst (BacktestController.run event_lt event_eq test_scenario max_events clock
           c market_stream)
    = firstn k market_stream.
Proof.
  intros Hq. unfold BacktestController.run.
  destruct (truthy_str test_scenario); [exists O; reflexivity|].
  rewrite Hq, heapq_merge_nil.
  destruct (run_loop_dispatched max_events clock market_stream 0 c []) as [k Hk].
  exists k. cbn [fst]. exact Hk.
Qed.



(** ** Market orders (C4) *)

Lemma walk_book_side_spec (levels : SortedDict.t) :
  forall (q f : Z) (v : Q),
  exists v',
    ExecutionHandler.walk_book_side q levels f v
    = (f + consumed_qty (consumption q levels), v',
       levels_after (consumption q levels) levels)
    /\ (v' == v + consumed_value (consumption q levels))%Q.
Proof.
  induction levels as [|[p l] rest IH]; intros q f v; simpl.
  - exists v. split; [f_equal; f_equal; lia | ring].
  - destruct (q - Z.min q (qty l) =? 0) eqn:E; simpl.
    + eexists. split; [f_equal; f_equal; lia | ring].
    + destruct (IH (q - Z.min q (qty l)) (f + Z.min q (qty l))
                  (v + inject_Z (Z.min q (qty l)) * p)%Q) as (v' & -> & Hv).
      exists v'. split; [f_equal; f_equal; lia | rewrite Hv; ring].
Qed.

(** With a positive order quantity and positive levels the walk takes a
    positive quantity, at most the order quantity. *)
Lemma consumption_positive (levels : SortedDict.t) (q : Z) :
  levels <> [] -> positive_levels levels -> 0 < q ->
  0 < consumed_qty (consumption q levels) <= q.
Proof.
  unfold positive_levels. revert q.
  induction levels as [|[p l] rest IH]; intros q Hne Hpos Hq; [congruence|].
  inversion Hpos as [|? ? Hl Hrest]; subst. simpl in Hl. simpl.
  destruct (q - Z.min q (qty l) =? 0) eqn:E; simpl.
  - apply Z.eqb_eq in E. lia.
  - apply Z.eqb_neq in E. destruct rest as [|kv rest'].
    + simpl. lia.
    + assert (H : 0 < consumed_qty (consumption (q - Z.min q (qty l)) (kv :: rest'))
                  <= q - Z.min q (qty l))
        by (apply IH; [discriminate | exact Hrest | lia]).
      lia.
Qed.

(** An order for more than a side of positive levels holds takes all of it. *)
Lemma consumption_exhausts (levels : SortedDict.t) (q : Z) :
  positive_levels levels -> total_qty levels < q ->
  consumed_qty (consumption q levels) = total_qty levels
  /\ levels_after (consumption q levels) levels = [].
Proof.
  unfold positive_levels. revert q.
  induction levels as [|[p l] rest IH]; intros q Hpos Hq; [split; reflexivity|].
  inversion Hpos as [|? ? Hl Hrest]; subst. simpl in Hl, Hq. simpl.
  assert (Hrest_nonneg : 0 <= total_qty rest).
  { clear -Hrest. induction Hrest as [|kv r Hk _ IHr]; simpl; lia. }
  replace (Z.min q (qty l)) with (qty l) by lia.
  destruct (q - qty l =? 0) eqn:E; [apply Z.eqb_eq in E; lia|].
  destruct (IH (q - qty l) Hrest) as [Hc Ha]; [lia|].
  rewrite Hc, Ha. replace (qty l - qty l <=? 0) with true by (symmetry; apply Z.leb_le; lia).
  split; [unfold total_qty; simpl; reflexivity | reflexivity].
Qed.

Lemma append_submitted (e : Event) (h : ExecutionHandler.t) :
  ExecutionHandler.submitted_orders (ExecutionHandler.append e h)
  = ExecutionHandler.submitted_orders h.
Proof. reflexivity. Qed.

Lemma appended_trans (h1 h2 h3 : ExecutionHandler.t) (n1 n2 : list Event) :
  appended h1 h2 n1 -> appended h2 h3 n2 -> appended h1 h3 (n1 ++ n2).
Proof. unfold appended. intros H1 H2. now rewrite H2, H1, app_assoc. Qed.

(** What [_execute_market_order] appends and leaves in the book, for an
    order that is registered. *)
Lemma _execute_market_order_spec (h : ExecutionHandler.t) (order o_reg : OrderEvent.t) :
  Dict.get (OrderEvent.order_id order) (ExecutionHandler.submitted_orders h)
  = Some o_reg ->
  let side := opposite_side (ExecutionHandler.order_book h) (OrderEvent.direction order) in
  let cs := consumption (OrderEvent.quantity order) side in
  let filled := consumed_qty cs in
  let h' := ExecutionHandler._execute_market_order h order in
  (side = [] \/ filled <= 0 ->
   exists s,
     appended h h' [EvOrder s]
     /\ OrderEvent.order_id s = OrderEvent.order_id order
     /\ OrderEvent.status s = REJECTED)
  /\ (side <> [] -> 0 < filled ->
      exists f s,
        appended h h' [EvFill f; EvOrder s]
        /\ FillEvent.order_id f = OrderEvent.order_id order
        /\ FillEvent.quantity_filled f = filled
        /\ (FillEvent.fill_price f == weighted_average_price cs)%Q
        /\ (FillEvent.commission f
            == ExecutionHandler.commission_per_contract h * inject_Z filled)%Q
        /\ OrderEvent.order_id s = OrderEvent.order_id order
        /\ OrderEvent.status s
           = (if filled =? OrderEvent.quantity order then FILLED else PARTIALLY_FILLED)
        /\ opposite_side (ExecutionHandler.order_book h') (OrderEvent.direction order)
           = levels_after cs side).
Proof.
  intros Hreg side cs filled h'.
  assert (Hrej : forall h0 : ExecutionHandler.t,
             ExecutionHandler.submitted_orders h0 = ExecutionHandler.submitted_orders h ->
             ExecutionHandler.event_queue h0 = ExecutionHandler.event_queue h ->
             exists s, appended h (ExecutionHandler._reject_order h0 order) [EvOrder s]
                       /\ OrderEvent.order_id s = OrderEvent.order_id order
                       /\ OrderEvent.status s = REJECTED).
  { intros h0 Hsub Hq. unfold ExecutionHandler._reject_order.
    destruct (_update_order_status_appended h0 (OrderEvent.order_id order) REJECTED
                (OrderEvent.timestamp order) None) as (new & Ha & _ & Hsome & _).
    destruct Hsome as (s & -> & Hid & Hst & _); [rewrite Hsub, Hreg; discriminate|].
    exists s. unfold appended in *. rewrite <- Hq. now repeat split. }
  assert (Hwalk := walk_book_side_spec side (OrderEvent.quantity order) 0 0%Q).
  destruct Hwalk as (v' & Hw & Hv). fold cs in Hw, Hv. simpl in Hw. fold filled in Hw.
  unfold h', ExecutionHandler._execute_market_order.
  unfold side, opposite_side in *.
  destruct (Side_eqb (OrderEvent.direction order) BUY) eqn:Edir.
  - (* buy: the asks *)
    destruct (OrderBook.asks (ExecutionHandler.order_book h)) as [|lv rest] eqn:Easks.
    + split; [intros _; apply Hrej; reflexivity | intros Hne; congruence].
    + rewrite Hw. split.
      * intros [Habs | Hle]; [discriminate|].
        destruct (Z.gtb_spec filled 0); [lia|]. apply Hrej; reflexivity.
      * intros _ Hpos. destruct (Z.gtb_spec filled 0); [|lia].
        match goal with
        | |- context [ExecutionHandler._update_order_status ?h2 ?id ?st ?ts ?q] =>
            destruct (_update_order_status_appended h2 id st ts q)
              as (new & Ha & _ & Hsome & _);
            destruct (_update_order_status_frame h2 id st ts q) as (Hbook & _)
        end.
        destruct Hsome as (s & -> & Hid & Hst & _);
          [rewrite append_submitted; simpl; rewrite Hreg; discriminate|].
        eexists. exists s. split.
        { eapply (appended_trans h _ _ [_] [_]); [|exact Ha]. reflexivity. }
        repeat split; try assumption; try reflexivity.
        -- cbn [FillEvent.fill_price]. unfold weighted_average_price. fold filled.
           rewrite Hv. field. apply inject_Z_nonzero. lia.
        -- rewrite Hbook. cbn [ExecutionHandler.order_book ExecutionHandler.append
                                 ExecutionHandler.set_order_book].
           reflexivity.
  - (* sell: the bids *)
    destruct (OrderBook.bids (ExecutionHandler.order_book h)) as [|lv rest] eqn:Ebids.
    + split; [intros _; apply Hrej; reflexivity | intros Hne; congruence].
    + rewrite Hw. split.
      * intros [Habs | Hle]; [discriminate|].
        destruct (Z.gtb_spec filled 0); [lia|]. apply Hrej; reflexivity.
      * intros _ Hpos. destruct (Z.gtb_spec filled 0); [|lia].
        match goal with
        | |- context [ExecutionHandler._update_order_status ?h2 ?id ?st ?ts ?q] =>
            destruct (_update_order_status_appended h2 id st ts q)
              as (new & Ha & _ & Hsome & _);
            destruct (_update_order_status_frame h2 id st ts q) as (Hbook & _)
        end.
        destruct Hsome as (s & -> & Hid & Hst & _);
          [rewrite append_submitted; simpl; rewrite Hreg; discriminate|].
        eexists. exists s. split.
        { eapply (appended_trans h _ _ [_] [_]); [|exact Ha]. reflexivity. }
        repeat split; try assumption; try reflexivity.
        -- cbn [FillEvent.fill_price]. unfold weighted_average_price. fold filled.
           rewrite Hv. field. apply inject_Z_nonzero. lia.
        -- rewrite Hbook. cbn [ExecutionHandler.order_book ExecutionHandler.append
                                 ExecutionHandler.set_order_book].
           reflexivity.
Qed.




(** ** A market order larger than the book (C10) *)

Lemma lingers_through_refl (id : string) (h : ExecutionHandler.t) :
  lingers_through id h h.
Proof.
  intros H. split; [exact H|]. exists []. split; [|constructor].
  unfold appended. now rewrite app_nil_r.
Qed.

Lemma lingers_through_trans (id : string) (h1 h2 h3 : ExecutionHandler.t) :
  lingers_through id h1 h2 -> lingers_through id h2 h3 -> lingers_through id h1 h3.
Proof.
  intros H12 H23 H1. destruct (H12 H1) as (H2 & n1 & Ha1 & Hq1).
  destruct (H23 H2) as (H3 & n2 & Ha2 & Hq2). split; [exact H3|].
  exists (n1 ++ n2). split; [eapply appended_trans; eassumption | now apply Forall_app].
Qed.

Lemma Dict_get_set_not_None {V : Type} (id k : string) (v : V) (d : Dict.t V) :
  Dict.get id d <> None -> Dict.get id (Dict.set k v d) <> None.
Proof.
  intros H. destruct (String.eqb id k) eqn:E.
  - apply String.eqb_eq in E. subst. rewrite Dict_get_set_same. discriminate.
  - apply String.eqb_neq in E. now rewrite Dict_get_set_other.
Qed.

Lemma Dict_get_del_None {V : Type} (id k : string) (d : Dict.t V) :
  Dict.get id d = None -> Dict.get id (Dict.del k d) = None.
Proof.
  intros H. destruct (String.eqb id k) eqn:E.
  - apply String.eqb_eq in E. subst. apply Dict_get_del_same.
  - apply String.eqb_neq in E. now rewrite Dict_get_del_other.
Qed.

Lemma Dict_mem_true_neq {V : Type} (id k : string) (d : Dict.t V) :
  Dict.get id d = None -> Dict.mem k d = true -> k <> id.
Proof.
  unfold Dict.mem. intros Hn Hm ->. now rewrite Hn in Hm.
Qed.

Lemma lingers_update (id k : string) (h : ExecutionHandler.t) (st : OrderStatus)
  (ts : Z) (q : option Z) :
  k <> id ->
  lingers_through id h (ExecutionHandler._update_order_status h k st ts q).
Proof.
  intros Hne (Hs & Hl & Hp).
  destruct (_update_order_status_frame h k st ts q) as (_ & Hfl & Hfs & _).
  split.
  - split; [|split]; [|congruence|congruence].
    rewrite _update_order_status_submitted_other; [exact Hs | congruence].
  - destruct (_update_order_status_appended h k st ts q) as (new & Ha & _ & _ & Hall).
    exists new. split; [exact Ha|].
    eapply Forall_impl; [|exact Hall]. intros e (o & -> & Hid & _). simpl.
    apply String.eqb_neq in Hne. now rewrite Hid, Hne.
Qed.

Lemma lingers_fill (id : string) (h : ExecutionHandler.t) (f : FillEvent.t) :
  FillEvent.order_id f <> id ->
  lingers_through id h (ExecutionHandler.append (EvFill f) h).
Proof.
  intros Hne H. split; [exact H|]. exists [EvFill f]. split; [reflexivity|].
  constructor; [|constructor]. simpl. apply String.eqb_neq in Hne. now rewrite Hne.
Qed.

Lemma lingers_new_order (id : string) (h : ExecutionHandler.t) (o : OrderEvent.t) :
  OrderEvent.status o = PENDING_SUBMIT ->
  lingers_through id h (ExecutionHandler.append (EvOrder o) h).
Proof.
  intros Hst H. split; [exact H|]. exists [EvOrder o]. split; [reflexivity|].
  constructor; [|constructor]. simpl. rewrite Hst. apply orb_true_r.
Qed.

Lemma lingers_set_submitted (id k : string) (v : OrderEvent.t) (h : ExecutionHandler.t) :
  lingers_through id h
    (ExecutionHandler.set_submitted_orders
       (Dict.set k v (ExecutionHandler.submitted_orders h)) h).
Proof.
  intros (Hs & Hl & Hp). split.
  - split; [|split]; [|exact Hl|exact Hp]. simpl. now apply Dict_get_set_not_None.
  - exists []. split; [unfold appended; simpl; now rewrite app_nil_r | constructor].
Qed.

Lemma lingers_set_pending_limit (id k : string) (v : ExecutionHandler.PendingLimit)
  (h : ExecutionHandler.t) :
  k <> id ->
  lingers_through id h
    (ExecutionHandler.set_pending_limit_orders
       (Dict.set k v (ExecutionHandler.pending_limit_orders h)) h).
Proof.
  intros Hne (Hs & Hl & Hp). split.
  - split; [|split]; [exact Hs| |exact Hp]. simpl.
    rewrite Dict_get_set_other; [exact Hl | congruence].
  - exists []. split; [unfold appended; simpl; now rewrite app_nil_r | constructor].
Qed.

Lemma lingers_del_pending_limit (id k : string) (h : ExecutionHandler.t) :
  lingers_through id h
    (ExecutionHandler.set_pending_limit_orders
       (Dict.del k (ExecutionHandler.pending_limit_orders h)) h).
Proof.
  intros (Hs & Hl & Hp). split.
  - split; [|split]; [exact Hs| |exact Hp]. simpl. now apply Dict_get_del_None.
  - exists []. split; [unfold appended; simpl; now rewrite app_nil_r | constructor].
Qed.

Lemma lingers_set_pending_stop (id k : string) (v : OrderEvent.t)
  (h : ExecutionHandler.t) :
  k <> id ->
  lingers_through id h
    (ExecutionHandler.set_pending_stop_orders
       (Dict.set k v (ExecutionHandler.pending_stop_orders h)) h).
Proof.
  intros Hne (Hs & Hl & Hp). split.
  - split; [|split]; [exact Hs|exact Hl|]. simpl.
    rewrite Dict_get_set_other; [exact Hp | congruence].
  - exists []. split; [unfold appended; simpl; now rewrite app_nil_r | constructor].
Qed.

Lemma lingers_del_pending_stop (id k : string) (h : ExecutionHandler.t) :
  lingers_through id h
    (ExecutionHandler.set_pending_stop_orders
       (Dict.del k (ExecutionHandler.pending_stop_orders h)) h).
Proof.
  intros (Hs & Hl & Hp). split.
  - split; [|split]; [exact Hs|exact Hl|]. simpl. now apply Dict_get_del_None.
  - exists []. split; [unfold appended; simpl; now rewrite app_nil_r | constructor].
Qed.

Lemma lingers_set_linked (id : string) (d : Dict.t ExecutionHandler.LinkedExits)
  (h : ExecutionHandler.t) :
  lingers_through id h (ExecutionHandler.set_linked_exit_orders d h).
Proof.
  intros H. split; [exact H|].
  exists []. split; [unfold appended; simpl; now rewrite app_nil_r | constructor].
Qed.

Lemma lingers_set_order_book (id : string) (b : OrderBook.t) (h : ExecutionHandler.t) :
  lingers_through id h (ExecutionHandler.set_order_book b h).
Proof.
  intros H. split; [exact H|].
  exists []. split; [unfold appended; simpl; now rewrite app_nil_r | constructor].
Qed.

Lemma lingers_set_order_counter (id : string) (n : Z) (h : ExecutionHandler.t) :
  lingers_through id h (ExecutionHandler.set_order_counter n h).
Proof.
  intros H. split; [exact H|].
  exists []. split; [unfold appended; simpl; now rewrite app_nil_r | constructor].
Qed.

(** One step of a method, and a chain of steps read from the last one. *)
Ltac lingers_step :=
  first
    [ apply lingers_set_linked
    | apply lingers_set_order_book
    | apply lingers_set_order_counter
    | apply lingers_set_submitted
    | apply lingers_del_pending_limit
    | apply lingers_del_pending_stop
    | apply lingers_new_order; reflexivity
    | apply lingers_update; assumption
    | apply lingers_fill; assumption
    | apply lingers_set_pending_limit; assumption
    | apply lingers_set_pending_stop; assumption ].

Ltac lingers_chain :=
  first
    [ apply lingers_through_refl
    | lingers_step
    | eapply lingers_through_trans; [|lingers_step]; lingers_chain ].

Lemma lingers_process_signal (id : string) (h : ExecutionHandler.t)
  (e : SignalEvent.t) (time_ns : Z) :
  lingers_through id h (ExecutionHandler.process_signal h e time_ns).
Proof.
  unfold ExecutionHandler.process_signal, ExecutionHandler._generate_order_id.
  cbv beta iota zeta.
  destruct (truthy _ || truthy _); lingers_chain.
Qed.

Lemma lingers_reject_order (id : string) (h : ExecutionHandler.t) (o : OrderEvent.t) :
  OrderEvent.order_id o <> id ->
  lingers_through id h (ExecutionHandler._reject_order h o).
Proof. intros Hne. unfold ExecutionHandler._reject_order. now apply lingers_update. Qed.

Lemma lingers_execute_market_order (id : string) (h : ExecutionHandler.t)
  (o : OrderEvent.t) :
  OrderEvent.order_id o <> id ->
  lingers_through id h (ExecutionHandler._execute_market_order h o).
Proof.
  intros Hne. unfold ExecutionHandler._execute_market_order.
  destruct (if Side_eqb (OrderEvent.direction o) BUY
            then OrderBook.asks (ExecutionHandler.order_book h)
            else OrderBook.bids (ExecutionHandler.order_book h)) as [|lv rest];
    [now apply lingers_reject_order|].
  destruct (ExecutionHandler.walk_book_side _ _ _ _) as [[f v] side'].
  destruct (f >? 0).
  - eapply lingers_through_trans; [|now apply lingers_update].
    eapply lingers_through_trans; [|apply lingers_fill; exact Hne].
    apply lingers_set_order_book.
  - eapply lingers_through_trans; [|now apply lingers_reject_order].
    apply lingers_set_order_book.
Qed.

Lemma lingers_execute_order (id : string) (h : ExecutionHandler.t) (o : OrderEvent.t) :
  OrderEvent.order_id o <> id ->
  lingers_through id h (ExecutionHandler.execute_order h o).
Proof.
  intros Hne. unfold ExecutionHandler.execute_order.
  eapply lingers_through_trans; [apply lingers_update; exact Hne|].
  destruct (OrderEvent.order_type o).
  - now apply lingers_execute_market_order.
  - unfold ExecutionHandler._handle_limit_order_placement.
    destruct (OrderBook.get_bbo _) as [[[bb bq] ba] aq].
    match goal with |- context [if ?c then ExecutionHandler._execute_market_order _ _ else _] =>
      destruct c end.
    + now apply lingers_execute_market_order.
    + now apply lingers_set_pending_limit.
  - unfold ExecutionHandler._handle_stop_order_placement.
    destruct (OrderEvent.stop_price o).
    + now apply lingers_set_pending_stop.
    + now apply lingers_reject_order.
Qed.

Lemma lingers_cancel_linked_stop (id k : string) (h : ExecutionHandler.t) (ts : Z) :
  lingers_through id h (ExecutionHandler._cancel_linked_stop h k ts).
Proof.
  unfold ExecutionHandler._cancel_linked_stop.
  destruct (match Dict.get k (ExecutionHandler.submitted_orders h) with
            | Some o => OrderEvent.parent_order_id o
            | None => None
            end) as [entry|] eqn:Eentry; [|apply lingers_through_refl].
  destruct (truthy_str (Some entry)); [|apply lingers_through_refl].
  destruct (Dict.get entry _) as [exits|]; [|apply lingers_through_refl].
  destruct (ExecutionHandler.stop_id exits) as [sid|]; [|apply lingers_through_refl].
  destruct (truthy_str (Some sid) && Dict.mem sid _) eqn:Em; [|apply lingers_through_refl].
  apply andb_true_iff in Em. destruct Em as [_ Em].
  intros Hl. assert (Hne : sid <> id).
  { destruct Hl as (_ & _ & Hp). exact (Dict_mem_true_neq _ _ _ Hp Em). }
  revert Hl.
  eapply lingers_through_trans; [|apply lingers_set_linked].
  eapply lingers_through_trans; [|apply lingers_update; exact Hne].
  apply lingers_del_pending_stop.
Qed.

Lemma lingers_cancel_linked_target (id k : string) (h : ExecutionHandler.t) (ts : Z) :
  lingers_through id h (ExecutionHandler._cancel_linked_target h k ts).
Proof.
  unfold ExecutionHandler._cancel_linked_target.
  destruct (match Dict.get k (ExecutionHandler.submitted_orders h) with
            | Some o => OrderEvent.parent_order_id o
            | None => None
            end) as [entry|] eqn:Eentry; [|apply lingers_through_refl].
  destruct (truthy_str (Some entry)); [|apply lingers_through_refl].
  destruct (Dict.get entry _) as [exits|]; [|apply lingers_through_refl].
  destruct (ExecutionHandler.target_id exits) as [tid|]; [|apply lingers_through_refl].
  destruct (truthy_str (Some tid) && Dict.mem tid _) eqn:Em; [|apply lingers_through_refl].
  apply andb_true_iff in Em. destruct Em as [_ Em].
  intros Hl. assert (Hne : tid <> id).
  { destruct Hl as (_ & Hp & _). exact (Dict_mem_true_neq _ _ _ Hp Em). }
  revert Hl.
  eapply lingers_through_trans; [|apply lingers_set_linked].
  eapply lingers_through_trans; [|apply lingers_update; exact Hne].
  apply lingers_del_pending_limit.
Qed.

Lemma lingers_check_limit_fill (id k : string) (t : MarketData_TradeEvent.t)
  (h h' : ExecutionHandler.t) (data : ExecutionHandler.PendingLimit) :
  k <> id ->
  ExecutionHandler.check_limit_fill t h k data = Some h' ->
  lingers_through id h h'.
Proof.
  intros Hne. unfold ExecutionHandler.check_limit_fill.
  destruct (negb _); [intros [= <-]; apply lingers_through_refl|].
  destruct (ExecutionHandler.guarded_compare _ _ _ _) as [b1|]; [|discriminate].
  destruct (ExecutionHandler.guarded_compare _ _ _ _) as [b2|]; [|discriminate].
  destruct (b1 || b2); [|intros [= <-]; apply lingers_through_refl].
  destruct (OrderEvent.limit_price _) as [l|]; [|discriminate].
  destruct (DecQty_min_int _ _) as [fill_qty|]; [|discriminate].
  destruct (DecQty_finite _) as [qa'|]; [|discriminate].
  destruct (fill_qty >? 0).
  - destruct (_ >=? _); intros [= <-].
    + eapply lingers_through_trans; [|apply lingers_cancel_linked_stop].
      eapply lingers_through_trans; [|apply lingers_update; exact Hne].
      eapply lingers_through_trans; [|apply lingers_del_pending_limit].
      eapply lingers_through_trans; [|apply lingers_fill; exact Hne].
      eapply lingers_through_trans; [|apply lingers_set_pending_limit; exact Hne].
      apply lingers_set_pending_limit; exact Hne.
    + eapply lingers_through_trans; [|apply lingers_update; exact Hne].
      eapply lingers_through_trans; [|apply lingers_fill; exact Hne].
      eapply lingers_through_trans; [|apply lingers_set_pending_limit; exact Hne].
      apply lingers_set_pending_limit; exact Hne.
  - intros [= <-]. apply lingers_set_pending_limit; exact Hne.
Qed.

Lemma lingers_check_stop_trigger (id k : string) (t : MarketData_TradeEvent.t)
  (h h' : ExecutionHandler.t) (o : OrderEvent.t) :
  k <> id ->
  ExecutionHandler.check_stop_trigger t h k o = Some h' ->
  lingers_through id h h'.
Proof.
  intros Hne. unfold ExecutionHandler.check_stop_trigger.
  destruct (negb _); [intros [= <-]; apply lingers_through_refl|].
  destruct (ExecutionHandler.guarded_compare _ _ _ _) as [b1|]; [|discriminate].
  destruct (if b1 then Some true else _) as [b2|]; [|discriminate].
  destruct b2; [|intros [= <-]; apply lingers_through_refl].
  cbv zeta.
  match goal with |- context [if ?c then _ else _] => destruct c end;
    intros [= <-].
  - eapply lingers_through_trans; [|apply lingers_new_order; reflexivity].
    eapply lingers_through_trans; [|apply lingers_set_submitted].
    eapply lingers_through_trans; [|apply lingers_cancel_linked_target].
    eapply lingers_through_trans; [|apply lingers_update; exact Hne].
    apply lingers_del_pending_stop.
  - eapply lingers_through_trans; [|apply lingers_cancel_linked_target].
    eapply lingers_through_trans; [|apply lingers_update; exact Hne].
    apply lingers_del_pending_stop.
Qed.

Lemma lingers_for_items {V : Type} (id : string)
  (body : ExecutionHandler.t -> string -> V -> option ExecutionHandler.t)
  (items : list (string * V)) :
  (forall k v h h', In (k, v) items -> body h k v = Some h' -> lingers_through id h h') ->
  forall h h', ExecutionHandler.for_items body h items = Some h' ->
               lingers_through id h h'.
Proof.
  induction items as [|[k v] items IH]; intros Hbody h h'; simpl.
  - intros [= <-]. apply lingers_through_refl.
  - destruct (body h k v) as [h1|] eqn:E; [|discriminate].
    intros H. eapply lingers_through_trans.
    + eapply Hbody; [left; reflexivity | exact E].
    + eapply IH; [|exact H]. intros k' v' h0 h0' Hin. apply Hbody. now right.
Qed.

Lemma Dict_get_None_In_neq {V : Type} (id k : string) (v : V) (d : Dict.t V) :
  Dict.get id d = None -> In (k, v) d -> k <> id.
Proof.
  intros Hn Hin ->. apply (Dict_get_None_notin _ _ Hn).
  change id with (fst (id, v)). now apply in_map.
Qed.

Lemma lingers_activate_linked_exits (id entry : string) (h : ExecutionHandler.t)
  (f : FillEvent.t) (t1 t2 : Z) :
  lingers_through id h (ExecutionHandler._activate_linked_exits h entry f t1 t2).
Proof.
  unfold ExecutionHandler._activate_linked_exits, ExecutionHandler._generate_order_id.
  destruct (Dict.get entry _) as [exits|]; [|apply lingers_through_refl].
  cbv beta iota zeta.
  destruct (truthy (FillEvent.linked_stop_price f) && _); cbv beta iota zeta;
    destruct (truthy (FillEvent.linked_target_price f) && _); lingers_chain.
Qed.

(** A call that does not execute an order with the id of a lingering order
    leaves it lingering and appends nothing about it. *)
Lemma lingers_call (id : string) (c : Call) (h h' : ExecutionHandler.t) :
  ~ executes id c -> call h c = Some h' -> lingers_through id h h'.
Proof.
  intros Hex Hcall Hl. revert Hl. destruct c; simpl in *.
  - injection Hcall as <-. apply lingers_process_signal.
  - injection Hcall as <-. now apply lingers_execute_order.
  - intros Hl. revert Hl.
    refine (fun Hl => lingers_for_items id _ _ _ h h' Hcall Hl).
    intros k v h0 h0' Hin. apply lingers_check_limit_fill.
    destruct Hl as (_ & Hp & _). exact (Dict_get_None_In_neq _ _ _ _ Hp Hin).
  - intros Hl. revert Hl.
    refine (fun Hl => lingers_for_items id _ _ _ h h' Hcall Hl).
    intros k v h0 h0' Hin. apply lingers_check_stop_trigger.
    destruct Hl as (_ & _ & Hp). exact (Dict_get_None_In_neq _ _ _ _ Hp Hin).
  - injection Hcall as <-. apply lingers_activate_linked_exits.
Qed.

Lemma lingers_calls (id : string) (cs : list Call) :
  Forall (fun c => ~ executes id c) cs ->
  forall h h', calls h cs = Some h' -> lingers_through id h h'.
Proof.
  induction cs as [|c cs IH]; intros Hall h h'; simpl.
  - intros [= <-]. apply lingers_through_refl.
  - inversion Hall as [|? ? Hc Hcs]; subst.
    destruct (call h c) as [h1|] eqn:E; [|discriminate].
    intros H. eapply lingers_through_trans.
    + exact (lingers_call id c h h1 Hc E).
    + now apply IH.
Qed.

Lemma total_qty_positive (levels : SortedDict.t) :
  levels <> [] -> positive_levels levels -> 0 < total_qty levels.
Proof.
  intros Hne Hpos. destruct levels as [|kv rest]; [congruence|].
  inversion Hpos as [|? ? Hk Hrest]; subst. simpl.
  assert (0 <= total_qty rest).
  { clear -Hrest. induction Hrest as [|kv' r Hk' _ IHr]; simpl; lia. }
  lia.
Qed.

Lemma _execute_market_order_tables (h : ExecutionHandler.t) (order : OrderEvent.t) :
  let h' := ExecutionHandler._execute_market_order h order in
  ExecutionHandler.pending_limit_orders h' = ExecutionHandler.pending_limit_orders h
  /\ ExecutionHandler.pending_stop_orders h' = ExecutionHandler.pending_stop_orders h
  /\ ExecutionHandler.linked_exit_orders h' = ExecutionHandler.linked_exit_orders h.
Proof.
  unfold ExecutionHandler._execute_market_order, ExecutionHandler._reject_order.
  destruct (if Side_eqb (OrderEvent.direction order) BUY
            then OrderBook.asks (ExecutionHandler.order_book h)
            else OrderBook.bids (ExecutionHandler.order_book h)) as [|lv rest].
  - destruct (_update_order_status_frame h (OrderEvent.order_id order) REJECTED
                (OrderEvent.timestamp order) None) as (_ & Hl & Hs & Hk & _).
    now repeat split.
  - destruct (ExecutionHandler.walk_book_side _ _ _ _) as [[f v] side'].
    destruct (f >? 0);
      match goal with
      | |- context [ExecutionHandler._update_order_status ?h2 ?id ?st ?ts ?q] =>
          destruct (_update_order_status_frame h2 id st ts q) as (_ & Hl & Hs & Hk & _)
      end; cbv zeta; rewrite Hl, Hs, Hk; repeat split.
Qed.

(** The order registered under the id of a partially filled market order
    stays registered, with the quantity taken as its filled quantity. *)
Lemma _execute_market_order_partial_registered (h : ExecutionHandler.t)
  (order o_reg : OrderEvent.t) :
  Dict.get (OrderEvent.order_id order) (ExecutionHandler.submitted_orders h)
  = Some o_reg ->
  let side := opposite_side (ExecutionHandler.order_book h) (OrderEvent.direction order) in
  let filled := consumed_qty (consumption (OrderEvent.quantity order) side) in
  side <> [] -> 0 < filled -> filled <> OrderEvent.quantity order ->
  exists o',
    Dict.get (OrderEvent.order_id order)
      (ExecutionHandler.submitted_orders
         (ExecutionHandler._execute_market_order h order))
    = Some o'
    /\ OrderEvent.filled_quantity o' = filled.
Proof.
  intros Hreg side filled Hne Hpos Hpart.
  destruct (walk_book_side_spec side (OrderEvent.quantity order) 0 0%Q) as (v' & Hw & _).
  simpl in Hw. fold filled in Hw.
  unfold ExecutionHandler._execute_market_order. unfold side, opposite_side in *.
  destruct (Side_eqb (OrderEvent.direction order) BUY);
    match goal with
    | H : ?s <> [] |- _ => destruct s as [|lv rest] eqn:Eside; [congruence|]
    end;
    rewrite Hw; destruct (Z.gtb_spec filled 0); try lia;
    destruct (Z.eqb_spec filled (OrderEvent.quantity order)); try contradiction;
    match goal with
    | |- context [ExecutionHandler._update_order_status ?h2 ?id ?st ?ts ?q] =>
        destruct (_update_order_status_nonterminal h2 id st ts q o_reg eq_refl)
          as (o' & Hget & _ & Hfq); [exact Hreg|]
    end;
    exists o'; (split; [exact Hget | now apply Hfq]).
Qed.




(** ** Pending limit orders against a trade (C5, C9) *)

Lemma code_fill_is_clamp (x : DecQty) (qrem : Z) :
  exists fq,
    DecQty_min_int (DecQty_max0 x) qrem = Some fq
    /\ (fq >? 0) = (clamp x 0 qrem >? 0)
    /\ (0 < fq -> fq = clamp x 0 qrem)
    /\ (fq <= 0 -> clamp x 0 qrem = 0).
Proof.
  destruct x as [z| |]; simpl; eexists; (split; [reflexivity|]);
    repeat split; try lia;
    repeat match goal with
           | |- context [?a >? ?b] => destruct (Z.gtb_spec a b)
           end; try reflexivity; lia.
Qed.

Lemma code_queue_is_queue_after (d : ExecutionHandler.PendingLimit) (l : Decimal)
  (t : MarketData_TradeEvent.t) :
  DecQty_finite
    (DecQty_max0 (int_sub_DecQty (ExecutionHandler.qty_ahead d)
                    (ExecutionHandler.trade_consumes t l)))
  = Some (queue_after d l t).
Proof.
  unfold ExecutionHandler.trade_consumes, queue_after.
  destruct (Qeq_bool (MarketData_TradeEvent.price t) l); reflexivity.
Qed.

Lemma guarded_compare_some (g : bool) (cmp : Q -> Q -> bool) (p l : Q) :
  ExecutionHandler.guarded_compare g cmp p (Some l) = Some (g && cmp p l).
Proof. destruct g; reflexivity. Qed.

Lemma filter_fill_status (id : string) (new : list Event) :
  Forall (fun e => exists o, e = EvOrder o) new ->
  filter (is_fill_of id) new = [].
Proof.
  induction 1 as [|e new (o & ->) _ IH]; simpl; [reflexivity | exact IH].
Qed.

Lemma _update_order_status_no_fill (h : ExecutionHandler.t) (k id : string)
  (st : OrderStatus) (ts : Z) (q : option Z) :
  exists new,
    appended h (ExecutionHandler._update_order_status h k st ts q) new
    /\ filter (is_fill_of id) new = [].
Proof.
  destruct (_update_order_status_appended h k st ts q) as (new & Ha & _ & _ & Hall).
  exists new. split; [exact Ha|]. apply filter_fill_status.
  eapply Forall_impl; [|exact Hall]. intros e (o & -> & _). now exists o.
Qed.

(** One item of the snapshot: the record of the order, its fills, and what
    the other orders see. *)
Lemma check_limit_fill_spec (t : MarketData_TradeEvent.t) (h : ExecutionHandler.t)
  (id : string) (d : ExecutionHandler.PendingLimit) :
  OrderEvent.limit_price (ExecutionHandler.order d) <> None ->
  Dict.get id (ExecutionHandler.pending_limit_orders h) = Some d ->
  exists h' new,
    ExecutionHandler.check_limit_fill t h id d = Some h'
    /\ appended h h' new
    /\ ExecutionHandler.commission_per_contract h'
       = ExecutionHandler.commission_per_contract h
    /\ Dict.get id (ExecutionHandler.pending_limit_orders h') = pending_after d t
    /\ filter (is_fill_of id) new
       = fills_on_trade (ExecutionHandler.commission_per_contract h) id d t
    /\ (forall k, k <> id ->
          Dict.get k (ExecutionHandler.pending_limit_orders h')
          = Dict.get k (ExecutionHandler.pending_limit_orders h)
          /\ filter (is_fill_of k) new = []).
Proof.
  intros Hl Hget.
  destruct (OrderEvent.limit_price (ExecutionHandler.order d)) as [l|] eqn:El;
    [clear Hl | congruence].
  unfold ExecutionHandler.check_limit_fill, pending_after, fills_on_trade, applies.
  rewrite El.
  destruct (String.eqb (OrderEvent.symbol (ExecutionHandler.order d))
              (MarketData_TradeEvent.symbol t)) eqn:Esym; simpl negb; cbv iota.
  2:{ exists h, []. simpl. repeat split; try assumption.
      unfold appended. now rewrite app_nil_r. }
  rewrite !guarded_compare_some.
  change (Side_eqb (OrderEvent.direction (ExecutionHandler.order d)) BUY
          && Side_eqb (MarketData_TradeEvent.side t) SELL
          && Qle_bool (MarketData_TradeEvent.price t) l
          || Side_eqb (OrderEvent.direction (ExecutionHandler.order d)) SELL
             && Side_eqb (MarketData_TradeEvent.side t) BUY
             && Qle_bool l (MarketData_TradeEvent.price t))
    with (limit_matches (ExecutionHandler.order d) l t).
  destruct (limit_matches (ExecutionHandler.order d) l t) eqn:Em; simpl andb; cbv iota.
  2:{ exists h, []. simpl. repeat split; try assumption.
      unfold appended. now rewrite app_nil_r. }
  rewrite code_queue_is_queue_after.
  destruct (code_fill_is_clamp
              (DecQty_sub_int (ExecutionHandler.trade_consumes t l)
                 (ExecutionHandler.qty_ahead d))
              (OrderEvent.quantity (ExecutionHandler.order d)
               - ExecutionHandler.qty_filled d))
    as (fq & -> & Hgt & Hpos & Hzero).
  fold (fill_on_trade d l t) in Hgt, Hpos, Hzero |- *.
  rewrite <- Hgt. cbv zeta.
  destruct (Z.gtb_spec fq 0) as [Hfq|Hfq].
  - rewrite <- (Hpos Hfq). simpl andb.
    cbn [ExecutionHandler.qty_filled].
    destruct (ExecutionHandler.qty_filled d + fq
              >=? OrderEvent.quantity (ExecutionHandler.order d)) eqn:Efull.
    + (* filled completely *)
      rewrite _cancel_linked_stop_after_filled.
      match goal with
      | |- context [ExecutionHandler._update_order_status ?h4 ?k ?st ?ts ?q] =>
          destruct (_update_order_status_frame h4 k st ts q)
            as (_ & Hpl & _ & _ & Hc & _);
          destruct (_update_order_status_appended h4 k st ts q)
            as (new & Ha & _ & _ & Hall)
      end.
      eexists. eexists (_ :: new). split; [reflexivity|].
      split; [unfold appended in *; rewrite Ha; simpl; now rewrite <- app_assoc|].
      split; [rewrite Hc; reflexivity|].
      split; [rewrite Hpl; simpl; apply Dict_get_del_same|].
      split.
      * simpl. rewrite String.eqb_refl. f_equal. apply filter_fill_status.
        eapply Forall_impl; [|exact Hall]. intros e (o & -> & _). now exists o.
      * intros k Hk. split.
        -- rewrite Hpl. simpl.
           rewrite Dict_get_del_other, !Dict_get_set_other; auto.
        -- simpl. assert (Hkb : String.eqb id k = false)
             by (apply String.eqb_neq; congruence).
           rewrite Hkb. apply filter_fill_status.
           eapply Forall_impl; [|exact Hall]. intros e (o & -> & _). now exists o.
    + (* filled in part *)
      match goal with
      | |- context [ExecutionHandler._update_order_status ?h3 ?k ?st ?ts ?q] =>
          destruct (_update_order_status_frame h3 k st ts q)
            as (_ & Hpl & _ & _ & Hc & _);
          destruct (_update_order_status_appended h3 k st ts q)
            as (new & Ha & _ & _ & Hall)
      end.
      eexists. eexists (_ :: new). split; [reflexivity|].
      split; [unfold appended in *; rewrite Ha; simpl; now rewrite <- app_assoc|].
      split; [rewrite Hc; reflexivity|].
      split; [rewrite Hpl; simpl; apply Dict_get_set_same|].
      split.
      * simpl. rewrite String.eqb_refl. f_equal. apply filter_fill_status.
        eapply Forall_impl; [|exact Hall]. intros e (o & -> & _). now exists o.
      * intros k Hk. split.
        -- rewrite Hpl. simpl. rewrite !Dict_get_set_other; auto.
        -- simpl. assert (Hkb : String.eqb id k = false)
             by (apply String.eqb_neq; congruence).
           rewrite Hkb. apply filter_fill_status.
           eapply Forall_impl; [|exact Hall]. intros e (o & -> & _). now exists o.
  - (* nothing filled *)
    rewrite (Hzero Hfq). simpl andb. cbv iota. rewrite Z.add_0_r.
    eexists. exists []. split; [reflexivity|].
    split; [unfold appended; simpl; now rewrite app_nil_r|].
    split; [reflexivity|].
    split; [simpl; apply Dict_get_set_same|].
    split; [reflexivity|].
    intros k Hk. split; [simpl; rewrite Dict_get_set_other; auto | reflexivity].
Qed.

Lemma for_items_limit_spec (t : MarketData_TradeEvent.t)
  (items : list (string * ExecutionHandler.PendingLimit)) :
  NoDup (map fst items) ->
  forall h,
    (forall k v, In (k, v) items ->
       Dict.get k (ExecutionHandler.pending_limit_orders h) = Some v
       /\ OrderEvent.limit_price (ExecutionHandler.order v) <> None) ->
    exists h' new,
      ExecutionHandler.for_items (ExecutionHandler.check_limit_fill t) h items = Some h'
      /\ appended h h' new
      /\ ExecutionHandler.commission_per_contract h'
         = ExecutionHandler.commission_per_contract h
      /\ (forall k v, In (k, v) items ->
            Dict.get k (ExecutionHandler.pending_limit_orders h') = pending_after v t
            /\ filter (is_fill_of k) new
               = fills_on_trade (ExecutionHandler.commission_per_contract h) k v t)
      /\ (forall id, ~ In id (map fst items) ->
            Dict.get id (ExecutionHandler.pending_limit_orders h')
            = Dict.get id (ExecutionHandler.pending_limit_orders h)
            /\ filter (is_fill_of id) new = []).
Proof.
  induction items as [|[k v] items IH]; intros Hnd h Hitems.
  - exists h, []. simpl. split; [reflexivity|].
    split; [unfold appended; now rewrite app_nil_r|]. split; [reflexivity|].
    split; [intros ? ? []|]. intros id _. split; reflexivity.
  - simpl in Hnd. inversion Hnd as [|? ? Hk Hnd']; subst.
    destruct (Hitems k v (or_introl eq_refl)) as [Hget Hl].
    destruct (check_limit_fill_spec t h k v Hl Hget)
      as (h1 & new1 & Hrun1 & Ha1 & Hc1 & Hown1 & Hfill1 & Hoth1).
    assert (Hitems1 : forall k' v', In (k', v') items ->
              Dict.get k' (ExecutionHandler.pending_limit_orders h1) = Some v'
              /\ OrderEvent.limit_price (ExecutionHandler.order v') <> None).
    { intros k' v' Hin. destruct (Hitems k' v' (or_intror Hin)) as [Hg Hl'].
      split; [|exact Hl'].
      assert (Hne : k' <> k).
      { intros ->. apply Hk. change k with (fst (k, v')). now apply in_map. }
      destruct (Hoth1 k' Hne) as [-> _]. exact Hg. }
    destruct (IH Hnd' h1 Hitems1) as (h' & new2 & Hrun2 & Ha2 & Hc2 & Hin2 & Hout2).
    exists h', (new1 ++ new2). simpl. rewrite Hrun1.
    split; [exact Hrun2|]. split; [eapply appended_trans; eassumption|].
    split; [congruence|]. split.
    + intros k' v' [Heq|Hin].
      * injection Heq as <- <-. destruct (Hout2 k Hk) as [Hg Hf].
        rewrite filter_app, Hf, app_nil_r. split; [congruence | exact Hfill1].
      * assert (Hne : k' <> k).
        { intros ->. apply Hk. change k with (fst (k, v')). now apply in_map. }
        destruct (Hin2 k' v' Hin) as [Hg Hf]. destruct (Hoth1 k' Hne) as [_ Hf1].
        rewrite filter_app, Hf1, Hf, Hc1. split; [exact Hg | reflexivity].
    + intros id Hnin. simpl in Hnin.
      assert (Hne : id <> k) by (intros ->; apply Hnin; now left).
      assert (Hnin' : ~ In id (map fst items)) by (intros Hi; apply Hnin; now right).
      destruct (Hout2 id Hnin') as [Hg Hf]. destruct (Hoth1 id Hne) as [Hg1 Hf1].
      rewrite filter_app, Hf1, Hf. split; [congruence | reflexivity].
Qed.

(** [check_limit_fills] on a whole table: it returns, and every order that
    was pending has the record and the fills that its own data and the trade
    determine, whatever the other orders are. *)
Lemma check_limit_fills_spec (h : ExecutionHandler.t) (t : MarketData_TradeEvent.t) :
  Dict.wf (ExecutionHandler.pending_limit_orders h) ->
  priced h ->
  exists h' new,
    ExecutionHandler.check_limit_fills h t = Some h'
    /\ appended h h' new
    /\ (forall id d,
          Dict.get id (ExecutionHandler.pending_limit_orders h) = Some d ->
          Dict.get id (ExecutionHandler.pending_limit_orders h') = pending_after d t
          /\ filter (is_fill_of id) new
             = fills_on_trade (ExecutionHandler.commission_per_contract h) id d t)
    /\ (forall id,
          Dict.get id (ExecutionHandler.pending_limit_orders h) = None ->
          Dict.get id (ExecutionHandler.pending_limit_orders h') = None).
Proof.
  intros Hwf Hpriced.
  destruct (for_items_limit_spec t (ExecutionHandler.pending_limit_orders h) Hwf h)
    as (h' & new & Hrun & Ha & _ & Hin & Hout).
  { intros k v Hi. split; [now apply Dict_In_get | exact (Hpriced k v Hi)]. }
  exists h', new. split; [exact Hrun|]. split; [exact Ha|]. split.
  - intros id d Hget. apply Hin. now apply Dict_get_In.
  - intros id Hnone. destruct (Hout id (Dict_get_None_notin _ _ Hnone)) as [-> _].
    exact Hnone.
Qed.



Lemma clamp_bounds (x : DecQty) (lo hi : Z) :
  lo <= hi -> lo <= clamp x lo hi <= hi.
Proof. intros H. destruct x; simpl; lia. Qed.

Lemma filter_idem {A : Type} (f : A -> bool) (l : list A) :
  filter f (filter f l) = filter f l.
Proof.
  induction l as [|a l IH]; simpl; [reflexivity|].
  destruct (f a) eqn:E; simpl; [rewrite E; f_equal|]; exact IH.
Qed.

(** An order filled for less than its quantity, after a trade: the fill
    never overshoots, and the record is gone exactly when the quantity is
    reached. *)
Lemma pending_after_bounds (cpc : Decimal) (id : string)
  (d : ExecutionHandler.PendingLimit) (t : MarketData_TradeEvent.t) :
  0 <= ExecutionHandler.qty_filled d
       < OrderEvent.quantity (ExecutionHandler.order d) ->
  let filled := filled_by id (fills_on_trade cpc id d t) in
  0 <= filled
  /\ ExecutionHandler.qty_filled d + filled
     <= OrderEvent.quantity (ExecutionHandler.order d)
  /\ match pending_after d t with
     | Some d' =>
         ExecutionHandler.order d' = ExecutionHandler.order d
         /\ ExecutionHandler.qty_filled d'
            = ExecutionHandler.qty_filled d + filled
         /\ 0 <= ExecutionHandler.qty_filled d'
                 < OrderEvent.quantity (ExecutionHandler.order d)
     | None =>
         ExecutionHandler.qty_filled d + filled
         = OrderEvent.quantity (ExecutionHandler.order d)
     end.
Proof.
  intros [H0 Hlt]. unfold filled_by, fills_on_trade, pending_after.
  destruct (applies d t) as [l|].
  - cbv zeta.
    assert (Hb := clamp_bounds
                    (DecQty_sub_int (ExecutionHandler.trade_consumes t l)
                       (ExecutionHandler.qty_ahead d)) 0
                    (OrderEvent.quantity (ExecutionHandler.order d)
                     - ExecutionHandler.qty_filled d)).
    fold (fill_on_trade d l t) in Hb.
    destruct (Z.gtb_spec (fill_on_trade d l t) 0) as [Hf|Hf]; simpl.
    + rewrite String.eqb_refl. simpl.
      destruct (Z.geb_spec (ExecutionHandler.qty_filled d + fill_on_trade d l t)
                  (OrderEvent.quantity (ExecutionHandler.order d))); simpl;
        repeat split; try reflexivity; lia.
    + repeat split; try reflexivity; lia.
  - simpl. repeat split; try reflexivity; lia.
Qed.

(** C9, as amended.  For an order in [pending_limit_orders] that is filled
    for less than its quantity before the call, as every order of positive
    quantity is from its placement on: [check_limit_fills] returns; the
    quantity filled on the trade added to its [qty_filled] never exceeds its
    quantity; when the order is still pending afterwards, its [qty_filled]
    is that sum and satisfies [0 <= qty_filled < quantity]; and the order
    has left [pending_limit_orders] exactly when the sum has reached the
    quantity. *)
Theorem limit_fill_bounds (h : ExecutionHandler.t) (t : MarketData_TradeEvent.t)
  (id : string) (d : ExecutionHandler.PendingLimit) :
  Dict.wf (ExecutionHandler.pending_limit_orders h) ->
  priced h ->
  Dict.get id (ExecutionHandler.pending_limit_orders h) = Some d ->
  0 <= ExecutionHandler.qty_filled d
       < OrderEvent.quantity (ExecutionHandler.order d) ->
  exists h' new,
    ExecutionHandler.check_limit_fills h t = Some h'
    /\ appended h h' new
    /\ 0 <= filled_by id new
    /\ ExecutionHandler.qty_filled d + filled_by id new
       <= OrderEvent.quantity (ExecutionHandler.order d)
    /\ match Dict.get id (ExecutionHandler.pending_limit_orders h') with
       | Some d' =>
           ExecutionHandler.order d' = ExecutionHandler.order d
           /\ ExecutionHandler.qty_filled d'
              = ExecutionHandler.qty_filled d + filled_by id new
           /\ 0 <= ExecutionHandler.qty_filled d'
                   < OrderEvent.quantity (ExecutionHandler.order d)
       | None =>
           ExecutionHandler.qty_filled d + filled_by id new
           = OrderEvent.quantity (ExecutionHandler.order d)
       end.
Proof.
  intros Hwf Hpriced Hget Hb.
  destruct (check_limit_fills_spec h t Hwf Hpriced) as (h' & new & Hrun & Ha & Hin & _).
  destruct (Hin id d Hget) as [Hrec Hfills].
  assert (Hp := pending_after_bounds (ExecutionHandler.commission_per_contract h)
                  id d t Hb).
  cbv zeta in Hp. unfold filled_by in Hp |- *.
  rewrite <- Hfills, <- Hrec, filter_idem in Hp.
  exists h', new. split; [exact Hrun|]. split; [exact Ha|]. exact Hp.
Qed.

(** The orders of a table that are all filled for less than their quantity
    stay so through [check_limit_fills]. *)
Lemma check_limit_fills_partly_filled (h : ExecutionHandler.t)
  (t : MarketData_TradeEvent.t) :
  Dict.wf (ExecutionHandler.pending_limit_orders h) ->
  priced h ->
  partly_filled h ->
  exists h', ExecutionHandler.check_limit_fills h t = Some h' /\ partly_filled h'.
Proof.
  intros Hwf Hpriced Hinv.
  destruct (check_limit_fills_spec h t Hwf Hpriced) as (h' & new & Hrun & Ha & Hin & Hout).
  exists h'. split; [exact Hrun|]. intros id d' Hget'.
  destruct (Dict.get id (ExecutionHandler.pending_limit_orders h)) as [d|] eqn:Hget.
  - destruct (Hin id d Hget) as [Hrec _].
    assert (Hp := pending_after_bounds (ExecutionHandler.commission_per_contract h)
                    id d t (Hinv id d Hget)).
    cbv zeta in Hp. destruct Hp as (_ & _ & Hm).
    rewrite <- Hrec, Hget' in Hm. destruct Hm as (Ho & _ & Hq). now rewrite Ho.
  - rewrite (Hout id Hget) in Hget'. discriminate.
Qed.

(** A limit order of positive quantity that does not cross is placed with
    nothing filled. *)
Lemma placement_partly_filled (h : ExecutionHandler.t) (o : OrderEvent.t) :
  0 < OrderEvent.quantity o ->
  partly_filled h ->
  partly_filled
    (ExecutionHandler.set_pending_limit_orders
       (Dict.set (OrderEvent.order_id o)
          (ExecutionHandler.mkPendingLimit o
             (OrderBook.estimate_quantity_ahead (ExecutionHandler.order_book h)
                (OrderEvent.limit_price o) (OrderEvent.direction o)
              + match OrderBook.get_level_data (ExecutionHandler.order_book h)
                        (OrderEvent.limit_price o)
                        (if Side_eqb (OrderEvent.direction o) BUY then SELL else BUY) with
                | Some l => qty l
                | None => 0
                end) 0)
          (ExecutionHandler.pending_limit_orders h)) h).
Proof.
  intros Hq Hinv id d. simpl.
  destruct (String.eqb id (OrderEvent.order_id o)) eqn:E.
  - apply String.eqb_eq in E. subst. rewrite Dict_get_set_same. intros [= <-]. simpl. lia.
  - apply String.eqb_neq in E. rewrite Dict_get_set_other by exact E. apply Hinv.
Qed.

Lemma limit_fill_bounds_witness :
  let t := MarketData_TradeEvent.mk 700000 "ES" (23795 # 4)%Q 5000 SELL in
  match placed_limit_buy 3 with
  | Some h =>
      exists h' new,
        ExecutionHandler.check_limit_fills h t = Some h'
        /\ appended h h' new
        /\ filled_by "ENTRY_1_1000" new = 3
        /\ Dict.get "ENTRY_1_1000" (ExecutionHandler.pending_limit_orders h') = None
  | None => False
  end.
Proof.
  intros t.
  destruct (placed_limit_buy 3) as [h|] eqn:E; [|vm_compute in E; discriminate].
  vm_compute in E. injection E as Hh.
  destruct (Dict.get "ENTRY_1_1000" (ExecutionHandler.pending_limit_orders h))
    as [d|] eqn:Ed; [|subst h; vm_compute in Ed; discriminate].
  assert (Hd := Ed). rewrite <- Hh in Hd. vm_compute in Hd. injection Hd as Hd.
  destruct (limit_fill_bounds h t "ENTRY_1_1000" d)
    as (h' & new & Hrun & Ha & Hf0 & Hle & Hm).
  - subst h. vm_compute. repeat constructor; simpl; tauto.
  - subst h. intros k v Hin. vm_compute in Hin.
    destruct Hin as [Hin|[]]. injection Hin as <- <-. discriminate.
  - exact Ed.
  - subst d. cbn. lia.
  - assert (Hrun' := Hrun). subst h. vm_compute in Hrun'. injection Hrun' as Hh'.
    exists h', new. split; [exact Hrun|]. split; [exact Ha|].
    assert (Hnone : Dict.get "ENTRY_1_1000" (ExecutionHandler.pending_limit_orders h')
                    = None) by (rewrite <- Hh'; vm_compute; reflexivity).
    rewrite Hnone in Hm |- *. subst d. cbn in Hm. split; [lia | reflexivity].
Defined.

(** C9 as stated fails for an order of quantity zero: placed with
    [qty_filled = 0 = quantity], it is passed over by a matching trade and
    is still in [pending_limit_orders] afterwards.  For an order of
    quantity -1 the record has [qty_filled = 0 > quantity]. *)
Lemma zero_quantity_limit_order_stays_pending :
  let t := MarketData_TradeEvent.mk 700000 "ES" (23796 # 4)%Q 5000 SELL in
  match placed_limit_buy 0, placed_limit_buy (-1) with
  | Some h, Some hn =>
      match ExecutionHandler.check_limit_fills h t,
            ExecutionHandler.check_limit_fills hn t with
      | Some h', Some hn' =>
          match Dict.get "ENTRY_1_1000" (ExecutionHandler.pending_limit_orders h'),
                Dict.get "ENTRY_1_1000" (ExecutionHandler.pending_limit_orders hn') with
          | Some d, Some dn =>
              applies d t = Some (23796 # 4)%Q
              /\ ExecutionHandler.qty_filled d
                 = OrderEvent.quantity (ExecutionHandler.order d)
              /\ ExecutionHandler.qty_filled dn
                 > OrderEvent.quantity (ExecutionHandler.order dn)
          | _, _ => False
          end
      | _, _ => False
      end
  | _, _ => False
  end.
Proof. vm_compute. repeat split. Qed.

(** * Further properties of the code *)

(** ** Order book: sorted sides and cached best prices *)

Lemma Qeq_bool_false_neq (x y : Q) : Qeq_bool x y = false -> ~ (x == y)%Q.
Proof. intros H Heq. apply Qeq_bool_iff in Heq. congruence. Qed.

Lemma setitem_In (kf : Decimal -> Decimal) (k : Decimal) (v : Level)
  (d : SortedDict.t) (kv : Decimal * Level) :
  In kv (SortedDict.setitem kf k v d) ->
  ((fst kv == k)%Q /\ snd kv = v) \/ In kv d.
Proof.
  induction d as [|[k0 v0] d IH]; simpl.
  - intros [<-|[]]. left. split; reflexivity.
  - destruct (Qeq_bool k k0) eqn:E.
    + intros [<-|Hin]; [|now right; right].
      left. apply Qeq_bool_iff in E. split; [symmetry; exact E | reflexivity].
    + destruct (Qlt_bool (kf k) (kf k0)).
      * intros [<-|Hin]; [left; split; reflexivity | now right].
      * intros [<-|Hin]; [now right; left|].
        destruct (IH Hin) as [H|H]; [now left | now right; right].
Qed.

Lemma Forall_filter_keep {A : Type} (P : A -> Prop) (f : A -> bool) (l : list A) :
  Forall P l -> Forall P (filter f l).
Proof.
  intros H. apply Forall_forall. intros x Hin. apply filter_In in Hin.
  rewrite Forall_forall in H. now apply H.
Qed.

Lemma sorted_side_filter (kf : Decimal -> Decimal) (f : Decimal * Level -> bool)
  (d : SortedDict.t) :
  sorted_side kf d -> sorted_side kf (filter f d).
Proof.
  induction d as [|[k v] d IH]; simpl; [trivial|].
  intros [Hall Hs]. destruct (f (k, v)); simpl.
  - split; [now apply Forall_filter_keep | now apply IH].
  - now apply IH.
Qed.

Section SortKey.

Variable kf : Decimal -> Decimal.
Hypothesis kf_proper : forall a b : Q, (a == b)%Q -> (kf a == kf b)%Q.
Hypothesis kf_inj : forall a b : Q, (kf a == kf b)%Q -> (a == b)%Q.

Lemma sorted_side_setitem (k : Decimal) (v : Level) (d : SortedDict.t) :
  sorted_side kf d -> sorted_side kf (SortedDict.setitem kf k v d).
Proof.
  induction d as [|[k0 v0] d IH]; simpl.
  - intros _. split; [constructor | exact I].
  - intros [Hall Hs]. destruct (Qeq_bool k k0) eqn:E.
    + simpl. now split.
    + destruct (Qlt_bool (kf k) (kf k0)) eqn:El.
      * apply Qlt_bool_iff in El. simpl. split; [|now split].
        constructor; [exact El|].
        eapply Forall_impl; [|exact Hall]. intros kv Hkv. simpl in *. lra.
      * simpl. split; [|now apply IH].
        apply Forall_forall. intros kv Hin.
        apply setitem_In in Hin. destruct Hin as [[Hk _]|Hin].
        -- apply Qeq_bool_false_neq in E.
           assert (Hnlt : ~ (kf k < kf k0)%Q).
           { intros Hlt. apply Qlt_bool_iff in Hlt. congruence. }
           assert (Hne : ~ (kf k == kf k0)%Q) by (intros Hq; apply E; now apply kf_inj).
           assert (Hkk := kf_proper _ _ Hk). lra.
        -- rewrite Forall_forall in Hall. now apply Hall.
Qed.

End SortKey.

Lemma sorted_bids_setitem (k : Decimal) (v : Level) (d : SortedDict.t) :
  sorted_side bids_key d -> sorted_side bids_key (SortedDict.setitem bids_key k v d).
Proof.
  apply sorted_side_setitem; unfold bids_key; intros a b H; lra.
Qed.

Lemma sorted_asks_setitem (k : Decimal) (v : Level) (d : SortedDict.t) :
  sorted_side asks_key d -> sorted_side asks_key (SortedDict.setitem asks_key k v d).
Proof.
  apply sorted_side_setitem; unfold asks_key; intros a b H; exact H.
Qed.

Lemma synthetic_levels_sorted (tick : Decimal) (n : nat) :
  forall (i : nat) (bids asks : SortedDict.t),
    sorted_side bids_key bids -> sorted_side asks_key asks ->
    sorted_side bids_key (fst (OrderBook.synthetic_levels tick i bids asks n))
    /\ sorted_side asks_key (snd (OrderBook.synthetic_levels tick i bids asks n)).
Proof.
  induction n as [|n IH]; intros i bids asks Hb Ha; simpl.
  - now split.
  - apply IH; [now apply sorted_bids_setitem | now apply sorted_asks_setitem].
Qed.

Lemma book_ok_init (symbol : string) (tick_size : Decimal) (synthetic : bool) :
  book_ok (OrderBook.init symbol tick_size synthetic).
Proof.
  unfold OrderBook.init. destruct synthetic.
  - unfold OrderBook._initialize_synthetic_data.
    cbn [OrderBook.tick_size OrderBook.bids OrderBook.asks].
    destruct (synthetic_levels_sorted tick_size 10 0 [] [] I I) as [Hb Ha].
    destruct (OrderBook.synthetic_levels tick_size 0 [] [] 10) as [bids' asks'].
    cbn [fst snd] in Hb, Ha. unfold book_ok, synced, OrderBook.with_sides.
    cbn [OrderBook.bids OrderBook.asks OrderBook.best_bid OrderBook.best_ask].
    repeat split; assumption.
  - repeat split; simpl; try exact I; reflexivity.
Qed.

Lemma book_ok_process_depth_event (b : OrderBook.t) (e : MarketData_DepthEvent.t) :
  book_ok b -> book_ok (OrderBook.process_depth_event b e).
Proof.
  intros Hok. pose proof Hok as (Hb & Ha & Hs). unfold OrderBook.process_depth_event.
  destruct (negb (String.eqb (MarketData_DepthEvent.symbol e) (OrderBook.symbol b))
            || (MarketData_DepthEvent.timestamp e <? OrderBook.last_update_time b));
    [exact Hok|].
  unfold book_ok, synced. simpl.
  destruct (Side_eqb (MarketData_DepthEvent.side e) SELL);
    destruct (OrderBook.OrderCommand_eqb (MarketData_DepthEvent.command e) DELETE
              || OrderBook.OrderCommand_eqb (MarketData_DepthEvent.command e) UPDATE
                 && (MarketData_DepthEvent.quantity e <=? 0));
    try destruct (OrderBook.OrderCommand_eqb (MarketData_DepthEvent.command e) INSERT
                  || OrderBook.OrderCommand_eqb (MarketData_DepthEvent.command e) UPDATE);
    try destruct (MarketData_DepthEvent.quantity e >? 0);
    repeat split;
    first [ assumption
          | now apply sorted_side_filter
          | now apply sorted_bids_setitem
          | now apply sorted_asks_setitem ].
Qed.



Lemma sorted_bids_head (k : Decimal) (v : Level) (d : SortedDict.t) (p : Decimal)
  (l : Level) :
  sorted_side bids_key ((k, v) :: d) -> In (p, l) ((k, v) :: d) -> (p <= k)%Q.
Proof.
  simpl. intros [Hall _] [Heq|Hin].
  - injection Heq as -> _. lra.
  - rewrite Forall_forall in Hall. specialize (Hall _ Hin).
    unfold bids_key in Hall. simpl in Hall. lra.
Qed.

Lemma sorted_asks_head (k : Decimal) (v : Level) (d : SortedDict.t) (p : Decimal)
  (l : Level) :
  sorted_side asks_key ((k, v) :: d) -> In (p, l) ((k, v) :: d) -> (k <= p)%Q.
Proof.
  simpl. intros [Hall _] [Heq|Hin].
  - injection Heq as -> _. lra.
  - rewrite Forall_forall in Hall. specialize (Hall _ Hin).
    unfold asks_key in Hall. simpl in Hall. lra.
Qed.

(** X2.  In a book in order the cached [best_bid] is the highest bid price
    and the cached [best_ask] the lowest ask price: every level of a side
    lies at or behind the best price of that side. *)
Theorem best_prices_are_extremes (b : OrderBook.t) :
  book_ok b ->
  (forall p l, In (p, l) (OrderBook.bids b) ->
     exists best, OrderBook.best_bid b = Some best /\ (p <= best)%Q)
  /\ (forall p l, In (p, l) (OrderBook.asks b) ->
        exists best, OrderBook.best_ask b = Some best /\ (best <= p)%Q).
Proof.
  intros (Hb & Ha & Hbid & Hask). split; intros p l Hin.
  - rewrite Hbid. destruct (OrderBook.bids b) as [|[k v] d]; [destruct Hin|].
    exists k. split; [reflexivity | now apply (sorted_bids_head k v d p l)].
  - rewrite Hask. destruct (OrderBook.asks b) as [|[k v] d]; [destruct Hin|].
    exists k. split; [reflexivity | now apply (sorted_asks_head k v d p l)].
Qed.

Lemma best_prices_are_extremes_witness :
  let b := OrderBook.init "ES" (1 # 4)%Q true in
  (forall p l, In (p, l) (OrderBook.bids b) ->
     exists best, OrderBook.best_bid b = Some best /\ (p <= best)%Q)
  /\ (forall p l, In (p, l) (OrderBook.asks b) ->
        exists best, OrderBook.best_ask b = Some best /\ (best <= p)%Q).
Proof.
  apply (best_prices_are_extremes (OrderBook.init "ES" (1 # 4)%Q true)).
  unfold book_ok, synced. vm_compute.
  repeat (split || constructor).
Defined.

(** ** Order book: writing and reading levels *)

Lemma SortedDict_get_setitem_other (kf : Decimal -> Decimal) (k k' : Decimal)
  (v : Level) (d : SortedDict.t) :
  ~ (k' == k)%Q ->
  SortedDict.get k' (SortedDict.setitem kf k v d) = SortedDict.get k' d.
Proof.
  intros Hne.
  assert (Hkk : Qeq_bool k' k = false).
  { destruct (Qeq_bool k' k) eqn:E; [apply Qeq_bool_iff in E; contradiction | reflexivity]. }
  induction d as [|[k0 v0] d IH]; simpl.
  - now rewrite Hkk.
  - destruct (Qeq_bool k k0) eqn:E.
    + apply Qeq_bool_iff in E. simpl.
      destruct (Qeq_bool k' k0) eqn:E'; [|reflexivity].
      apply Qeq_bool_iff in E'. exfalso. apply Hne. now rewrite E', E.
    + destruct (Qlt_bool (kf k) (kf k0)); simpl.
      * now rewrite Hkk.
      * destruct (Qeq_bool k' k0); [reflexivity | exact IH].
Qed.

Lemma SortedDict_get_delitem_other (k k' : Decimal) (d : SortedDict.t) :
  ~ (k' == k)%Q ->
  SortedDict.get k' (SortedDict.delitem k d) = SortedDict.get k' d.
Proof.
  intros Hne. unfold SortedDict.delitem.
  induction d as [|[k0 v0] d IH]; simpl; [reflexivity|].
  destruct (Qeq_bool k k0) eqn:E; simpl.
  - apply Qeq_bool_iff in E.
    destruct (Qeq_bool k' k0) eqn:E'; [|exact IH].
    apply Qeq_bool_iff in E'. exfalso. apply Hne. now rewrite E', E.
  - destruct (Qeq_bool k' k0); [reflexivity | exact IH].
Qed.

(** The book after a depth event that it takes. *)
Lemma process_depth_event_accepted (b : OrderBook.t) (e : MarketData_DepthEvent.t) :
  accepted b e ->
  negb (String.eqb (MarketData_DepthEvent.symbol e) (OrderBook.symbol b))
  || (MarketData_DepthEvent.timestamp e <? OrderBook.last_update_time b) = false.
Proof.
  intros [Hsym Hts]. rewrite Hsym, String.eqb_refl. simpl.
  apply Z.ltb_ge. exact Hts.
Qed.

Lemma Side_eqb_neq (a b : Side) : a <> b -> Side_eqb a b = false.
Proof. destruct a, b; simpl; congruence. Qed.

Lemma gtb_true (n : Z) : 0 < n -> (n >? 0) = true.
Proof. intros H. destruct (Z.gtb_spec n 0); [reflexivity | lia]. Qed.

Lemma gtb_false (n : Z) : n <= 0 -> (n >? 0) = false.
Proof. intros H. destruct (Z.gtb_spec n 0); [lia | reflexivity]. Qed.

Lemma leb_true (n : Z) : n <= 0 -> (n <=? 0) = true.
Proof. intros H. now apply Z.leb_le. Qed.

Lemma leb_false (n : Z) : 0 < n -> (n <=? 0) = false.
Proof. intros H. now apply Z.leb_gt. Qed.

(** X3.  A depth event INSERT or UPDATE with a positive quantity that the
    book takes writes the level: afterwards the level at its price on its
    side holds the quantity and the number of orders of the event, every
    other price of that side reads as before, and so does the whole other
    side. *)
Theorem depth_write_then_read (b : OrderBook.t) (e : MarketData_DepthEvent.t) :
  accepted b e ->
  MarketData_DepthEvent.command e = INSERT
  \/ MarketData_DepthEvent.command e = UPDATE ->
  0 < MarketData_DepthEvent.quantity e ->
  let b' := OrderBook.process_depth_event b e in
  OrderBook.get_level_data b' (Some (MarketData_DepthEvent.price e))
    (MarketData_DepthEvent.side e)
  = Some (mkLevel (MarketData_DepthEvent.quantity e)
            (MarketData_DepthEvent.num_orders e))
  /\ (forall p, ~ (p == MarketData_DepthEvent.price e)%Q ->
        OrderBook.get_level_data b' (Some p) (MarketData_DepthEvent.side e)
        = OrderBook.get_level_data b (Some p) (MarketData_DepthEvent.side e))
  /\ (forall p s, s <> MarketData_DepthEvent.side e ->
        OrderBook.get_level_data b' (Some p) s
        = OrderBook.get_level_data b (Some p) s).
Proof.
  intros Hacc Hcmd Hq b'. unfold b', OrderBook.process_depth_event, OrderBook.get_level_data.
  rewrite (process_depth_event_accepted b e Hacc).
  rewrite (gtb_true _ Hq), (leb_false _ Hq).
  destruct Hcmd as [-> | ->]; cbn [OrderBook.OrderCommand_eqb orb andb];
    destruct (MarketData_DepthEvent.side e);
    cbn [Side_eqb OrderBook.bids OrderBook.asks];
    (split; [apply SortedDict_get_setitem_same|];
     split; [intros p Hp; now apply SortedDict_get_setitem_other|];
     intros p [|] Hs; try congruence; reflexivity).
Qed.

Lemma depth_write_then_read_witness :
  let b := OrderBook.init "ES" (1 # 4)%Q true in
  let e := MarketData_DepthEvent.mk 5 "ES" (23797 # 4)%Q 40 SELL UPDATE 1 3 in
  OrderBook.get_level_data (OrderBook.process_depth_event b e)
    (Some (23797 # 4)%Q) SELL
  = Some (mkLevel 40 3).
Proof.
  apply (depth_write_then_read (OrderBook.init "ES" (1 # 4)%Q true)
           (MarketData_DepthEvent.mk 5 "ES" (23797 # 4)%Q 40 SELL UPDATE 1 3)).
  - split; [reflexivity | vm_compute; discriminate].
  - right. reflexivity.
  - reflexivity.
Defined.

(** X4.  A depth event that the book takes and that is a DELETE, or an
    INSERT or UPDATE with a quantity of zero or less, removes the level:
    afterwards there is no level at its price on its side, whether there was
    one or not, every other price of that side reads as before, and so does
    the whole other side. *)
Theorem depth_remove_then_read (b : OrderBook.t) (e : MarketData_DepthEvent.t) :
  accepted b e ->
  MarketData_DepthEvent.command e = DELETE
  \/ ((MarketData_DepthEvent.command e = INSERT
       \/ MarketData_DepthEvent.command e = UPDATE)
      /\ MarketData_DepthEvent.quantity e <= 0) ->
  let b' := OrderBook.process_depth_event b e in
  OrderBook.get_level_data b' (Some (MarketData_DepthEvent.price e))
    (MarketData_DepthEvent.side e)
  = None
  /\ (forall p, ~ (p == MarketData_DepthEvent.price e)%Q ->
        OrderBook.get_level_data b' (Some p) (MarketData_DepthEvent.side e)
        = OrderBook.get_level_data b (Some p) (MarketData_DepthEvent.side e))
  /\ (forall p s, s <> MarketData_DepthEvent.side e ->
        OrderBook.get_level_data b' (Some p) s
        = OrderBook.get_level_data b (Some p) s).
Proof.
  intros Hacc Hcmd b'. unfold b', OrderBook.process_depth_event, OrderBook.get_level_data.
  rewrite (process_depth_event_accepted b e Hacc).
  assert (Hside :
    (if OrderBook.OrderCommand_eqb (MarketData_DepthEvent.command e) DELETE
        || OrderBook.OrderCommand_eqb (MarketData_DepthEvent.command e) UPDATE
           && (MarketData_DepthEvent.quantity e <=? 0)
     then SortedDict.delitem (MarketData_DepthEvent.price e)
            (if Side_eqb (MarketData_DepthEvent.side e) SELL
             then OrderBook.bids b else OrderBook.asks b)
     else if OrderBook.OrderCommand_eqb (MarketData_DepthEvent.command e) INSERT
             || OrderBook.OrderCommand_eqb (MarketData_DepthEvent.command e) UPDATE
     then if MarketData_DepthEvent.quantity e >? 0
          then SortedDict.setitem
                 (if Side_eqb (MarketData_DepthEvent.side e) SELL
                  then bids_key else asks_key)
                 (MarketData_DepthEvent.price e)
                 (mkLevel (MarketData_DepthEvent.quantity e)
                    (MarketData_DepthEvent.num_orders e))
                 (if Side_eqb (MarketData_DepthEvent.side e) SELL
                  then OrderBook.bids b else OrderBook.asks b)
          else SortedDict.delitem (MarketData_DepthEvent.price e)
                 (if Side_eqb (MarketData_DepthEvent.side e) SELL
                  then OrderBook.bids b else OrderBook.asks b)
     else (if Side_eqb (MarketData_DepthEvent.side e) SELL
           then OrderBook.bids b else OrderBook.asks b))
    = SortedDict.delitem (MarketData_DepthEvent.price e)
        (if Side_eqb (MarketData_DepthEvent.side e) SELL
         then OrderBook.bids b else OrderBook.asks b)).
  { destruct Hcmd as [-> | [[-> | ->] Hq]]; cbn [OrderBook.OrderCommand_eqb orb andb];
      try reflexivity.
    - now rewrite (gtb_false _ Hq).
    - now rewrite (leb_true _ Hq). }
  cbv zeta. rewrite Hside.
  destruct (MarketData_DepthEvent.side e);
    cbn [Side_eqb OrderBook.bids OrderBook.asks];
    (split; [apply SortedDict_get_delitem_same|];
     split; [intros p Hp; now apply SortedDict_get_delitem_other|];
     intros p [|] Hs; try congruence; reflexivity).
Qed.

Lemma depth_remove_then_read_witness :
  let b := OrderBook.init "ES" (1 # 4)%Q true in
  let e := MarketData_DepthEvent.mk 5 "ES" (23797 # 4)%Q 0 SELL INSERT 1 3 in
  OrderBook.get_level_data b (Some (23797 # 4)%Q) SELL = Some (mkLevel 700 5)
  /\ OrderBook.get_level_data (OrderBook.process_depth_event b e)
       (Some (23797 # 4)%Q) SELL
     = None.
Proof.
  split; [reflexivity|].
  apply (depth_remove_then_read (OrderBook.init "ES" (1 # 4)%Q true)
           (MarketData_DepthEvent.mk 5 "ES" (23797 # 4)%Q 0 SELL INSERT 1 3)).
  - split; [reflexivity | vm_compute; discriminate].
  - right. split; [left; reflexivity | vm_compute; discriminate].
Defined.

(** ** Order book: only positive quantities rest in the book *)

Lemma positive_levels_setitem (kf : Decimal -> Decimal) (k : Decimal) (v : Level)
  (d : SortedDict.t) :
  0 < qty v -> positive_levels d -> positive_levels (SortedDict.setitem kf k v d).
Proof.
  intros Hv Hd. apply Forall_forall. intros kv Hin.
  apply setitem_In in Hin. destruct Hin as [[_ ->]|Hin]; [exact Hv|].
  unfold positive_levels in Hd. rewrite Forall_forall in Hd. now apply Hd.
Qed.

Lemma synthetic_levels_positive (tick : Decimal) (n : nat) :
  forall (i : nat) (bids asks : SortedDict.t),
    (i + n <= 10)%nat ->
    positive_levels bids -> positive_levels asks ->
    positive_levels (fst (OrderBook.synthetic_levels tick i bids asks n))
    /\ positive_levels (snd (OrderBook.synthetic_levels tick i bids asks n)).
Proof.
  induction n as [|n IH]; intros i bids asks Hi Hb Ha;
    cbn [OrderBook.synthetic_levels].
  - now split.
  - apply IH; [lia | |]; apply positive_levels_setitem; cbn [qty];
      try assumption; lia.
Qed.

Lemma positive_levels_init (symbol : string) (tick_size : Decimal) (synthetic : bool) :
  positive_levels (OrderBook.bids (OrderBook.init symbol tick_size synthetic))
  /\ positive_levels (OrderBook.asks (OrderBook.init symbol tick_size synthetic)).
Proof.
  unfold OrderBook.init. destruct synthetic.
  - unfold OrderBook._initialize_synthetic_data.
    cbn [OrderBook.tick_size OrderBook.bids OrderBook.asks].
    assert (H10 : (0 + 10 <= 10)%nat) by lia.
    destruct (synthetic_levels_positive tick_size 10 0 [] [] H10
                (Forall_nil _) (Forall_nil _)) as [Hb Ha].
    destruct (OrderBook.synthetic_levels tick_size 0 [] [] 10) as [bids' asks'].
    cbn [fst snd] in Hb, Ha. unfold OrderBook.with_sides.
    cbn [OrderBook.bids OrderBook.asks]. now split.
  - split; constructor.
Qed.

Lemma positive_levels_process_depth_event (b : OrderBook.t)
  (e : MarketData_DepthEvent.t) :
  positive_levels (OrderBook.bids b) -> positive_levels (OrderBook.asks b) ->
  positive_levels (OrderBook.bids (OrderBook.process_depth_event b e))
  /\ positive_levels (OrderBook.asks (OrderBook.process_depth_event b e)).
Proof.
  intros Hb Ha. unfold OrderBook.process_depth_event.
  destruct (negb (String.eqb (MarketData_DepthEvent.symbol e) (OrderBook.symbol b))
            || (MarketData_DepthEvent.timestamp e <? OrderBook.last_update_time b));
    [now split|].
  cbn [OrderBook.bids OrderBook.asks].
  destruct (Side_eqb (MarketData_DepthEvent.side e) SELL);
    destruct (OrderBook.OrderCommand_eqb (MarketData_DepthEvent.command e) DELETE
              || OrderBook.OrderCommand_eqb (MarketData_DepthEvent.command e) UPDATE
                 && (MarketData_DepthEvent.quantity e <=? 0));
    try destruct (OrderBook.OrderCommand_eqb (MarketData_DepthEvent.command e) INSERT
                  || OrderBook.OrderCommand_eqb (MarketData_DepthEvent.command e) UPDATE);
    try destruct (Z.gtb_spec (MarketData_DepthEvent.quantity e) 0);
    split;
    first [ assumption
          | now apply Forall_filter_keep
          | apply positive_levels_setitem; [simpl; lia | assumption] ].
Qed.

(** X5.  No level of the book holds a quantity of zero or less: this is so
    for a new book, empty or with the synthetic levels, and a depth event
    keeps it so, since it writes positive quantities only and removes the
    level otherwise. *)
Theorem book_levels_stay_positive :
  (forall (symbol : string) (tick_size : Decimal) (synthetic : bool),
      positive_levels (OrderBook.bids (OrderBook.init symbol tick_size synthetic))
      /\ positive_levels (OrderBook.asks (OrderBook.init symbol tick_size synthetic)))
  /\ (forall (b : OrderBook.t) (e : MarketData_DepthEvent.t),
         positive_levels (OrderBook.bids b) -> positive_levels (OrderBook.asks b) ->
         positive_levels (OrderBook.bids (OrderBook.process_depth_event b e))
         /\ positive_levels (OrderBook.asks (OrderBook.process_depth_event b e))).
Proof.
  split; [exact positive_levels_init | exact positive_levels_process_depth_event].
Qed.

Lemma book_levels_stay_positive_witness :
  let b := OrderBook.init "ES" (1 # 4)%Q false in
  let e := MarketData_DepthEvent.mk 5 "ES" (23797 # 4)%Q (-3) SELL INSERT 1 3 in
  positive_levels (OrderBook.bids (OrderBook.process_depth_event b e))
  /\ positive_levels (OrderBook.asks (OrderBook.process_depth_event b e)).
Proof.
  apply (proj2 book_levels_stay_positive (OrderBook.init "ES" (1 # 4)%Q false)
           (MarketData_DepthEvent.mk 5 "ES" (23797 # 4)%Q (-3) SELL INSERT 1 3));
    constructor.
Defined.

(** ** Order book: the best bid and offer *)

(** X6.  When the cached best prices are the first keys of the two sides,
    [get_bbo] reports for each side the first price with the quantity resting
    at it, [None] with quantity 0 for an empty side, and quantity 0 for a
    best price that is exactly zero, which the truth test of the method takes
    for a missing price. *)
Theorem get_bbo_reports_first_levels (b : OrderBook.t) :
  synced b ->
  OrderBook.get_bbo b
  = (fst (best_level (OrderBook.bids b)), snd (best_level (OrderBook.bids b)),
     fst (best_level (OrderBook.asks b)), snd (best_level (OrderBook.asks b))).
Proof.
  intros [Hb Ha]. unfold OrderBook.get_bbo. rewrite Hb, Ha.
  destruct (OrderBook.bids b) as [|[kb vb] db];
    destruct (OrderBook.asks b) as [|[ka va] da];
    cbn [SortedDict.first_key best_level fst snd truthy SortedDict.get];
    rewrite ?Qeq_bool_refl;
    try destruct (Qeq_bool kb 0); try destruct (Qeq_bool ka 0); reflexivity.
Qed.

Lemma get_bbo_reports_first_levels_witness :
  let b := OrderBook.init "ES" (1 # 4)%Q true in
  OrderBook.get_bbo b
  = (fst (best_level (OrderBook.bids b)), snd (best_level (OrderBook.bids b)),
     fst (best_level (OrderBook.asks b)), snd (best_level (OrderBook.asks b)))
  /\ snd (best_level (OrderBook.bids b)) = 1000
  /\ snd (best_level (OrderBook.asks b)) = 100.
Proof.
  split; [|split; reflexivity].
  apply (get_bbo_reports_first_levels (OrderBook.init "ES" (1 # 4)%Q true)).
  split; reflexivity.
Defined.

(** ** Loader and order book: the side a depth row addresses *)

(** X7.  The flags of a depth row choose the side of the book that the row
    can change: a row with odd flags never changes the asks, a row with even
    flags never changes the bids, whatever its command, price and
    quantity. *)
Theorem depth_row_side_by_flag_parity (symbol : string) (b : OrderBook.t)
  (row : SQLiteDataLoader.DepthRow) :
  let b' :=
    OrderBook.process_depth_event b
      (SQLiteDataLoader._create_event_from_depth_row symbol row) in
  (Z.odd (SQLiteDataLoader.row_flags row) = true ->
   OrderBook.asks b' = OrderBook.asks b)
  /\ (Z.even (SQLiteDataLoader.row_flags row) = true ->
      OrderBook.bids b' = OrderBook.bids b).
Proof.
  intros b'. unfold b', OrderBook.process_depth_event.
  destruct (negb (String.eqb
                    (MarketData_DepthEvent.symbol
                       (SQLiteDataLoader._create_event_from_depth_row symbol row))
                    (OrderBook.symbol b))
            || (MarketData_DepthEvent.timestamp
                  (SQLiteDataLoader._create_event_from_depth_row symbol row)
                <? OrderBook.last_update_time b));
    [now split|].
  cbn [OrderBook.bids OrderBook.asks SQLiteDataLoader._create_event_from_depth_row
       MarketData_DepthEvent.side].
  unfold SQLiteDataLoader._determine_side_from_flags.
  rewrite Zmod_odd. split; intros Hp.
  - rewrite Hp. reflexivity.
  - rewrite <- Z.negb_odd in Hp. apply negb_true_iff in Hp. rewrite Hp. reflexivity.
Qed.

Lemma depth_row_side_by_flag_parity_witness :
  let b := OrderBook.init "ES" (1 # 4)%Q true in
  OrderBook.asks
    (OrderBook.process_depth_event b
       (SQLiteDataLoader._create_event_from_depth_row "ES"
          (SQLiteDataLoader.mkDepthRow 7 1 (-3) 2 (23805 # 4)%Q 50)))
  = OrderBook.asks b.
Proof.
  apply (depth_row_side_by_flag_parity "ES" (OrderBook.init "ES" (1 # 4)%Q true)
           (SQLiteDataLoader.mkDepthRow 7 1 (-3) 2 (23805 # 4)%Q 50)).
  reflexivity.
Defined.

(** ** Execution handler: from a signal to an accepted order *)

Lemma appended_refl (h : ExecutionHandler.t) : appended h h [].
Proof. unfold appended. now rewrite app_nil_r. Qed.

Lemma _reject_order_appends (h : ExecutionHandler.t) (o : OrderEvent.t) :
  exists new, appended h (ExecutionHandler._reject_order h o) new.
Proof.
  unfold ExecutionHandler._reject_order.
  destruct (_update_order_status_appended h (OrderEvent.order_id o) REJECTED
              (OrderEvent.timestamp o) None) as (new & Happ & _).
  now exists new.
Qed.

Lemma _execute_market_order_appends (h : ExecutionHandler.t) (o : OrderEvent.t) :
  exists new, appended h (ExecutionHandler._execute_market_order h o) new.
Proof.
  unfold ExecutionHandler._execute_market_order.
  destruct (if Side_eqb (OrderEvent.direction o) BUY
            then OrderBook.asks (ExecutionHandler.order_book h)
            else OrderBook.bids (ExecutionHandler.order_book h)) as [|lv rest];
    [apply _reject_order_appends|].
  destruct (ExecutionHandler.walk_book_side _ _ _ _) as [[f v] side'].
  destruct (f >? 0).
  - match goal with
    | |- context [ExecutionHandler._update_order_status ?h2 ?id ?st ?ts ?q] =>
        destruct (_update_order_status_appended h2 id st ts q) as (new & Happ & _)
    end.
    eexists. eapply appended_trans; [|exact Happ].
    unfold appended. cbn [ExecutionHandler.append ExecutionHandler.event_queue
                          ExecutionHandler.set_order_book]. reflexivity.
  - match goal with
    | |- context [ExecutionHandler._reject_order ?h1 ?o1] =>
        destruct (_reject_order_appends h1 o1) as (new & Happ)
    end.
    exists new. exact Happ.
Qed.

Lemma placement_appends (h : ExecutionHandler.t) (o : OrderEvent.t) :
  exists new,
    appended h
      (match OrderEvent.order_type o with
       | MARKET => ExecutionHandler._execute_market_order h o
       | LIMIT => ExecutionHandler._handle_limit_order_placement h o
       | STOP_MARKET => ExecutionHandler._handle_stop_order_placement h o
       end) new.
Proof.
  destruct (OrderEvent.order_type o).
  - apply _execute_market_order_appends.
  - unfold ExecutionHandler._handle_limit_order_placement.
    destruct (OrderBook.get_bbo _) as [[[bb bq] ba] aq].
    match goal with |- context [if ?c then ExecutionHandler._execute_market_order _ _ else _] =>
      destruct c end.
    + apply _execute_market_order_appends.
    + exists []. unfold appended.
      cbn [ExecutionHandler.event_queue ExecutionHandler.set_pending_limit_orders].
      now rewrite app_nil_r.
  - unfold ExecutionHandler._handle_stop_order_placement.
    destruct (OrderEvent.stop_price o).
    + exists []. unfold appended.
      cbn [ExecutionHandler.event_queue ExecutionHandler.set_pending_stop_orders].
      now rewrite app_nil_r.
    + apply _reject_order_appends.
Qed.

Lemma execute_order_accepts (h : ExecutionHandler.t) (o o_reg : OrderEvent.t) :
  Dict.get (OrderEvent.order_id o) (ExecutionHandler.submitted_orders h) = Some o_reg ->
  exists a rest,
    appended h (ExecutionHandler.execute_order h o) (EvOrder a :: rest)
    /\ OrderEvent.order_id a = OrderEvent.order_id o
    /\ OrderEvent.status a = ACCEPTED
    /\ OrderEvent.timestamp a = OrderEvent.timestamp o.
Proof.
  intros Hreg. unfold ExecutionHandler.execute_order.
  destruct (_update_order_status_appended h (OrderEvent.order_id o) ACCEPTED
              (OrderEvent.timestamp o) None) as (new & Happ & _ & Hsome & _).
  destruct Hsome as (a & -> & Hid & Hst & Hts); [congruence|].
  destruct (placement_appends
              (ExecutionHandler._update_order_status h (OrderEvent.order_id o)
                 ACCEPTED (OrderEvent.timestamp o) None) o) as (rest & Hrest).
  exists a, rest. repeat split; try assumption.
  exact (appended_trans _ _ _ _ _ Happ Hrest).
Qed.

Lemma signal_becomes_registered_order_aux (h : ExecutionHandler.t)
  (e : SignalEvent.t) (time_ns : Z) :
  exists entry,
    appended h (ExecutionHandler.process_signal h e time_ns) [EvOrder entry].
Proof.
  unfold ExecutionHandler.process_signal, appended.
  cbn [ExecutionHandler._generate_order_id].
  destruct (truthy (SignalEvent.signal_stop_price e)
            || truthy (SignalEvent.signal_target_price e));
    eexists; reflexivity.
Qed.

(** X8.  [process_signal] turns every signal into one entry order: it
    appends exactly that order, in status PENDING_SUBMIT, stamped with the
    time of the signal plus the two latencies and carrying the stop and
    target prices of the signal as linked prices; it registers the order
    under its new id, creates an empty bracket record for it exactly when the
    signal has a stop or target price that is not zero, and a later
    [execute_order] on that order starts with its ACCEPTED status. *)
Theorem signal_becomes_registered_order (h : ExecutionHandler.t)
  (e : SignalEvent.t) (time_ns : Z) :
  let h1 := ExecutionHandler.process_signal h e time_ns in
  let id := snd (ExecutionHandler._generate_order_id h "ENTRY" time_ns) in
  let entry :=
    OrderEvent.mk
      (SignalEvent.timestamp e + ExecutionHandler.latency_data_signal_ns h
       + ExecutionHandler.latency_signal_order_ns h)
      id PENDING_SUBMIT (SignalEvent.strategy_id e) (SignalEvent.symbol e)
      (SignalEvent.quantity e) (SignalEvent.order_type e)
      (SignalEvent.direction e) (SignalEvent.limit_price e)
      (SignalEvent.stop_price e) OrderEvent.default_filled_quantity
      (SignalEvent.signal_stop_price e) (SignalEvent.signal_target_price e)
      None in
  appended h h1 [EvOrder entry]
  /\ Dict.get id (ExecutionHandler.submitted_orders h1) = Some entry
  /\ ExecutionHandler.order_counter h1 = ExecutionHandler.order_counter h + 1
  /\ (if truthy (SignalEvent.signal_stop_price e)
         || truthy (SignalEvent.signal_target_price e)
      then Dict.get id (ExecutionHandler.linked_exit_orders h1)
           = Some (ExecutionHandler.mkLinkedExits None None)
      else ExecutionHandler.linked_exit_orders h1
           = ExecutionHandler.linked_exit_orders h)
  /\ exists a rest,
       appended h1 (ExecutionHandler.execute_order h1 entry) (EvOrder a :: rest)
       /\ OrderEvent.order_id a = id
       /\ OrderEvent.status a = ACCEPTED
       /\ OrderEvent.timestamp a = OrderEvent.timestamp entry.
Proof.
  intros h1 id entry.
  assert (Hreg : Dict.get id (ExecutionHandler.submitted_orders h1) = Some entry).
  { unfold h1, ExecutionHandler.process_signal.
    cbn [ExecutionHandler._generate_order_id].
    destruct (truthy (SignalEvent.signal_stop_price e)
              || truthy (SignalEvent.signal_target_price e));
      cbn [ExecutionHandler.submitted_orders ExecutionHandler.set_linked_exit_orders
           ExecutionHandler.append ExecutionHandler.set_submitted_orders
           ExecutionHandler.set_order_counter];
      apply Dict_get_set_same. }
  split; [|split; [exact Hreg|split; [|split]]].
  - unfold h1, ExecutionHandler.process_signal, appended.
    cbn [ExecutionHandler._generate_order_id].
    destruct (truthy (SignalEvent.signal_stop_price e)
              || truthy (SignalEvent.signal_target_price e)); reflexivity.
  - unfold h1, ExecutionHandler.process_signal.
    cbn [ExecutionHandler._generate_order_id].
    destruct (truthy (SignalEvent.signal_stop_price e)
              || truthy (SignalEvent.signal_target_price e)); reflexivity.
  - unfold h1, ExecutionHandler.process_signal.
    cbn [ExecutionHandler._generate_order_id].
    destruct (truthy (SignalEvent.signal_stop_price e)
              || truthy (SignalEvent.signal_target_price e)).
    + cbn [ExecutionHandler.linked_exit_orders ExecutionHandler.set_linked_exit_orders].
      apply Dict_get_set_same.
    + reflexivity.
  - exact (execute_order_accepts h1 entry entry Hreg).
Qed.

(** ** Execution handler: orders that are not registered *)

Lemma _update_order_status_unknown (h : ExecutionHandler.t) (id : string)
  (st : OrderStatus) (ts : Z) (q : option Z) :
  Dict.get id (ExecutionHandler.submitted_orders h) = None ->
  ExecutionHandler._update_order_status h id st ts q = h.
Proof. intros H. unfold ExecutionHandler._update_order_status. now rewrite H. Qed.

Lemma _execute_market_order_unknown (h : ExecutionHandler.t) (o : OrderEvent.t) :
  Dict.get (OrderEvent.order_id o) (ExecutionHandler.submitted_orders h) = None ->
  let side := opposite_side (ExecutionHandler.order_book h) (OrderEvent.direction o) in
  let filled := consumed_qty (consumption (OrderEvent.quantity o) side) in
  let h' := ExecutionHandler._execute_market_order h o in
  ExecutionHandler.submitted_orders h' = ExecutionHandler.submitted_orders h
  /\ exists new,
       appended h h' new
       /\ Forall (fun e => is_fill e = true) new
       /\ (List.length new <= 1)%nat
       /\ (side <> [] -> 0 < filled ->
           exists f, new = [EvFill f]
                     /\ FillEvent.order_id f = OrderEvent.order_id o
                     /\ FillEvent.quantity_filled f = filled).
Proof.
  intros Hreg side filled.
  destruct (walk_book_side_spec side (OrderEvent.quantity o) 0 0%Q) as (v' & Hw & _).
  simpl in Hw. fold filled in Hw.
  unfold ExecutionHandler._execute_market_order, ExecutionHandler._reject_order.
  unfold side, opposite_side in *.
  destruct (if Side_eqb (OrderEvent.direction o) BUY
            then OrderBook.asks (ExecutionHandler.order_book h)
            else OrderBook.bids (ExecutionHandler.order_book h)) as [|lv rest] eqn:Eside.
  - cbv zeta. rewrite (_update_order_status_unknown _ _ _ _ _ Hreg).
    split; [reflexivity|]. exists []. repeat split.
    + apply appended_refl.
    + constructor.
    + simpl. lia.
    + congruence.
  - rewrite Hw. cbv zeta. destruct (Z.gtb_spec filled 0) as [Hpos|Hnpos].
    + rewrite _update_order_status_unknown by exact Hreg.
      split; [reflexivity|]. eexists. split; [|split; [|split]].
      * unfold appended.
        cbn [ExecutionHandler.append ExecutionHandler.event_queue
             ExecutionHandler.set_order_book]. reflexivity.
      * repeat constructor.
      * simpl. lia.
      * intros _ _. eexists. split; [reflexivity|]. split; reflexivity.
    + rewrite _update_order_status_unknown by exact Hreg.
      split; [reflexivity|]. exists []. repeat split.
      * unfold appended.
        cbn [ExecutionHandler.event_queue ExecutionHandler.set_order_book].
        now rewrite app_nil_r.
      * constructor.
      * simpl. lia.
      * intros _ Hf. lia.
Qed.

Lemma execute_order_unknown (h : ExecutionHandler.t) (o : OrderEvent.t) :
  Dict.get (OrderEvent.order_id o) (ExecutionHandler.submitted_orders h) = None ->
  let side := opposite_side (ExecutionHandler.order_book h) (OrderEvent.direction o) in
  let filled := consumed_qty (consumption (OrderEvent.quantity o) side) in
  let h' := ExecutionHandler.execute_order h o in
  ExecutionHandler.submitted_orders h' = ExecutionHandler.submitted_orders h
  /\ exists new,
       appended h h' new
       /\ Forall (fun e => is_fill e = true) new
       /\ (List.length new <= 1)%nat
       /\ (OrderEvent.order_type o = MARKET -> side <> [] -> 0 < filled ->
           exists f, new = [EvFill f]
                     /\ FillEvent.order_id f = OrderEvent.order_id o
                     /\ FillEvent.quantity_filled f = filled).
Proof.
  intros Hreg side filled. unfold ExecutionHandler.execute_order.
  rewrite _update_order_status_unknown by exact Hreg.
  destruct (_execute_market_order_unknown h o Hreg) as (Hsub & new & Happ & Hfill & Hlen & Hone).
  destruct (OrderEvent.order_type o).
  - split; [exact Hsub|]. exists new. repeat split; try assumption.
    intros _. exact Hone.
  - unfold ExecutionHandler._handle_limit_order_placement.
    destruct (OrderBook.get_bbo _) as [[[bb bq] ba] aq].
    match goal with |- context [if ?c then ExecutionHandler._execute_market_order _ _ else _] =>
      destruct c end.
    + split; [exact Hsub|]. exists new. repeat split; try assumption. discriminate.
    + split; [reflexivity|]. exists []. repeat split.
      * unfold appended.
        cbn [ExecutionHandler.event_queue ExecutionHandler.set_pending_limit_orders].
        now rewrite app_nil_r.
      * constructor.
      * simpl. lia.
      * discriminate.
  - unfold ExecutionHandler._handle_stop_order_placement, ExecutionHandler._reject_order.
    destruct (OrderEvent.stop_price o).
    + split; [reflexivity|]. exists []. repeat split.
      * unfold appended.
        cbn [ExecutionHandler.event_queue ExecutionHandler.set_pending_stop_orders].
        now rewrite app_nil_r.
      * constructor.
      * simpl. lia.
      * discriminate.
    + rewrite _update_order_status_unknown by exact Hreg.
      split; [reflexivity|]. exists []. repeat split.
      * apply appended_refl.
      * constructor.
      * simpl. lia.
      * discriminate.
Qed.

(** X9.  [execute_order] on an order whose id is not registered in
    [submitted_orders] appends no status event at all, neither ACCEPTED nor
    REJECTED nor a fill status, and registers nothing; the order is executed
    or placed all the same: the only event it can append is one fill, and a
    MARKET order that takes a positive quantity from the book appends that
    fill. *)
Theorem unregistered_order_gets_no_status (h : ExecutionHandler.t)
  (o : OrderEvent.t) :
  Dict.get (OrderEvent.order_id o) (ExecutionHandler.submitted_orders h) = None ->
  let side := opposite_side (ExecutionHandler.order_book h) (OrderEvent.direction o) in
  let filled := consumed_qty (consumption (OrderEvent.quantity o) side) in
  let h' := ExecutionHandler.execute_order h o in
  ExecutionHandler.submitted_orders h' = ExecutionHandler.submitted_orders h
  /\ exists new,
       appended h h' new
       /\ Forall (fun e => is_fill e = true) new
       /\ (List.length new <= 1)%nat
       /\ (OrderEvent.order_type o = MARKET -> side <> [] -> 0 < filled ->
           exists f, new = [EvFill f]
                     /\ FillEvent.order_id f = OrderEvent.order_id o
                     /\ FillEvent.quantity_filled f = filled).
Proof. exact (execute_order_unknown h o). Qed.

Lemma unregistered_order_gets_no_status_witness :
  let o :=
    OrderEvent.mk 5 "GHOST" PENDING_SUBMIT "S" "ES" 150 MARKET BUY None None 0
      None None None in
  exists new,
    appended Bracket.handler0 (ExecutionHandler.execute_order Bracket.handler0 o) new
    /\ Forall (fun e => is_fill e = true) new
    /\ (List.length new <= 1)%nat
    /\ exists f, new = [EvFill f] /\ FillEvent.quantity_filled f = 150.
Proof.
  destruct (unregistered_order_gets_no_status Bracket.handler0
              (OrderEvent.mk 5 "GHOST" PENDING_SUBMIT "S" "ES" 150 MARKET BUY None
                 None 0 None None None) eq_refl)
    as (_ & new & Happ & Hfill & Hlen & Hone).
  exists new. repeat split; try assumption.
  destruct Hone as (f & Hf & _ & Hq).
  - reflexivity.
  - vm_compute. discriminate.
  - vm_compute. reflexivity.
  - exists f. split; [exact Hf|]. rewrite Hq. vm_compute. reflexivity.
Defined.

(** ** Execution handler: placing a stop order *)

(** X10.  [execute_order] on a registered STOP_MARKET order: with a stop
    price it appends the ACCEPTED status only, stores the order in
    [pending_stop_orders] under its id and keeps it registered; without a
    stop price it appends ACCEPTED and then REJECTED, leaves
    [pending_stop_orders] as it was and removes the order from
    [submitted_orders]. *)
Theorem stop_order_placement (h : ExecutionHandler.t) (o o_reg : OrderEvent.t) :
  OrderEvent.order_type o = STOP_MARKET ->
  Dict.get (OrderEvent.order_id o) (ExecutionHandler.submitted_orders h) = Some o_reg ->
  let id := OrderEvent.order_id o in
  let h' := ExecutionHandler.execute_order h o in
  match OrderEvent.stop_price o with
  | Some _ =>
      (exists a, appended h h' [EvOrder a]
                 /\ OrderEvent.order_id a = id /\ OrderEvent.status a = ACCEPTED)
      /\ Dict.get id (ExecutionHandler.pending_stop_orders h') = Some o
      /\ Dict.get id (ExecutionHandler.submitted_orders h') <> None
  | None =>
      (exists a r, appended h h' [EvOrder a; EvOrder r]
                   /\ OrderEvent.order_id a = id /\ OrderEvent.status a = ACCEPTED
                   /\ OrderEvent.order_id r = id /\ OrderEvent.status r = REJECTED)
      /\ ExecutionHandler.pending_stop_orders h' = ExecutionHandler.pending_stop_orders h
      /\ Dict.get id (ExecutionHandler.submitted_orders h') = None
  end.
Proof.
  intros Htype Hreg id h'. unfold h', ExecutionHandler.execute_order.
  rewrite Htype. fold id.
  destruct (_update_order_status_appended h id ACCEPTED (OrderEvent.timestamp o) None)
    as (new & Happ & _ & Hsome & _).
  destruct Hsome as (a & -> & Hid & Hst & _); [unfold id; congruence|].
  destruct (_update_order_status_nonterminal h id ACCEPTED (OrderEvent.timestamp o)
              None o_reg eq_refl Hreg) as (o1 & Hreg1 & _).
  destruct (_update_order_status_frame h id ACCEPTED (OrderEvent.timestamp o) None)
    as (_ & _ & Hstops & _).
  set (h1 := ExecutionHandler._update_order_status h id ACCEPTED
               (OrderEvent.timestamp o) None) in *.
  unfold ExecutionHandler._handle_stop_order_placement, ExecutionHandler._reject_order.
  fold id. destruct (OrderEvent.stop_price o).
  - split; [|split].
    + exists a. repeat split; try assumption.
    + cbn [ExecutionHandler.pending_stop_orders ExecutionHandler.set_pending_stop_orders].
      apply Dict_get_set_same.
    + cbn [ExecutionHandler.submitted_orders ExecutionHandler.set_pending_stop_orders].
      congruence.
  - destruct (_update_order_status_appended h1 id REJECTED (OrderEvent.timestamp o) None)
      as (new2 & Happ2 & _ & Hsome2 & _).
    destruct Hsome2 as (r & -> & Hid2 & Hst2 & _); [congruence|].
    destruct (_update_order_status_frame h1 id REJECTED (OrderEvent.timestamp o) None)
      as (_ & _ & Hstops2 & _).
    split; [|split].
    + exists a, r. repeat split; try assumption.
      exact (appended_trans _ _ _ _ _ Happ Happ2).
    + cbv zeta in Hstops2. now rewrite Hstops2.
    + now apply _update_order_status_terminal.
Qed.

Lemma stop_order_placement_witness :
  match Bracket.activated with
  | Some (h, stop, _) =>
      let h' := ExecutionHandler.execute_order h stop in
      (exists a, appended h h' [EvOrder a]
                 /\ OrderEvent.order_id a = OrderEvent.order_id stop
                 /\ OrderEvent.status a = ACCEPTED)
      /\ Dict.get (OrderEvent.order_id stop) (ExecutionHandler.pending_stop_orders h')
         = Some stop
  | None => False
  end.
Proof.
  destruct Bracket.activated as [[[h stop] target]|] eqn:E; vm_compute in E;
    [|discriminate].
  injection E as Hh Hstop _.
  assert (Htype : OrderEvent.order_type stop = STOP_MARKET) by (now subst stop).
  assert (Hreg : Dict.get (OrderEvent.order_id stop)
                   (ExecutionHandler.submitted_orders h) = Some stop).
  { subst h stop. vm_compute. reflexivity. }
  pose proof (stop_order_placement h stop stop Htype Hreg) as H.
  assert (Hsp : OrderEvent.stop_price stop = Some (11895 # 2)%Q) by (now subst stop).
  cbv zeta in H. rewrite Hsp in H.
  destruct H as (Hacc & Hpend & _). split; assumption.
Defined.

(** ** Execution handler: limit orders at placement *)

(** X11.  A limit order that crosses the book when it is placed, a buy at or
    above the best ask or a sell at or below the best bid (both prices not
    zero), is executed exactly as a market order of the same quantity:
    [_execute_market_order] walks the opposite side without looking at the
    limit price, so the order can fill at levels beyond its limit. *)
Theorem crossing_limit_order_executes_as_market (h : ExecutionHandler.t)
  (o : OrderEvent.t) (l best : Decimal) :
  OrderEvent.limit_price o = Some l ->
  ~ (l == 0)%Q -> ~ (best == 0)%Q ->
  (OrderEvent.direction o = BUY
   /\ OrderBook.best_ask (ExecutionHandler.order_book h) = Some best
   /\ (best <= l)%Q)
  \/ (OrderEvent.direction o = SELL
      /\ OrderBook.best_bid (ExecutionHandler.order_book h) = Some best
      /\ (l <= best)%Q) ->
  ExecutionHandler._handle_limit_order_placement h o
  = ExecutionHandler._execute_market_order h o.
Proof.
  intros Hl Hl0 Hb0 Hcross.
  assert (Tl : negb (Qeq_bool l 0) = true).
  { destruct (Qeq_bool l 0) eqn:E; [apply Qeq_bool_iff in E; contradiction | reflexivity]. }
  assert (Tb : negb (Qeq_bool best 0) = true).
  { destruct (Qeq_bool best 0) eqn:E; [apply Qeq_bool_iff in E; contradiction | reflexivity]. }
  unfold ExecutionHandler._handle_limit_order_placement, OrderBook.get_bbo.
  rewrite Hl.
  destruct Hcross as [(Hd & Hbest & Hle) | (Hd & Hbest & Hle)];
    rewrite Hd, Hbest; apply Qle_bool_iff in Hle;
    cbn [Side_eqb truthy andb]; rewrite Tl, Tb, Hle; reflexivity.
Qed.

Lemma crossing_limit_order_executes_as_market_witness :
  let o :=
    OrderEvent.mk 5 "L1" PENDING_SUBMIT "S" "ES" 150 LIMIT BUY
      (Some ((5950 # 1) + (1 # 4) + inject_Z 0 * (1 # 4))%Q) None 0 None None None in
  ExecutionHandler._handle_limit_order_placement Bracket.handler0 o
  = ExecutionHandler._execute_market_order Bracket.handler0 o
  /\ existsb
       (fun e =>
          match e with
          | EvFill f =>
              Qlt_bool ((5950 # 1) + (1 # 4) + inject_Z 0 * (1 # 4))%Q
                (FillEvent.fill_price f)
          | _ => false
          end)
       (ExecutionHandler.event_queue
          (ExecutionHandler._handle_limit_order_placement Bracket.handler0 o))
     = true.
Proof.
  split; [|vm_compute; reflexivity].
  apply (crossing_limit_order_executes_as_market Bracket.handler0
           (OrderEvent.mk 5 "L1" PENDING_SUBMIT "S" "ES" 150 LIMIT BUY
              (Some ((5950 # 1) + (1 # 4) + inject_Z 0 * (1 # 4))%Q) None 0 None
              None None)
           ((5950 # 1) + (1 # 4) + inject_Z 0 * (1 # 4))%Q
           ((5950 # 1) + (1 # 4) + inject_Z 0 * (1 # 4))%Q).
  - reflexivity.
  - vm_compute. discriminate.
  - vm_compute. discriminate.
  - left. split; [reflexivity|]. split; [reflexivity|]. vm_compute. discriminate.
Defined.

Lemma filter_all_true {A : Type} (f : A -> bool) (l : list A) :
  (forall x, f x = true) -> filter f l = l.
Proof.
  intros H. induction l as [|x l IH]; simpl; [reflexivity|].
  now rewrite H, IH.
Qed.

Lemma estimate_quantity_ahead_no_price (b : OrderBook.t) (dir : Side) :
  OrderBook.estimate_quantity_ahead b None dir = total_qty (own_side b dir).
Proof.
  unfold OrderBook.estimate_quantity_ahead, SortedDict.irange_exclusive, own_side.
  destruct dir; cbn [Side_eqb]; rewrite fold_left_qty;
    rewrite filter_all_true by reflexivity; reflexivity.
Qed.

Lemma for_items_raises {V : Type}
  (body : ExecutionHandler.t -> string -> V -> option ExecutionHandler.t)
  (k : string) (v : V) (items : list (string * V)) :
  In (k, v) items ->
  (forall h, body h k v = None) ->
  forall h, ExecutionHandler.for_items body h items = None.
Proof.
  intros Hin Hraise. induction items as [|[k0 v0] items IH]; [destruct Hin|].
  intros h. simpl. destruct Hin as [Heq|Hin].
  - injection Heq as -> ->. now rewrite Hraise.
  - destruct (body h k0 v0); [now apply IH | reflexivity].
Qed.

Lemma check_limit_fill_unpriced (t : MarketData_TradeEvent.t)
  (h : ExecutionHandler.t) (id : string) (d : ExecutionHandler.PendingLimit) :
  OrderEvent.limit_price (ExecutionHandler.order d) = None ->
  OrderEvent.symbol (ExecutionHandler.order d) = MarketData_TradeEvent.symbol t ->
  MarketData_TradeEvent.side t
  = filling_side (OrderEvent.direction (ExecutionHandler.order d)) ->
  ExecutionHandler.check_limit_fill t h id d = None.
Proof.
  intros Hl Hsym Hside. unfold ExecutionHandler.check_limit_fill.
  rewrite Hsym, String.eqb_refl, Hl, Hside. unfold filling_side.
  destruct (OrderEvent.direction (ExecutionHandler.order d)); reflexivity.
Qed.



(** ** Execution handler: stop orders against a trade *)

Lemma _cancel_linked_target_stops (h : ExecutionHandler.t) (k : string) (ts : Z) :
  ExecutionHandler.pending_stop_orders (ExecutionHandler._cancel_linked_target h k ts)
  = ExecutionHandler.pending_stop_orders h.
Proof.
  unfold ExecutionHandler._cancel_linked_target.
  destruct (match Dict.get k (ExecutionHandler.submitted_orders h) with
            | Some o => OrderEvent.parent_order_id o
            | None => None
            end) as [entry|]; [|reflexivity].
  destruct (truthy_str (Some entry)); [|reflexivity].
  destruct (Dict.get entry _) as [exits|]; [|reflexivity].
  destruct (ExecutionHandler.target_id exits) as [tid|]; [|reflexivity].
  destruct (truthy_str (Some tid) && Dict.mem tid _); [|reflexivity].
  cbv zeta.
  match goal with
  | |- context [ExecutionHandler._update_order_status ?h2 ?id ?st ?ts0 ?q] =>
      destruct (_update_order_status_frame h2 id st ts0 q) as (_ & _ & Hs & _)
  end.
  cbv zeta in Hs.
  cbn [ExecutionHandler.pending_stop_orders ExecutionHandler.set_linked_exit_orders].
  rewrite Hs. reflexivity.
Qed.

Lemma stop_triggered_code (t : MarketData_TradeEvent.t) (o : OrderEvent.t) (s : Decimal) :
  OrderEvent.stop_price o = Some s ->
  String.eqb (OrderEvent.symbol o) (MarketData_TradeEvent.symbol t) = true ->
  (let b1 := Side_eqb (OrderEvent.direction o) SELL
             && Qle_bool (MarketData_TradeEvent.price t) s in
   if b1 then true
   else Side_eqb (OrderEvent.direction o) BUY
        && Qle_bool s (MarketData_TradeEvent.price t))
  = stop_triggered t o.
Proof.
  intros Hs Hsym. unfold stop_triggered. rewrite Hs, Hsym. cbn [andb].
  destruct (Side_eqb (OrderEvent.direction o) SELL
            && Qle_bool (MarketData_TradeEvent.price t) s); reflexivity.
Qed.

Lemma check_stop_trigger_stops (t : MarketData_TradeEvent.t) (h : ExecutionHandler.t)
  (k : string) (o : OrderEvent.t) :
  OrderEvent.stop_price o <> None ->
  exists h',
    ExecutionHandler.check_stop_trigger t h k o = Some h'
    /\ ExecutionHandler.pending_stop_orders h'
       = (if stop_triggered t o
          then Dict.del k (ExecutionHandler.pending_stop_orders h)
          else ExecutionHandler.pending_stop_orders h).
Proof.
  intros Hs. destruct (OrderEvent.stop_price o) as [s|] eqn:Es; [|congruence].
  unfold ExecutionHandler.check_stop_trigger.
  destruct (String.eqb (OrderEvent.symbol o) (MarketData_TradeEvent.symbol t)) eqn:Esym.
  - cbn [negb]. rewrite Es, !guarded_compare_some.
    rewrite <- (stop_triggered_code t o s Es Esym). cbv zeta.
    destruct (Side_eqb (OrderEvent.direction o) SELL
              && Qle_bool (MarketData_TradeEvent.price t) s).
    + match goal with |- context [if ?c then Some (ExecutionHandler.append _ _) else _] =>
        destruct c end;
        eexists; (split; [reflexivity|]);
        cbn [ExecutionHandler.pending_stop_orders ExecutionHandler.append
             ExecutionHandler.set_submitted_orders];
        rewrite _cancel_linked_target_stops;
        match goal with
        | |- context [ExecutionHandler._update_order_status ?h2 ?id ?st ?ts0 ?q] =>
            destruct (_update_order_status_frame h2 id st ts0 q) as (_ & _ & Hst & _)
        end; cbv zeta in Hst; rewrite Hst; reflexivity.
    + destruct (Side_eqb (OrderEvent.direction o) BUY
                && Qle_bool s (MarketData_TradeEvent.price t)).
      * match goal with |- context [if ?c then Some (ExecutionHandler.append _ _) else _] =>
          destruct c end;
          eexists; (split; [reflexivity|]);
          cbn [ExecutionHandler.pending_stop_orders ExecutionHandler.append
               ExecutionHandler.set_submitted_orders];
          rewrite _cancel_linked_target_stops;
          match goal with
          | |- context [ExecutionHandler._update_order_status ?h2 ?id ?st ?ts0 ?q] =>
              destruct (_update_order_status_frame h2 id st ts0 q) as (_ & _ & Hst & _)
          end; cbv zeta in Hst; rewrite Hst; reflexivity.
      * eexists. split; reflexivity.
  - cbn [negb]. exists h. split; [reflexivity|].
    unfold stop_triggered. now rewrite Esym.
Qed.

Lemma filter_filter {A : Type} (f g : A -> bool) (l : list A) :
  filter f (filter g l) = filter (fun x => g x && f x) l.
Proof.
  induction l as [|x l IH]; simpl; [reflexivity|].
  destruct (g x); simpl; [destruct (f x)|]; now rewrite IH.
Qed.

Lemma for_items_stops (t : MarketData_TradeEvent.t)
  (items : list (string * OrderEvent.t)) :
  (forall k o, In (k, o) items -> OrderEvent.stop_price o <> None) ->
  forall h,
  exists h',
    ExecutionHandler.for_items (ExecutionHandler.check_stop_trigger t) h items = Some h'
    /\ ExecutionHandler.pending_stop_orders h'
       = filter (fun kv =>
                   negb (existsb (fun it => String.eqb (fst it) (fst kv)
                                            && stop_triggered t (snd it)) items))
           (ExecutionHandler.pending_stop_orders h).
Proof.
  induction items as [|[k o] items IH]; intros Hp h.
  - exists h. split; [reflexivity|]. simpl. now rewrite filter_all_true.
  - destruct (check_stop_trigger_stops t h k o) as (h1 & E1 & T1);
      [apply (Hp k o); now left|].
    destruct (IH (fun k' o' Hin => Hp k' o' (or_intror Hin)) h1) as (h' & E' & T').
    exists h'. split; [simpl; now rewrite E1|].
    rewrite T', T1. cbn [existsb fst snd].
    destruct (stop_triggered t o).
    + unfold Dict.del. rewrite filter_filter. apply filter_ext.
      intros kv. rewrite andb_true_r. now rewrite negb_orb.
    + apply filter_ext. intros kv. now rewrite andb_false_r.
Qed.

Lemma existsb_own_key (t : MarketData_TradeEvent.t)
  (items : list (string * OrderEvent.t)) (kv : string * OrderEvent.t) :
  NoDup (map fst items) -> In kv items ->
  existsb (fun it => String.eqb (fst it) (fst kv) && stop_triggered t (snd it)) items
  = stop_triggered t (snd kv).
Proof.
  induction items as [|it items IH]; intros Hnd Hin; [destruct Hin|].
  inversion Hnd as [|? ? Hnotin Hnd']; subst. simpl. destruct Hin as [->|Hin].
  - rewrite String.eqb_refl. cbn [andb].
    destruct (stop_triggered t (snd kv)); [reflexivity|]. cbn [orb].
    apply not_true_is_false. intros Hex. apply existsb_exists in Hex.
    destruct Hex as (it & Hit & Hb). apply andb_true_iff in Hb.
    destruct Hb as [Hk _]. apply String.eqb_eq in Hk.
    apply Hnotin. rewrite <- Hk. now apply in_map.
  - rewrite (IH Hnd' Hin).
    destruct (String.eqb (fst it) (fst kv)) eqn:Ek; [|reflexivity].
    apply String.eqb_eq in Ek. exfalso. apply Hnotin. rewrite Ek. now apply in_map.
Qed.

(** X13.  When every pending stop order has a stop price,
    [check_stop_triggers] does not raise, and afterwards
    [pending_stop_orders] holds exactly the stop orders that the trade does
    not trigger, in their order: a sell stop is triggered by a trade of its
    symbol at or below its stop price, a buy stop by one at or above it. *)
Theorem check_stop_triggers_removes_triggered (h : ExecutionHandler.t)
  (t : MarketData_TradeEvent.t) :
  Dict.wf (ExecutionHandler.pending_stop_orders h) ->
  stops_priced h ->
  exists h',
    ExecutionHandler.check_stop_triggers h t = Some h'
    /\ ExecutionHandler.pending_stop_orders h'
       = filter (fun kv => negb (stop_triggered t (snd kv)))
           (ExecutionHandler.pending_stop_orders h).
Proof.
  intros Hwf Hp. unfold ExecutionHandler.check_stop_triggers.
  destruct (for_items_stops t (ExecutionHandler.pending_stop_orders h) Hp h)
    as (h' & E & T).
  exists h'. split; [exact E|]. rewrite T.
  apply filter_ext_in. intros kv Hin. now rewrite (existsb_own_key t _ kv Hwf Hin).
Qed.

Lemma check_stop_triggers_removes_triggered_witness :
  match Bracket.placed with
  | Some h =>
      exists h',
        ExecutionHandler.check_stop_triggers h
          (MarketData_TradeEvent.mk 9000000 "ES" (11895 # 2)%Q 10 SELL) = Some h'
        /\ ExecutionHandler.pending_stop_orders h' = []
  | None => False
  end.
Proof.
  destruct Bracket.placed as [h|] eqn:E; vm_compute in E; [|discriminate].
  injection E as Hh.
  destruct (check_stop_triggers_removes_triggered h
              (MarketData_TradeEvent.mk 9000000 "ES" (11895 # 2)%Q 10 SELL))
    as (h' & E' & T').
  - subst h. repeat constructor. simpl. tauto.
  - subst h. intros k o [Hin|[]]. injection Hin as _ <-. discriminate.
  - exists h'. split; [exact E'|]. rewrite T'. subst h. reflexivity.
Defined.

Lemma Dict_set_In {V : Type} (k k0 : string) (v v0 : V) (d : Dict.t V) :
  In (k, v) (Dict.set k0 v0 d) -> (k = k0 /\ v = v0) \/ In (k, v) d.
Proof.
  induction d as [|[k1 v1] d IH]; simpl.
  - intros [[= <- <-]|[]]. now left.
  - destruct (String.eqb k0 k1).
    + intros [[= <- <-]|Hin]; [now left | now right; right].
    + intros [Heq|Hin]; [now right; left|].
      destruct (IH Hin) as [H|H]; [now left | now right; right].
Qed.

Lemma process_signal_stops (h : ExecutionHandler.t) (e : SignalEvent.t) (time_ns : Z) :
  ExecutionHandler.pending_stop_orders (ExecutionHandler.process_signal h e time_ns)
  = ExecutionHandler.pending_stop_orders h.
Proof.
  unfold ExecutionHandler.process_signal. cbn [ExecutionHandler._generate_order_id].
  destruct (truthy _ || truthy _); reflexivity.
Qed.

Lemma _activate_linked_exits_stops (h : ExecutionHandler.t) (entry : string)
  (f : FillEvent.t) (t1 t2 : Z) :
  ExecutionHandler.pending_stop_orders
    (ExecutionHandler._activate_linked_exits h entry f t1 t2)
  = ExecutionHandler.pending_stop_orders h.
Proof.
  unfold ExecutionHandler._activate_linked_exits, ExecutionHandler._generate_order_id.
  destruct (Dict.get entry _) as [exits|]; [|reflexivity].
  cbv beta iota zeta.
  destruct (truthy (FillEvent.linked_stop_price f) && _); cbv beta iota zeta;
    destruct (truthy (FillEvent.linked_target_price f) && _); reflexivity.
Qed.

Lemma stops_priced_same (h h' : ExecutionHandler.t) :
  ExecutionHandler.pending_stop_orders h' = ExecutionHandler.pending_stop_orders h ->
  stops_priced h -> stops_priced h'.
Proof. unfold stops_priced. intros ->. trivial. Qed.

Lemma execute_order_stops_priced (h : ExecutionHandler.t) (o : OrderEvent.t) :
  stops_priced h -> stops_priced (ExecutionHandler.execute_order h o).
Proof.
  intros Hp. unfold ExecutionHandler.execute_order.
  destruct (_update_order_status_frame h (OrderEvent.order_id o) ACCEPTED
              (OrderEvent.timestamp o) None) as (_ & _ & Hs & _).
  cbv zeta in Hs.
  assert (Hp1 := stops_priced_same h _ Hs Hp).
  set (h1 := ExecutionHandler._update_order_status h (OrderEvent.order_id o) ACCEPTED
               (OrderEvent.timestamp o) None) in *.
  destruct (OrderEvent.order_type o).
  - destruct (_execute_market_order_tables h1 o) as (_ & Hs1 & _).
    exact (stops_priced_same h1 _ Hs1 Hp1).
  - unfold ExecutionHandler._handle_limit_order_placement.
    destruct (OrderBook.get_bbo _) as [[[bb bq] ba] aq].
    match goal with |- context [if ?c then ExecutionHandler._execute_market_order _ _ else _] =>
      destruct c end.
    + destruct (_execute_market_order_tables h1 o) as (_ & Hs1 & _).
      exact (stops_priced_same h1 _ Hs1 Hp1).
    + exact Hp1.
  - unfold ExecutionHandler._handle_stop_order_placement, ExecutionHandler._reject_order.
    destruct (OrderEvent.stop_price o) as [s|] eqn:Es.
    + intros k o' Hin.
      cbn [ExecutionHandler.pending_stop_orders ExecutionHandler.set_pending_stop_orders] in Hin.
      apply Dict_set_In in Hin. destruct Hin as [[_ ->]|Hin]; [congruence|].
      exact (Hp1 k o' Hin).
    + destruct (_update_order_status_frame h1 (OrderEvent.order_id o) REJECTED
                  (OrderEvent.timestamp o) None) as (_ & _ & Hs1 & _).
      exact (stops_priced_same h1 _ Hs1 Hp1).
Qed.

Lemma call_stops_priced (c : Call) (h h' : ExecutionHandler.t) :
  stops_priced h -> call h c = Some h' -> stops_priced h'.
Proof.
  intros Hp. destruct c; simpl.
  - intros [= <-]. exact (stops_priced_same h _ (process_signal_stops _ _ _) Hp).
  - intros [= <-]. now apply execute_order_stops_priced.
  - intros H. destruct (check_limit_fills_never_cancels _ _ _ H) as (Hs & _).
    exact (stops_priced_same h _ Hs Hp).
  - unfold ExecutionHandler.check_stop_triggers. intros H.
    destruct (for_items_stops trade_event (ExecutionHandler.pending_stop_orders h) Hp h)
      as (h1 & E & T).
    rewrite E in H. injection H as <-.
    intros k o Hin. rewrite T in Hin. apply filter_In in Hin. now apply (Hp k o).
  - intros [= <-].
    exact (stops_priced_same h _ (_activate_linked_exits_stops _ _ _ _ _) Hp).
Qed.

Lemma calls_stops_priced (cs : list Call) :
  forall h h', stops_priced h -> calls h cs = Some h' -> stops_priced h'.
Proof.
  induction cs as [|c cs IH]; intros h h' Hp; simpl.
  - now intros [= <-].
  - destruct (call h c) as [h1|] eqn:E; [|discriminate].
    apply IH. exact (call_stops_priced c h h1 Hp E).
Qed.



(** ** Execution handler: a triggered stop cancels its sibling target *)

Lemma truthy_str_nonempty (s : string) :
  s <> EmptyString -> truthy_str (Some s) = true.
Proof.
  intros H. unfold truthy_str. destruct (String.eqb s EmptyString) eqn:E;
    [apply String.eqb_eq in E; contradiction | reflexivity].
Qed.

Lemma Dict_mem_get {V : Type} (k : string) (d : Dict.t V) :
  Dict.get k d <> None -> Dict.mem k d = true.
Proof. unfold Dict.mem. destruct (Dict.get k d); [reflexivity | congruence]. Qed.

Lemma _update_order_status_keeps (h : ExecutionHandler.t) (id : string)
  (st : OrderStatus) (ts : Z) (q : option Z) (o : OrderEvent.t) :
  st = ACCEPTED \/ st = TRIGGERED ->
  Dict.get id (ExecutionHandler.submitted_orders h) = Some o ->
  Dict.get id (ExecutionHandler.submitted_orders
                 (ExecutionHandler._update_order_status h id st ts q))
  = Some o.
Proof.
  intros Hst Hreg. unfold ExecutionHandler._update_order_status. rewrite Hreg.
  destruct Hst as [-> | ->];
    cbn [ExecutionHandler.is_terminal ExecutionHandler.submitted_orders
         ExecutionHandler.append ExecutionHandler.set_submitted_orders];
    apply Dict_get_set_same.
Qed.

Lemma _cancel_linked_target_spec (h : ExecutionHandler.t) (sid entry tid : string)
  (ts : Z) (sreg treg : OrderEvent.t) (exits : ExecutionHandler.LinkedExits) :
  Dict.get sid (ExecutionHandler.submitted_orders h) = Some sreg ->
  OrderEvent.parent_order_id sreg = Some entry ->
  entry <> EmptyString ->
  Dict.get entry (ExecutionHandler.linked_exit_orders h) = Some exits ->
  ExecutionHandler.target_id exits = Some tid ->
  tid <> EmptyString ->
  Dict.get tid (ExecutionHandler.pending_limit_orders h) <> None ->
  Dict.get tid (ExecutionHandler.submitted_orders h) = Some treg ->
  let h' := ExecutionHandler._cancel_linked_target h sid ts in
  exists canc,
    appended h h' [EvOrder canc]
    /\ OrderEvent.order_id canc = tid
    /\ OrderEvent.status canc = CANCELLED
    /\ OrderEvent.timestamp canc = ts
    /\ Dict.get tid (ExecutionHandler.pending_limit_orders h') = None
    /\ Dict.get tid (ExecutionHandler.submitted_orders h') = None
    /\ Dict.get entry (ExecutionHandler.linked_exit_orders h') = None
    /\ ExecutionHandler.pending_stop_orders h' = ExecutionHandler.pending_stop_orders h
    /\ (forall k, k <> tid ->
          Dict.get k (ExecutionHandler.submitted_orders h')
          = Dict.get k (ExecutionHandler.submitted_orders h)).
Proof.
  intros Hsreg Hparent Hentry Hlink Htid Htne Hpend Htreg h'.
  assert (Hstops := _cancel_linked_target_stops h sid ts). fold h' in Hstops.
  unfold h', ExecutionHandler._cancel_linked_target in *.
  rewrite Hsreg, Hparent, (truthy_str_nonempty _ Hentry), Hlink, Htid,
    (truthy_str_nonempty _ Htne), (Dict_mem_get _ _ Hpend) in *.
  cbn [andb] in *. cbv zeta in *.
  set (h1 := ExecutionHandler.set_pending_limit_orders
               (Dict.del tid (ExecutionHandler.pending_limit_orders h)) h) in *.
  destruct (_update_order_status_appended h1 tid CANCELLED ts None)
    as (new & Happ & _ & Hsome & _).
  destruct Hsome as (canc & -> & Hid & Hst & Hts); [unfold h1; simpl; congruence|].
  destruct (_update_order_status_frame h1 tid CANCELLED ts None)
    as (_ & Hlim & _ & Hlnk & _).
  cbv zeta in Hlim, Hlnk.
  exists canc. repeat split; try assumption.
  - cbn [ExecutionHandler.pending_limit_orders ExecutionHandler.set_linked_exit_orders].
    rewrite Hlim. unfold h1.
    cbn [ExecutionHandler.pending_limit_orders ExecutionHandler.set_pending_limit_orders].
    apply Dict_get_del_same.
  - cbn [ExecutionHandler.submitted_orders ExecutionHandler.set_linked_exit_orders].
    now apply _update_order_status_terminal.
  - cbn [ExecutionHandler.linked_exit_orders ExecutionHandler.set_linked_exit_orders].
    apply Dict_get_del_same.
  - intros k Hk.
    cbn [ExecutionHandler.submitted_orders ExecutionHandler.set_linked_exit_orders].
    now rewrite _update_order_status_submitted_other.
Qed.

(** X15.  One-cancels-other on the stop side.  Let a triggered stop order be
    the only pending stop, registered with a parent entry whose bracket
    record names a target that is pending and registered.  Then
    [check_stop_triggers] removes the stop from [pending_stop_orders],
    appends its TRIGGERED status, cancels the target (removed from
    [pending_limit_orders], CANCELLED status appended, bracket record
    dropped), and appends and registers a MARKET order with the id of the
    stop followed by _MKT, for the quantity of the stop not yet filled, in
    the direction of the stop, stamped with the trade time plus the order
    latency. *)
Theorem triggered_stop_cancels_target_and_sends_market_order
  (h : ExecutionHandler.t) (t : MarketData_TradeEvent.t) (sid entry tid : string)
  (stop sreg treg : OrderEvent.t) (exits : ExecutionHandler.LinkedExits) :
  ExecutionHandler.pending_stop_orders h = [(sid, stop)] ->
  stop_triggered t stop = true ->
  0 < OrderEvent.quantity stop - OrderEvent.filled_quantity stop ->
  Dict.get sid (ExecutionHandler.submitted_orders h) = Some sreg ->
  OrderEvent.parent_order_id sreg = Some entry ->
  entry <> EmptyString ->
  Dict.get entry (ExecutionHandler.linked_exit_orders h) = Some exits ->
  ExecutionHandler.target_id exits = Some tid ->
  tid <> EmptyString ->
  tid <> sid ->
  Dict.get tid (ExecutionHandler.pending_limit_orders h) <> None ->
  Dict.get tid (ExecutionHandler.submitted_orders h) = Some treg ->
  let ts := MarketData_TradeEvent.timestamp t in
  let mkt :=
    OrderEvent.mk (ts + ExecutionHandler.latency_signal_order_ns h)
      (sid ++ "_MKT")%string PENDING_SUBMIT (OrderEvent.strategy_id stop)
      (OrderEvent.symbol stop)
      (OrderEvent.quantity stop - OrderEvent.filled_quantity stop) MARKET
      (OrderEvent.direction stop) None None OrderEvent.default_filled_quantity
      None None (Some sid) in
  exists h' trig canc,
    ExecutionHandler.check_stop_triggers h t = Some h'
    /\ appended h h' [EvOrder trig; EvOrder canc; EvOrder mkt]
    /\ OrderEvent.order_id trig = sid /\ OrderEvent.status trig = TRIGGERED
    /\ OrderEvent.order_id canc = tid /\ OrderEvent.status canc = CANCELLED
    /\ ExecutionHandler.pending_stop_orders h' = []
    /\ Dict.get tid (ExecutionHandler.pending_limit_orders h') = None
    /\ Dict.get entry (ExecutionHandler.linked_exit_orders h') = None
    /\ Dict.get (sid ++ "_MKT")%string (ExecutionHandler.submitted_orders h')
       = Some mkt.
Proof.
  intros Hpend Htrig Hqty Hsreg Hparent Hentry Hlink Htid Htne Hne Hlim Htreg ts mkt.
  pose proof Htrig as Htrig'. unfold stop_triggered in Htrig'.
  apply andb_true_iff in Htrig'. destruct Htrig' as [Esym Hcmp].
  destruct (OrderEvent.stop_price stop) as [s|] eqn:Es; [|discriminate].
  set (h1 := ExecutionHandler.set_pending_stop_orders
               (Dict.del sid (ExecutionHandler.pending_stop_orders h)) h).
  set (h2 := ExecutionHandler._update_order_status h1 sid TRIGGERED ts None).
  set (h3 := ExecutionHandler._cancel_linked_target h2 sid ts).
  set (h4 := ExecutionHandler.append (EvOrder mkt)
               (ExecutionHandler.set_submitted_orders
                  (Dict.set (sid ++ "_MKT")%string mkt
                     (ExecutionHandler.submitted_orders h3)) h3)).
  assert (Hrun : ExecutionHandler.check_stop_triggers h t = Some h4).
  { unfold ExecutionHandler.check_stop_triggers. rewrite Hpend.
    cbn [ExecutionHandler.for_items].
    unfold ExecutionHandler.check_stop_trigger.
    rewrite Esym. cbn [negb]. rewrite Es, !guarded_compare_some.
    assert (Hq : (OrderEvent.quantity stop - OrderEvent.filled_quantity stop >? 0) = true)
      by (now apply gtb_true).
    destruct (Side_eqb (OrderEvent.direction stop) SELL
              && Qle_bool (MarketData_TradeEvent.price t) s) eqn:E1.
    - cbv zeta. cbn [OrderEvent.quantity]. rewrite Hq. reflexivity.
    - cbn [orb] in Hcmp. rewrite Hcmp. cbv zeta. cbn [OrderEvent.quantity].
      rewrite Hq. reflexivity. }
  (* the TRIGGERED status *)
  assert (Hsreg1 : Dict.get sid (ExecutionHandler.submitted_orders h1) = Some sreg)
    by exact Hsreg.
  destruct (_update_order_status_appended h1 sid TRIGGERED ts None)
    as (new & Happ2 & _ & Hsome & _).
  destruct Hsome as (trig & -> & Htid2 & Htst & _); [congruence|].
  fold h2 in Happ2.
  destruct (_update_order_status_frame h1 sid TRIGGERED ts None)
    as (_ & Hlim2 & Hstop2 & Hlnk2 & _ & Hlat2).
  fold h2 in Hlim2, Hstop2, Hlnk2, Hlat2.
  assert (Hsreg2 : Dict.get sid (ExecutionHandler.submitted_orders h2) = Some sreg).
  { unfold h2. apply _update_order_status_keeps; [now right | exact Hsreg1]. }
  assert (Htreg2 : Dict.get tid (ExecutionHandler.submitted_orders h2) = Some treg).
  { unfold h2. rewrite _update_order_status_submitted_other by exact Hne. exact Htreg. }
  (* the cancellation of the target *)
  destruct (_cancel_linked_target_spec h2 sid entry tid ts sreg treg exits)
    as (canc & Happ3 & Hcid & Hcst & _ & Hlim3 & _ & Hlnk3 & Hstop3 & _);
    try assumption.
  { now rewrite Hlnk2. }
  { now rewrite Hlim2. }
  fold h3 in Happ3, Hlim3, Hlnk3, Hstop3.
  exists h4, trig, canc. split; [exact Hrun|].
  split; [|repeat split; try assumption].
  - unfold appended in *. unfold h4.
    cbn [ExecutionHandler.event_queue ExecutionHandler.append
         ExecutionHandler.set_submitted_orders].
    rewrite Happ3, Happ2. unfold h1.
    cbn [ExecutionHandler.event_queue ExecutionHandler.set_pending_stop_orders].
    now rewrite <- !app_assoc.
  - unfold h4.
    cbn [ExecutionHandler.pending_stop_orders ExecutionHandler.append
         ExecutionHandler.set_submitted_orders].
    rewrite Hstop3, Hstop2. unfold h1.
    cbn [ExecutionHandler.pending_stop_orders ExecutionHandler.set_pending_stop_orders].
    rewrite Hpend. unfold Dict.del. cbn [filter fst]. now rewrite String.eqb_refl.
  - unfold h4.
    cbn [ExecutionHandler.submitted_orders ExecutionHandler.append
         ExecutionHandler.set_submitted_orders].
    apply Dict_get_set_same.
Qed.

Lemma triggered_stop_cancels_target_and_sends_market_order_witness :
  match Bracket.placed with
  | Some h =>
      exists h' trig canc mkt,
        ExecutionHandler.check_stop_triggers h
          (MarketData_TradeEvent.mk 9000000 "ES" (11895 # 2)%Q 10 SELL) = Some h'
        /\ appended h h' [EvOrder trig; EvOrder canc; EvOrder mkt]
        /\ OrderEvent.status trig = TRIGGERED
        /\ OrderEvent.order_id canc = "TARGET_3_3000"%string
        /\ OrderEvent.status canc = CANCELLED
        /\ OrderEvent.order_id mkt = "STOP_2_2000_MKT"%string
        /\ OrderEvent.quantity mkt = 1
  | None => False
  end.
Proof.
  destruct Bracket.placed as [h|] eqn:E; vm_compute in E; [|discriminate].
  injection E as Hh.
  destruct (triggered_stop_cancels_target_and_sends_market_order h
              (MarketData_TradeEvent.mk 9000000 "ES" (11895 # 2)%Q 10 SELL)
              "STOP_2_2000" "ENTRY_1_1000" "TARGET_3_3000"
              (OrderEvent.mk 1100002 "STOP_2_2000" PENDING_SUBMIT "S" "ES" 1
                 STOP_MARKET SELL None (Some (11895 # 2)%Q) 0 None None
                 (Some "ENTRY_1_1000"%string))
              (OrderEvent.mk 1100002 "STOP_2_2000" PENDING_SUBMIT "S" "ES" 1
                 STOP_MARKET SELL None (Some (11895 # 2)%Q) 0 None None
                 (Some "ENTRY_1_1000"%string))
              (OrderEvent.mk 1100002 "TARGET_3_3000" PENDING_SUBMIT "S" "ES" 1
                 LIMIT SELL (Some (47653 # 8)%Q) None 0 None None
                 (Some "ENTRY_1_1000"%string))
              (ExecutionHandler.mkLinkedExits (Some "STOP_2_2000"%string)
                 (Some "TARGET_3_3000"%string)))
    as (h' & trig & canc & Hrun & Happ & _ & Htst & Hcid & Hcst & _).
  - subst h. reflexivity.
  - reflexivity.
  - reflexivity.
  - subst h. reflexivity.
  - reflexivity.
  - discriminate.
  - subst h. reflexivity.
  - reflexivity.
  - discriminate.
  - discriminate.
  - subst h. vm_compute. discriminate.
  - subst h. reflexivity.
  - eexists h', trig, canc, _. repeat split; try eassumption; reflexivity.
Defined.

(** ** Execution handler: activating the linked exits *)

Ltac handler_cbn :=
  cbn [ExecutionHandler.event_queue ExecutionHandler.order_book
       ExecutionHandler.tick_size ExecutionHandler.latency_data_signal_ns
       ExecutionHandler.latency_signal_order_ns
       ExecutionHandler.commission_per_contract ExecutionHandler.order_counter
       ExecutionHandler.submitted_orders ExecutionHandler.pending_limit_orders
       ExecutionHandler.pending_stop_orders ExecutionHandler.linked_exit_orders
       ExecutionHandler.append ExecutionHandler.set_order_book
       ExecutionHandler.set_order_counter ExecutionHandler.set_submitted_orders
       ExecutionHandler.set_pending_limit_orders
       ExecutionHandler.set_pending_stop_orders
       ExecutionHandler.set_linked_exit_orders].

Lemma _activate_linked_exits_noop (h : ExecutionHandler.t) (entry : string)
  (f : FillEvent.t) (t1 t2 : Z) (exits : ExecutionHandler.LinkedExits) :
  Dict.get entry (ExecutionHandler.linked_exit_orders h) = Some exits ->
  truthy (FillEvent.linked_stop_price f)
  && negb (truthy_str (ExecutionHandler.stop_id exits)) = false ->
  truthy (FillEvent.linked_target_price f)
  && negb (truthy_str (ExecutionHandler.target_id exits)) = false ->
  ExecutionHandler._activate_linked_exits h entry f t1 t2 = h.
Proof.
  intros Hget H1 H2. unfold ExecutionHandler._activate_linked_exits.
  rewrite Hget. cbv zeta. rewrite H1. cbv beta iota. rewrite H2. reflexivity.
Qed.

(** X16.  [_activate_linked_exits] for an entry whose bracket record has
    neither a stop id nor a target id yet, on a fill that carries a stop and
    a target price (not zero): it appends and registers a STOP_MARKET order
    at the stop price and a LIMIT order at the target price, both for the
    filled quantity, in the direction opposite to the fill, with the entry as
    parent, stamped with the fill time plus the order latency; the two ids
    take the next two values of the order counter and are written to the
    bracket record. *)
Theorem activate_linked_exits_creates_children (h : ExecutionHandler.t)
  (entry : string) (f : FillEvent.t) (t1 t2 : Z)
  (exits : ExecutionHandler.LinkedExits) :
  Dict.get entry (ExecutionHandler.linked_exit_orders h) = Some exits ->
  truthy_str (ExecutionHandler.stop_id exits) = false ->
  truthy_str (ExecutionHandler.target_id exits) = false ->
  truthy (FillEvent.linked_stop_price f) = true ->
  truthy (FillEvent.linked_target_price f) = true ->
  let h' := ExecutionHandler._activate_linked_exits h entry f t1 t2 in
  let exit_dir := if Side_eqb (FillEvent.direction f) BUY then SELL else BUY in
  let sid :=
    ("STOP" ++ "_" ++ string_of_Z (ExecutionHandler.order_counter h + 1)
     ++ "_" ++ string_of_Z t1)%string in
  let tid :=
    ("TARGET" ++ "_" ++ string_of_Z (ExecutionHandler.order_counter h + 2)
     ++ "_" ++ string_of_Z t2)%string in
  let arrival :=
    FillEvent.timestamp f + ExecutionHandler.latency_signal_order_ns h in
  let stop :=
    OrderEvent.mk arrival sid PENDING_SUBMIT (FillEvent.strategy_id f)
      (FillEvent.symbol f) (FillEvent.quantity_filled f) STOP_MARKET exit_dir
      None (FillEvent.linked_stop_price f) OrderEvent.default_filled_quantity
      None None (Some entry) in
  let target :=
    OrderEvent.mk arrival tid PENDING_SUBMIT (FillEvent.strategy_id f)
      (FillEvent.symbol f) (FillEvent.quantity_filled f) LIMIT exit_dir
      (FillEvent.linked_target_price f) None OrderEvent.default_filled_quantity
      None None (Some entry) in
  appended h h' [EvOrder stop; EvOrder target]
  /\ Dict.get sid (ExecutionHandler.submitted_orders h') = Some stop
  /\ Dict.get tid (ExecutionHandler.submitted_orders h') = Some target
  /\ Dict.get entry (ExecutionHandler.linked_exit_orders h')
     = Some (ExecutionHandler.mkLinkedExits (Some sid) (Some tid))
  /\ ExecutionHandler.order_counter h' = ExecutionHandler.order_counter h + 2.
Proof.
  intros Hget Hs Ht Hsp Htp h' exit_dir sid tid arrival stop target.
  assert (Hne : sid <> tid) by (unfold sid, tid; simpl; discriminate).
  unfold h', ExecutionHandler._activate_linked_exits,
    ExecutionHandler._generate_order_id.
  rewrite Hget. cbv zeta. rewrite Hsp, Hs. cbn [andb negb].
  cbv beta iota zeta.
  cbn [ExecutionHandler.target_id]. rewrite Htp, Ht. cbn [andb negb].
  cbn [ExecutionHandler.order_counter ExecutionHandler.append
       ExecutionHandler.set_submitted_orders ExecutionHandler.set_linked_exit_orders
       ExecutionHandler.set_order_counter ExecutionHandler.submitted_orders
       ExecutionHandler.linked_exit_orders ExecutionHandler.event_queue
       ExecutionHandler.latency_signal_order_ns ExecutionHandler.stop_id].
  replace (ExecutionHandler.order_counter h + 1 + 1)
    with (ExecutionHandler.order_counter h + 2) by lia.
  fold sid tid arrival exit_dir. fold stop. fold target.
  split; [|split; [|split; [|split]]].
  - unfold appended. handler_cbn. now rewrite <- app_assoc.
  - handler_cbn. rewrite Dict_get_set_other by exact Hne. apply Dict_get_set_same.
  - handler_cbn. apply Dict_get_set_same.
  - handler_cbn. apply Dict_get_set_same.
  - reflexivity.
Qed.

Lemma activate_linked_exits_creates_children_witness :
  match Bracket.entered with
  | Some (h, fill) =>
      let h' :=
        ExecutionHandler._activate_linked_exits h "ENTRY_1_1000" fill 2000 3000 in
      Dict.get "ENTRY_1_1000" (ExecutionHandler.linked_exit_orders h')
      = Some (ExecutionHandler.mkLinkedExits (Some "STOP_2_2000"%string)
                (Some "TARGET_3_3000"%string))
      /\ ExecutionHandler.order_counter h' = 3
  | None => False
  end.
Proof.
  destruct Bracket.entered as [[h fill]|] eqn:E; vm_compute in E; [|discriminate].
  injection E as Hh Hf.
  destruct (activate_linked_exits_creates_children h "ENTRY_1_1000" fill 2000 3000
              (ExecutionHandler.mkLinkedExits None None))
    as (_ & _ & _ & Hlink & Hcnt).
  - subst h. reflexivity.
  - reflexivity.
  - reflexivity.
  - subst fill. reflexivity.
  - subst fill. reflexivity.
  - split.
    + rewrite Hlink. subst h. reflexivity.
    + rewrite Hcnt. subst h. reflexivity.
Defined.

(** X17.  [_activate_linked_exits] creates the exits of an entry once: a
    second call for the same entry and fill, whatever the clock shows,
    changes nothing, since the ids written to the bracket record by the
    first call block the creation of further orders. *)
Theorem activate_linked_exits_idempotent (h : ExecutionHandler.t) (entry : string)
  (f : FillEvent.t) (t1 t2 t3 t4 : Z) :
  let h' := ExecutionHandler._activate_linked_exits h entry f t1 t2 in
  ExecutionHandler._activate_linked_exits h' entry f t3 t4 = h'.
Proof.
  intros h'.
  destruct (Dict.get entry (ExecutionHandler.linked_exit_orders h)) as [exits|] eqn:Hget.
  2:{ assert (Hh : h' = h).
      { unfold h', ExecutionHandler._activate_linked_exits. now rewrite Hget. }
      rewrite Hh. unfold ExecutionHandler._activate_linked_exits. now rewrite Hget. }
  destruct (truthy (FillEvent.linked_stop_price f)
            && negb (truthy_str (ExecutionHandler.stop_id exits))) eqn:C1;
    destruct (truthy (FillEvent.linked_target_price f)
              && negb (truthy_str (ExecutionHandler.target_id exits))) eqn:C2.
  - apply (_activate_linked_exits_noop h' entry f t3 t4
             (ExecutionHandler.mkLinkedExits
                (Some ("STOP" ++ "_" ++ string_of_Z (ExecutionHandler.order_counter h + 1)
                       ++ "_" ++ string_of_Z t1)%string)
                (Some ("TARGET" ++ "_"
                       ++ string_of_Z (ExecutionHandler.order_counter h + 1 + 1)
                       ++ "_" ++ string_of_Z t2)%string))).
    + unfold h', ExecutionHandler._activate_linked_exits,
        ExecutionHandler._generate_order_id.
      rewrite Hget. cbv zeta. rewrite C1. cbv beta iota zeta.
      cbn [ExecutionHandler.target_id]. rewrite C2.
      cbn [ExecutionHandler.linked_exit_orders ExecutionHandler.append
           ExecutionHandler.set_submitted_orders
           ExecutionHandler.set_linked_exit_orders
           ExecutionHandler.set_order_counter ExecutionHandler.order_counter
           ExecutionHandler.stop_id].
      apply Dict_get_set_same.
    + simpl. apply andb_false_r.
    + simpl. apply andb_false_r.
  - apply (_activate_linked_exits_noop h' entry f t3 t4
             (ExecutionHandler.mkLinkedExits
                (Some ("STOP" ++ "_" ++ string_of_Z (ExecutionHandler.order_counter h + 1)
                       ++ "_" ++ string_of_Z t1)%string)
                (ExecutionHandler.target_id exits))).
    + unfold h', ExecutionHandler._activate_linked_exits,
        ExecutionHandler._generate_order_id.
      rewrite Hget. cbv zeta. rewrite C1. cbv beta iota zeta.
      cbn [ExecutionHandler.target_id]. rewrite C2.
      cbn [ExecutionHandler.linked_exit_orders ExecutionHandler.append
           ExecutionHandler.set_submitted_orders
           ExecutionHandler.set_linked_exit_orders
           ExecutionHandler.set_order_counter].
      apply Dict_get_set_same.
    + simpl. apply andb_false_r.
    + exact C2.
  - apply (_activate_linked_exits_noop h' entry f t3 t4
             (ExecutionHandler.mkLinkedExits
                (ExecutionHandler.stop_id exits)
                (Some ("TARGET" ++ "_"
                       ++ string_of_Z (ExecutionHandler.order_counter h + 1)
                       ++ "_" ++ string_of_Z t2)%string))).
    + unfold h', ExecutionHandler._activate_linked_exits,
        ExecutionHandler._generate_order_id.
      rewrite Hget. cbv zeta. rewrite C1. cbv beta iota zeta. rewrite C2.
      cbn [ExecutionHandler.linked_exit_orders ExecutionHandler.append
           ExecutionHandler.set_submitted_orders
           ExecutionHandler.set_linked_exit_orders
           ExecutionHandler.set_order_counter].
      apply Dict_get_set_same.
    + exact C1.
    + simpl. apply andb_false_r.
  - assert (Hh : h' = h).
    { unfold h', ExecutionHandler._activate_linked_exits.
      rewrite Hget. cbv zeta. rewrite C1. cbv beta iota. now rewrite C2. }
    rewrite Hh. exact (_activate_linked_exits_noop h entry f t3 t4 exits Hget C1 C2).
Qed.

(** ** Execution handler: generated order ids *)

Lemma uint_no_underscore (d : Decimal.uint) :
  contains_char "_"%char (NilEmpty.string_of_uint d) = false.
Proof. induction d; simpl; try reflexivity; exact IHd. Qed.

Lemma string_of_Z_no_underscore (z : Z) :
  contains_char "_"%char (string_of_Z z) = false.
Proof.
  unfold string_of_Z, NilZero.string_of_int, NilZero.string_of_uint.
  destruct (Z.to_int z) as [d|d]; destruct d; simpl; try reflexivity;
    apply uint_no_underscore.
Qed.

Lemma Z_to_int_proper (z : Z) :
  Z.to_int z <> Decimal.Pos Decimal.Nil /\ Z.to_int z <> Decimal.Neg Decimal.Nil.
Proof.
  destruct z as [|p|p]; simpl; split; try discriminate;
    intros H; injection H as H; exact (DecimalPos.Unsigned.to_uint_nonnil p H).
Qed.

Lemma string_of_Z_inj (a b : Z) : string_of_Z a = string_of_Z b -> a = b.
Proof.
  unfold string_of_Z. intros H.
  assert (Hi : NilZero.int_of_string (NilZero.string_of_int (Z.to_int a))
               = NilZero.int_of_string (NilZero.string_of_int (Z.to_int b)))
    by now rewrite H.
  destruct (Z_to_int_proper a) as [Ha1 Ha2]. destruct (Z_to_int_proper b) as [Hb1 Hb2].
  rewrite !NilZero.isi in Hi by assumption.
  injection Hi as Hi.
  rewrite <- (DecimalZ.of_to a), <- (DecimalZ.of_to b). now rewrite Hi.
Qed.

Lemma split_at_underscore (a b x y : string) :
  contains_char "_"%char a = false ->
  contains_char "_"%char b = false ->
  (a ++ String "_"%char x)%string = (b ++ String "_"%char y)%string ->
  a = b.
Proof.
  revert b. induction a as [|c a IH]; intros [|c' b] Ha Hb H; simpl in *.
  - reflexivity.
  - injection H as Hc _. subst c'. simpl in Hb. discriminate.
  - injection H as Hc _. subst c. simpl in Ha. discriminate.
  - injection H as -> H.
    apply orb_false_iff in Ha. apply orb_false_iff in Hb.
    f_equal. apply IH; tauto.
Qed.

Lemma ids_with_same_prefix (p : string) (c c' t t' : Z) :
  (p ++ "_" ++ string_of_Z c ++ "_" ++ string_of_Z t)%string
  = (p ++ "_" ++ string_of_Z c' ++ "_" ++ string_of_Z t')%string ->
  c = c'.
Proof.
  induction p as [|ch p IH]; simpl.
  - intros H. injection H as H. apply string_of_Z_inj.
    apply (split_at_underscore _ _ _ _ (string_of_Z_no_underscore c)
             (string_of_Z_no_underscore c') H).
  - intros H. injection H as H. exact (IH H).
Qed.

(** X18.  [_generate_order_id] raises the order counter by one, and the ids
    it generates under the prefixes ENTRY, STOP and TARGET differ whenever
    the prefixes differ or the counters do, whatever the clock shows: the
    ids that one handler generates are pairwise distinct. *)
Theorem generated_order_ids_distinct (h h' : ExecutionHandler.t) (p p' : string)
  (t t' : Z) :
  In p id_prefixes -> In p' id_prefixes ->
  p <> p' \/ ExecutionHandler.order_counter h <> ExecutionHandler.order_counter h' ->
  snd (ExecutionHandler._generate_order_id h p t)
  <> snd (ExecutionHandler._generate_order_id h' p' t')
  /\ ExecutionHandler.order_counter (fst (ExecutionHandler._generate_order_id h p t))
     = ExecutionHandler.order_counter h + 1.
Proof.
  intros Hp Hp' Hdiff. split; [|reflexivity].
  unfold ExecutionHandler._generate_order_id. cbn [snd].
  unfold id_prefixes in Hp, Hp'. simpl in Hp, Hp'.
  destruct Hp as [<-|[<-|[<-|[]]]]; destruct Hp' as [<-|[<-|[<-|[]]]];
    try (simpl; discriminate);
    (destruct Hdiff as [Hd|Hd]; [congruence|]);
    intros H; apply ids_with_same_prefix in H; lia.
Qed.

Lemma generated_order_ids_distinct_witness :
  snd (ExecutionHandler._generate_order_id Bracket.handler0 "ENTRY" 1000)
  <> snd (ExecutionHandler._generate_order_id
            (fst (ExecutionHandler._generate_order_id Bracket.handler0 "ENTRY" 1000))
            "ENTRY" 1000).
Proof.
  apply (generated_order_ids_distinct Bracket.handler0
           (fst (ExecutionHandler._generate_order_id Bracket.handler0 "ENTRY" 1000))
           "ENTRY" "ENTRY" 1000 1000).
  - left. reflexivity.
  - left. reflexivity.
  - right. vm_compute. discriminate.
Defined.

(** ** Execution handler: what a market order takes from the book *)

Lemma total_qty_app (a b : SortedDict.t) :
  total_qty (a ++ b) = total_qty a + total_qty b.
Proof.
  unfold total_qty. induction a as [|kv a IH]; simpl; [reflexivity|].
  rewrite IH. lia.
Qed.

Lemma levels_after_total (levels : SortedDict.t) :
  forall q : Z,
    positive_levels levels -> 0 <= q ->
    total_qty (levels_after (consumption q levels) levels)
    = total_qty levels - consumed_qty (consumption q levels)
    /\ positive_levels (levels_after (consumption q levels) levels)
    /\ 0 <= consumed_qty (consumption q levels) <= q.
Proof.
  unfold positive_levels.
  induction levels as [|[p l] rest IH]; intros q Hpos Hq.
  - simpl. repeat split; try constructor; lia.
  - inversion Hpos as [|? ? Hl Hrest]; subst. cbn [snd] in Hl.
    cbn [consumption levels_after].
    destruct (q - Z.min q (qty l) =? 0) eqn:E.
    + cbn [levels_after consumed_qty fold_right snd].
      rewrite total_qty_app.
      destruct (Z.leb_spec (qty l - Z.min q (qty l)) 0) as [Hz|Hz].
      * repeat split; [unfold total_qty; simpl; lia | exact Hrest | lia | lia].
      * repeat split; [unfold total_qty; simpl; lia | | lia | lia].
        constructor; [simpl; lia | exact Hrest].
    + apply Z.eqb_neq in E.
      destruct (IH (q - Z.min q (qty l)) Hrest) as (Ht & Hp & Hc); [lia|].
      cbn [consumed_qty fold_right snd]. fold (consumed_qty (consumption (q - Z.min q (qty l)) rest)).
      rewrite total_qty_app, Ht.
      destruct (Z.leb_spec (qty l - Z.min q (qty l)) 0) as [Hz|Hz].
      * repeat split; [unfold total_qty; simpl; lia | exact Hp | lia | lia].
      * repeat split; [unfold total_qty; simpl; lia | | lia | lia].
        apply Forall_app. split; [|exact Hp].
        constructor; [simpl; lia | constructor].
Qed.

Lemma status_events_no_fill (new : list Event) (id : string) (st : OrderStatus) :
  Forall (fun e => exists o, e = EvOrder o
                             /\ OrderEvent.order_id o = id
                             /\ OrderEvent.status o = st) new ->
  Forall (fun e => is_fill e = false) new.
Proof.
  intros H. eapply Forall_impl; [|exact H]. intros e (o & -> & _). reflexivity.
Qed.

Lemma _execute_market_order_book (h : ExecutionHandler.t) (o : OrderEvent.t) :
  let dir := OrderEvent.direction o in
  let side := opposite_side (ExecutionHandler.order_book h) dir in
  let cs := consumption (OrderEvent.quantity o) side in
  let h' := ExecutionHandler._execute_market_order h o in
  opposite_side (ExecutionHandler.order_book h') dir = levels_after cs side
  /\ own_side (ExecutionHandler.order_book h') dir
     = own_side (ExecutionHandler.order_book h) dir
  /\ exists fills statuses,
       appended h h' (fills ++ statuses)
       /\ Forall (fun e => is_fill e = false) statuses
       /\ (consumed_qty cs <= 0 -> fills = [])
       /\ (0 < consumed_qty cs ->
           exists f, fills = [EvFill f]
                     /\ FillEvent.quantity_filled f = consumed_qty cs).
Proof.
  intros dir side cs h'.
  destruct (walk_book_side_spec side (OrderEvent.quantity o) 0 0%Q) as (v' & Hw & _).
  fold cs in Hw. simpl in Hw.
  unfold h', ExecutionHandler._execute_market_order, ExecutionHandler._reject_order.
  unfold cs, side, dir, opposite_side, own_side in *.
  destruct (Side_eqb (OrderEvent.direction o) BUY) eqn:Edir.
  - destruct (OrderBook.asks (ExecutionHandler.order_book h)) as [|lv rest] eqn:Eside.
    + destruct (_update_order_status_appended h (OrderEvent.order_id o) REJECTED
                  (OrderEvent.timestamp o) None) as (new & Ha & _ & _ & Hall).
      destruct (_update_order_status_frame h (OrderEvent.order_id o) REJECTED
                  (OrderEvent.timestamp o) None) as (Hbook & _).
      cbv zeta in Hbook. rewrite Hbook, Eside. repeat split.
      exists [], new. repeat split.
      * exact Ha.
      * exact (status_events_no_fill _ _ _ Hall).
      * simpl. lia.
    + rewrite Hw. cbv zeta.
      destruct (Z.gtb_spec (consumed_qty (consumption (OrderEvent.quantity o) (lv :: rest))) 0)
        as [Hpos|Hnpos];
        match goal with
        | |- context [ExecutionHandler._update_order_status ?h2 ?id ?st ?ts ?q] =>
            destruct (_update_order_status_appended h2 id st ts q)
              as (new & Ha & _ & _ & Hall);
            destruct (_update_order_status_frame h2 id st ts q) as (Hbook & _)
        end; cbv zeta in Hbook; rewrite Hbook; handler_cbn;
        unfold OrderBook.with_sides; cbn [OrderBook.bids OrderBook.asks];
        (split; [reflexivity|]); (split; [reflexivity|]).
      * eexists [_], new. repeat split.
        -- eapply appended_trans; [|exact Ha]. unfold appended. handler_cbn. reflexivity.
        -- exact (status_events_no_fill _ _ _ Hall).
        -- lia.
        -- intros _. eexists. split; reflexivity.
      * exists [], new. repeat split.
        -- exact Ha.
        -- exact (status_events_no_fill _ _ _ Hall).
        -- lia.
  - destruct (OrderBook.bids (ExecutionHandler.order_book h)) as [|lv rest] eqn:Eside.
    + destruct (_update_order_status_appended h (OrderEvent.order_id o) REJECTED
                  (OrderEvent.timestamp o) None) as (new & Ha & _ & _ & Hall).
      destruct (_update_order_status_frame h (OrderEvent.order_id o) REJECTED
                  (OrderEvent.timestamp o) None) as (Hbook & _).
      cbv zeta in Hbook. rewrite Hbook, Eside. repeat split.
      exists [], new. repeat split.
      * exact Ha.
      * exact (status_events_no_fill _ _ _ Hall).
      * simpl. lia.
    + rewrite Hw. cbv zeta.
      destruct (Z.gtb_spec (consumed_qty (consumption (OrderEvent.quantity o) (lv :: rest))) 0)
        as [Hpos|Hnpos];
        match goal with
        | |- context [ExecutionHandler._update_order_status ?h2 ?id ?st ?ts ?q] =>
            destruct (_update_order_status_appended h2 id st ts q)
              as (new & Ha & _ & _ & Hall);
            destruct (_update_order_status_frame h2 id st ts q) as (Hbook & _)
        end; cbv zeta in Hbook; rewrite Hbook; handler_cbn;
        unfold OrderBook.with_sides; cbn [OrderBook.bids OrderBook.asks];
        (split; [reflexivity|]); (split; [reflexivity|]).
      * eexists [_], new. repeat split.
        -- eapply appended_trans; [|exact Ha]. unfold appended. handler_cbn. reflexivity.
        -- exact (status_events_no_fill _ _ _ Hall).
        -- lia.
        -- intros _. eexists. split; reflexivity.
      * exists [], new. repeat split.
        -- exact Ha.
        -- exact (status_events_no_fill _ _ _ Hall).
        -- lia.
Qed.

(** X19.  A market order of a quantity that is not negative, executed on a
    side whose levels all hold positive quantities, conserves liquidity: the
    quantity that leaves the opposite side of the book is at most the order
    quantity and is exactly the quantity of the one fill that is appended (no
    fill when nothing leaves), the levels that remain still hold positive
    quantities, and the side of the book on which the order itself would rest
    is not touched. *)
Theorem market_order_conserves_liquidity (h : ExecutionHandler.t) (o : OrderEvent.t) :
  let dir := OrderEvent.direction o in
  let side := opposite_side (ExecutionHandler.order_book h) dir in
  positive_levels side ->
  0 <= OrderEvent.quantity o ->
  let h' := ExecutionHandler._execute_market_order h o in
  let side' := opposite_side (ExecutionHandler.order_book h') dir in
  let taken := total_qty side - total_qty side' in
  0 <= taken <= OrderEvent.quantity o
  /\ positive_levels side'
  /\ own_side (ExecutionHandler.order_book h') dir
     = own_side (ExecutionHandler.order_book h) dir
  /\ exists fills statuses,
       appended h h' (fills ++ statuses)
       /\ Forall (fun e => is_fill e = false) statuses
       /\ (taken = 0 -> fills = [])
       /\ (0 < taken ->
           exists f, fills = [EvFill f] /\ FillEvent.quantity_filled f = taken).
Proof.
  intros dir side Hpos Hq h' side' taken.
  destruct (_execute_market_order_book h o)
    as (Hside & Hown & fills & statuses & Happ & Hst & Hnone & Hone).
  fold dir side h' in Hside, Hown, Happ, Hnone, Hone. fold side' in Hside.
  destruct (levels_after_total side (OrderEvent.quantity o) Hpos Hq) as (Ht & Hp & Hc).
  assert (Htaken : taken = consumed_qty (consumption (OrderEvent.quantity o) side)).
  { unfold taken. rewrite Hside, Ht. lia. }
  rewrite Htaken. split; [exact Hc|]. split; [now rewrite Hside|].
  split; [exact Hown|]. exists fills, statuses.
  split; [exact Happ|]. split; [exact Hst|]. split.
  - intros H0. apply Hnone. lia.
  - exact Hone.
Qed.

Lemma market_order_conserves_liquidity_witness :
  let o :=
    OrderEvent.mk 5 "M1" PENDING_SUBMIT "S" "ES" 250 MARKET BUY None None 0 None
      None None in
  let h' := ExecutionHandler._execute_market_order Bracket.handler0 o in
  total_qty (OrderBook.asks (ExecutionHandler.order_book Bracket.handler0))
  - total_qty (OrderBook.asks (ExecutionHandler.order_book h')) = 250
  /\ 0 <= 250 <= 250
  /\ OrderBook.bids (ExecutionHandler.order_book h')
     = OrderBook.bids (ExecutionHandler.order_book Bracket.handler0).
Proof.
  split; [vm_compute; reflexivity|].
  destruct (market_order_conserves_liquidity Bracket.handler0
              (OrderEvent.mk 5 "M1" PENDING_SUBMIT "S" "ES" 250 MARKET BUY None None
                 0 None None None)) as (Hb & _ & Hown & _).
  - vm_compute. repeat constructor.
  - vm_compute. discriminate.
  - split; [|exact Hown]. exact Hb.
Defined.

(** X20.  A market order with a negative quantity, on a non-empty side whose
    best level holds a positive quantity, is not filled, but it changes the
    book: the walk takes the negative quantity from the best level, which
    thereby grows by the absolute value of the order quantity, and the other
    levels stay as they were. *)
Theorem negative_market_order_grows_best_level (h : ExecutionHandler.t)
  (o : OrderEvent.t) (p : Decimal) (l : Level) (rest : SortedDict.t) :
  OrderEvent.quantity o < 0 ->
  opposite_side (ExecutionHandler.order_book h) (OrderEvent.direction o)
  = (p, l) :: rest ->
  0 < qty l ->
  let h' := ExecutionHandler._execute_market_order h o in
  opposite_side (ExecutionHandler.order_book h') (OrderEvent.direction o)
  = (p, mkLevel (qty l - OrderEvent.quantity o) (num_orders l)) :: rest
  /\ exists new, appended h h' new /\ Forall (fun e => is_fill e = false) new.
Proof.
  intros Hq Hside Hl h'.
  destruct (_execute_market_order_book h o)
    as (Hside' & _ & fills & statuses & Happ & Hst & Hnone & _).
  fold h' in Hside', Happ. rewrite Hside in Hside', Hnone.
  assert (Hmin : Z.min (OrderEvent.quantity o) (qty l) = OrderEvent.quantity o) by lia.
  cbn [consumption] in Hside', Hnone. rewrite Hmin, Z.sub_diag in Hside', Hnone.
  cbn [Z.eqb levels_after consumed_qty fold_right snd app] in Hside', Hnone.
  rewrite leb_false in Hside' by lia. cbn [app] in Hside'.
  split; [exact Hside'|].
  exists statuses. rewrite Hnone in Happ by lia. split; [exact Happ | exact Hst].
Qed.

Lemma negative_market_order_grows_best_level_witness :
  let o :=
    OrderEvent.mk 5 "M2" PENDING_SUBMIT "S" "ES" (-40) MARKET SELL None None 0 None
      None None in
  exists rest,
    OrderBook.bids
      (ExecutionHandler.order_book
         (ExecutionHandler._execute_market_order Bracket.handler0 o))
    = (((5950 # 1) - inject_Z 0 * (1 # 4))%Q, mkLevel (1000 - -40) 5) :: rest.
Proof.
  eexists.
  refine (proj1 (negative_market_order_grows_best_level Bracket.handler0
                   (OrderEvent.mk 5 "M2" PENDING_SUBMIT "S" "ES" (-40) MARKET SELL
                      None None 0 None None None)
                   ((5950 # 1) - inject_Z 0 * (1 # 4))%Q (mkLevel 1000 5) _ _ _ _)).
  - reflexivity.
  - reflexivity.
  - reflexivity.
Defined.

(** ** Portfolio: positions *)

Lemma update_fill_position (p p' : Portfolio.t) (f : FillEvent.t) (s : string) :
  Portfolio.update_fill p f = Some p' ->
  position p' s
  = position p s
    + (if String.eqb s (FillEvent.symbol f)
       then FillEvent.quantity_filled f * fill_dir f
       else 0).
Proof.
  unfold Portfolio.update_fill, fill_dir, position.
  destruct (Portfolio.update_position _ _ _ _ _) as [[[[avg' realized'] log'] open']|];
    [|discriminate].
  unfold Portfolio._update_equity.
  destruct (Portfolio.unrealized_pnl _ _ _); [|discriminate].
  intros [= <-]. cbn [Portfolio.holdings].
  set (chg := FillEvent.quantity_filled f
              * (if Side_eqb (FillEvent.direction f) BUY then 1 else -1)).
  set (cur := match Dict.get (FillEvent.symbol f) (Portfolio.holdings p) with
              | Some n => n | None => 0 end).
  destruct (String.eqb s (FillEvent.symbol f)) eqn:Es.
  - apply String.eqb_eq in Es. subst s. fold cur.
    destruct (cur + chg =? 0) eqn:En.
    + rewrite Dict_get_del_same. apply Z.eqb_eq in En. lia.
    + now rewrite Dict_get_set_same.
  - apply String.eqb_neq in Es.
    destruct (cur + chg =? 0).
    + rewrite Dict_get_del_other, Dict_get_set_other by exact Es. lia.
    + rewrite Dict_get_set_other by exact Es. lia.
Qed.

Lemma update_fills_position (fills : list FillEvent.t) :
  forall (p p' : Portfolio.t) (s : string),
    Portfolio.update_fills p fills = Some p' ->
    position p' s = position p s + net_position s fills.
Proof.
  induction fills as [|f fills IH]; intros p p' s; simpl.
  - intros [= <-]. lia.
  - destruct (Portfolio.update_fill p f) as [p1|] eqn:E; [|discriminate].
    intros H. rewrite (IH _ _ s H), (update_fill_position _ _ _ s E). lia.
Qed.

Lemma update_fills_consistent (fills : list FillEvent.t) :
  forall p : Portfolio.t,
    positions_consistent p ->
    ~ (Portfolio.tick_size p == 0)%Q ->
    exists p', Portfolio.update_fills p fills = Some p' /\ positions_consistent p'.
Proof.
  induction fills as [|f fills IH]; intros p Hc Ht; simpl.
  - now exists p.
  - destruct (update_fill_total p f Hc Ht) as (p1 & -> & Hc1 & Ht1).
    apply IH; [exact Hc1 | now rewrite Ht1].
Qed.





(** ** Portfolio: opening, adding to, closing and reversing a position *)

Lemma update_fill_tables (p : Portfolio.t) (f : FillEvent.t)
  (avg' : Dict.t Decimal) (realized' : Decimal) (log' : list ClosedTrade.t)
  (open' : Dict.t OpenPosition.t) :
  ~ (Portfolio.tick_size p == 0)%Q ->
  let s := FillEvent.symbol f in
  let chg := FillEvent.quantity_filled f * fill_dir f in
  let cur := position p s in
  Portfolio.update_position p f cur (cur + chg) chg
  = Some (avg', realized', log', open') ->
  exists p',
    Portfolio.update_fill p f = Some p'
    /\ Portfolio.positions_avg_price p' = avg'
    /\ Portfolio.realized_pnl p' = realized'
    /\ Portfolio.trade_log p' = log'
    /\ Portfolio.open_positions p' = open'
    /\ Portfolio.holdings p'
       = (if cur + chg =? 0
          then Dict.del s (Dict.set s (cur + chg) (Portfolio.holdings p))
          else Dict.set s (cur + chg) (Portfolio.holdings p))
    /\ Portfolio.tick_size p' = Portfolio.tick_size p
    /\ Portfolio.tick_value p' = Portfolio.tick_value p.
Proof.
  intros Ht s chg cur Hup. unfold Portfolio.update_fill.
  unfold cur, position, chg, fill_dir, s in Hup. rewrite Hup.
  match goal with
  | |- exists p', Portfolio._update_equity ?q ?ts = Some p' /\ _ =>
      destruct (unrealized_pnl_total q (Portfolio.holdings q) 0%Q Ht) as [u Hu]
  end.
  unfold Portfolio._update_equity. rewrite Hu.
  eexists. split; [reflexivity|]. repeat split.
Qed.







(** ** Portfolio: the equity curve *)

Lemma last_map_Some {A : Type} (l : list A) (pt d : A) :
  last (map Some l) None = Some pt -> In pt l /\ last l d = pt.
Proof.
  induction l as [|a l IH]; [discriminate|].
  destruct l as [|b l'].
  - simpl. intros [= ->]. split; [now left | reflexivity].
  - intros H. change (last (map Some (b :: l')) None = Some pt) in H.
    destruct (IH H) as [Hin Hlast]. split; [now right | exact Hlast].
Qed.

Lemma curve_increasing_snoc (l : list (Z * Decimal)) (x : Z * Decimal) :
  curve_increasing l ->
  (forall pt, last (map Some l) None = Some pt -> fst pt < fst x) ->
  curve_increasing (l ++ [x]).
Proof.
  induction l as [|a l IH]; intros Hinc Hlast.
  - simpl. split; exact I.
  - destruct l as [|b l'].
    + simpl. split; [apply Hlast; reflexivity | split; exact I].
    + destruct Hinc as [Hab Htl].
      change (fst a < fst b /\ curve_increasing ((b :: l') ++ [x])).
      split; [exact Hab|]. apply IH; [exact Htl|]. intros pt Hpt. apply Hlast. exact Hpt.
Qed.

Lemma curve_increasing_replace_last (l : list (Z * Decimal)) (x pt : Z * Decimal) :
  curve_increasing l ->
  last (map Some l) None = Some pt ->
  fst x = fst pt ->
  curve_increasing (Portfolio.replace_last x l).
Proof.
  unfold Portfolio.replace_last.
  induction l as [|a l IH]; intros Hinc Hlast Hx; [discriminate|].
  destruct l as [|b l'].
  - simpl. split; exact I.
  - destruct Hinc as [Hab Htl].
    change (last (map Some (b :: l')) None = Some pt) in Hlast.
    specialize (IH Htl Hlast Hx).
    destruct l' as [|c l''].
    + simpl in Hlast. injection Hlast as <-. simpl. split; [lia | split; exact I].
    + change (fst a < fst b
              /\ curve_increasing (removelast (b :: c :: l'') ++ [x])).
      split; [exact Hab | exact IH].
Qed.

Lemma Forall_removelast {A : Type} (P : A -> Prop) (l : list A) :
  Forall P l -> Forall P (removelast l).
Proof.
  induction l as [|a l IH]; intros H; [constructor|].
  inversion H; subst. destruct l as [|b l']; [constructor|].
  change (Forall P (a :: removelast (b :: l'))). constructor; [assumption | now apply IH].
Qed.

Lemma _update_equity_same_account (p : Portfolio.t) (ts : Z) :
  ~ (Portfolio.tick_size p == 0)%Q ->
  exists p', Portfolio._update_equity p ts = Some p' /\ same_account p p'.
Proof.
  intros Ht. unfold Portfolio._update_equity.
  destruct (unrealized_pnl_total p (Portfolio.holdings p) 0%Q Ht) as [u ->].
  eexists. split; [reflexivity|]. repeat split.
Qed.



(** ** Controller: the event limit *)

Lemma run_loop_limit {S : Type} {sc : Strategy S} (m : Z) (clock : Z -> Z)
  (stream : list Event) :
  0 < m ->
  forall (count : Z) (c : BacktestController.t) (acc : list Event),
    0 <= count ->
    Z.of_nat (List.length
                (fst (BacktestController.run_loop (Some m) clock count c stream acc)))
    <= Z.of_nat (List.length acc) + Z.max 0 (m - count).
Proof.
  intros Hm. induction stream as [|e stream IH]; intros count c acc Hc; simpl.
  - lia.
  - unfold BacktestController.over_limit.
    replace (m =? 0) with false by (symmetry; apply Z.eqb_neq; lia).
    cbn [negb andb].
    destruct (Z.gtb_spec (count + 1) m) as [Hover|Hin].
    + simpl. lia.
    + destruct (BacktestController.dispatch _ e _) as [c2|].
      * specialize (IH (count + 1) c2 (acc ++ [e])).
        rewrite length_app in IH. simpl in IH. lia.
      * simpl. rewrite length_app. simpl. lia.
Qed.

Lemma run_loop_zero_limit {S : Type} {sc : Strategy S} (clock : Z -> Z)
  (stream : list Event) :
  forall (count : Z) (c : BacktestController.t) (acc : list Event),
    BacktestController.run_loop (Some 0) clock count c stream acc
    = BacktestController.run_loop None clock count c stream acc.
Proof.
  induction stream as [|e stream IH]; intros count c acc; simpl; [reflexivity|].
  destruct (BacktestController.dispatch _ e _) as [c2|]; [apply IH | reflexivity].
Qed.

(** X27.  The event limit of [run].  With a positive [max_events] the loop
    dispatches at most that many events, whatever the streams hold; a
    [max_events] of zero is no limit, since the truth test of the loop takes
    it for a missing limit: the run is then the run without a limit. *)
Theorem run_event_limit {S : Type} {sc : Strategy S}
  (event_lt event_eq : Event -> Event -> bool) (test_scenario : option string)
  (clock : Z -> Z) (c : BacktestController.t) (market_stream : list Event) :
  (forall m : Z,
      0 < m ->
      Z.of_nat
        (List.length
           (fst (BacktestController.run event_lt event_eq test_scenario (Some m)
                   clock c market_stream)))
      <= m)
  /\ BacktestController.run event_lt event_eq test_scenario (Some 0) clock c
       market_stream
     = BacktestController.run event_lt event_eq test_scenario None clock c
         market_stream.
Proof.
  split.
  - intros m Hm. unfold BacktestController.run.
    destruct (truthy_str test_scenario); [simpl; lia|].
    cbn [fst].
    pose proof (run_loop_limit m clock
                  (BacktestController.heapq_merge event_lt event_eq
                     (BacktestController.event_queue c) market_stream)
                  Hm 0 c [] (Z.le_refl 0)) as H.
    simpl in H. lia.
  - unfold BacktestController.run.
    destruct (truthy_str test_scenario); [reflexivity|].
    now rewrite run_loop_zero_limit.
Qed.

Lemma run_event_limit_witness :
  let c :=
    BacktestController.init "ES" (1 # 4)%Q (100000 # 1)%Q (5 # 2)%Q (25 # 2)%Q
      100000 500000 None tt in
  let stream :=
    [EvDepth (MarketData_DepthEvent.mk 1 "ES" (5950 # 1)%Q 10 SELL INSERT 1 2);
     EvTrade (MarketData_TradeEvent.mk 2 "ES" (5950 # 1)%Q 1 SELL);
     EvDepth (MarketData_DepthEvent.mk 3 "ES" (5951 # 1)%Q 7 BUY INSERT 0 1)] in
  Z.of_nat
    (List.length
       (fst (BacktestController.run (strategy_class := idle_strategy)
               (fun _ _ => false) (fun _ _ => false) None (Some 2) (fun _ => 0) c
               stream)))
  <= 2.
Proof.
  intros c stream.
  apply (proj1 (run_event_limit (sc := idle_strategy)
                  (fun _ _ => false) (fun _ _ => false) None (fun _ => 0) c stream)).
  reflexivity.
Defined.

(** ** Controller: handler calls that enqueue an event *)

Lemma hand_over_grown (h h' : ExecutionHandler.t) (e : Event) (rest : list Event) :
  appended h h' (e :: rest) -> BacktestController.hand_over h h' = None.
Proof.
  unfold appended, BacktestController.hand_over. intros ->.
  rewrite length_app. simpl.
  destruct (Nat.eqb_spec (List.length (ExecutionHandler.event_queue h)
                          + Datatypes.S (List.length rest))
              (List.length (ExecutionHandler.event_queue h))); [lia | reflexivity].
Qed.

(** X28.  The execution handler is given the controller itself as its event
    queue, and the controller has no [append].  Hence the dispatch of a
    signal always raises, since [process_signal] always enqueues the entry
    order, and so does the dispatch of a PENDING_SUBMIT order whose id is
    registered, since [execute_order] enqueues its ACCEPTED status: no
    signal and no registered order gets through the run loop. *)
Theorem dispatch_of_signal_or_registered_order_raises {S : Type} {sc : Strategy S}
  (c : BacktestController.t) (time_ns : Z) :
  (forall e : SignalEvent.t, BacktestController.dispatch c (EvSignal e) time_ns = None)
  /\ (forall o : OrderEvent.t,
         OrderEvent.status o = PENDING_SUBMIT ->
         Dict.get (OrderEvent.order_id o)
           (ExecutionHandler.submitted_orders (BacktestController.execution_handler c))
         <> None ->
         BacktestController.dispatch c (EvOrder o) time_ns = None).
Proof.
  split.
  - intros e. cbn [BacktestController.dispatch].
    destruct (signal_becomes_registered_order_aux
                (BacktestController.execution_handler c) e time_ns) as (entry & Happ).
    now rewrite (hand_over_grown _ _ _ _ Happ).
  - intros o Hst Hreg. cbn [BacktestController.dispatch]. rewrite Hst. cbn [OrderStatus_eqb].
    destruct (Dict.get (OrderEvent.order_id o) _) as [o_reg|] eqn:E; [|congruence].
    destruct (execute_order_accepts (BacktestController.execution_handler c) o o_reg E)
      as (a & rest & Happ & _).
    now rewrite (hand_over_grown _ _ _ _ Happ).
Qed.

Lemma dispatch_of_signal_or_registered_order_raises_witness :
  match Bracket.signalled with
  | Some (h, entry) =>
      BacktestController.dispatch (strategy_class := idle_strategy)
        (BacktestController.mk [] 2 h
           (Portfolio.init (100000 # 1)%Q (5 # 2)%Q (25 # 2)%Q (1 # 4)%Q) tt)
        (EvOrder entry) 5000
      = None
  | None => False
  end.
Proof.
  destruct Bracket.signalled as [[h entry]|] eqn:E; vm_compute in E; [|discriminate].
  injection E as Hh He.
  apply (proj2 (dispatch_of_signal_or_registered_order_raises (sc := idle_strategy)
                  (BacktestController.mk [] 2 h
                     (Portfolio.init (100000 # 1)%Q (5 # 2)%Q (25 # 2)%Q (1 # 4)%Q) tt)
                  5000) entry).
  - subst entry. reflexivity.
  - subst h entry. vm_compute. discriminate.
Defined.

(** ** Strategy: signals *)

Lemma _generate_signal_unchanged (s s' : FootprintDiagonalRatioStrategy.t)
  (b : OrderBook.t) (direction : Side) (order_type : OrderType) (quantity : Z)
  (limit_price stop_price trigger stop target : option Decimal)
  (timestamp : option Z) :
  FootprintDiagonalRatioStrategy._generate_signal s b direction order_type quantity
    limit_price stop_price trigger stop target timestamp = Some s' ->
  s' = s.
Proof.
  unfold FootprintDiagonalRatioStrategy._generate_signal.
  destruct (FootprintDiagonalRatioStrategy.active_order_id s); [|discriminate].
  now intros [= <-].
Qed.

Lemma signal_loop_unchanged (s s' : FootprintDiagonalRatioStrategy.t)
  (b : OrderBook.t) (timestamp : Z) (prices : list Decimal) :
  FootprintDiagonalRatioStrategy.signal_loop s b timestamp prices = Some s' ->
  s' = s.
Proof.
  induction prices as [|price_bid rest IH]; cbn [FootprintDiagonalRatioStrategy.signal_loop].
  - now intros [= <-].
  - cbv zeta.
    repeat first
      [ exact IH
      | apply _generate_signal_unchanged
      | match goal with
        | |- context [match ?x with _ => _ end] => destruct x
        end ].
Qed.

(** X29.  The strategy never emits a signal.  [_calculate_and_signal]
    either returns with the strategy as it was, its event queue and its
    [active_order_id] included, or raises: when a price level qualifies and
    no order is active, [_generate_signal] raises [NameError] on the name
    [EventType], which base.py does not import, before anything is appended
    to the queue. *)
Theorem strategy_never_emits_a_signal (s s' : FootprintDiagonalRatioStrategy.t)
  (b : OrderBook.t) (timestamp : Z) :
  FootprintDiagonalRatioStrategy._calculate_and_signal s b timestamp = Some s' ->
  s' = s.
Proof.
  unfold FootprintDiagonalRatioStrategy._calculate_and_signal.
  destruct (FootprintDiagonalRatioStrategy.volume_profile s) as [|kv profile] eqn:E;
    [now intros [= <-]|].
  destruct (truthy_str (FootprintDiagonalRatioStrategy.active_order_id s));
    [now intros [= <-]|].
  apply signal_loop_unchanged.
Qed.

Lemma strategy_never_emits_a_signal_witness :
  let b := OrderBook.init "ES" (1 # 4)%Q true in
  FootprintDiagonalRatioStrategy._calculate_and_signal (strategy_at_bar_end 0) b
    59999999999
  = None
  /\ forall s',
       FootprintDiagonalRatioStrategy._calculate_and_signal (strategy_at_bar_end 1) b
         59999999999 = Some s' ->
       FootprintDiagonalRatioStrategy.event_queue s' = [].
Proof.
  split; [vm_compute; reflexivity|].
  intros s' H.
  rewrite (strategy_never_emits_a_signal (strategy_at_bar_end 1) s'
             (OrderBook.init "ES" (1 # 4)%Q true) 59999999999 H).
  reflexivity.
Defined.

(** ** Controller: a run over market data *)

Lemma hand_over_same (h : ExecutionHandler.t) :
  BacktestController.hand_over h h = Some h.
Proof. unfold BacktestController.hand_over. now rewrite Nat.eqb_refl. Qed.

Lemma dispatch_market_event {S : Type} {sc : Strategy S}
  (c : BacktestController.t) (e : Event) (time_ns : Z) :
  (forall s t, on_market_data s t <> None) ->
  market_event e ->
  nothing_pending (BacktestController.execution_handler c) ->
  exists c',
    BacktestController.dispatch c e time_ns = Some c'
    /\ BacktestController.event_queue c' = BacktestController.event_queue c
    /\ BacktestController.current_time c' = BacktestController.current_time c
    /\ same_orders (BacktestController.execution_handler c)
         (BacktestController.execution_handler c')
    /\ same_account (BacktestController.portfolio c) (BacktestController.portfolio c').
Proof.
  intros Hstrat Hev [Hlim Hstop]. destruct e as [t|d| | |]; try contradiction.
  - cbn [BacktestController.dispatch].
    cbn [BacktestController.strategy BacktestController.set_portfolio].
    destruct (on_market_data (BacktestController.strategy c) t) as [s|] eqn:Es;
      [|exfalso; exact (Hstrat _ _ Es)].
    cbn [BacktestController.execution_handler BacktestController.set_strategy
         BacktestController.set_portfolio].
    unfold ExecutionHandler.check_limit_fills, ExecutionHandler.check_stop_triggers.
    rewrite Hlim. cbn [ExecutionHandler.for_items]. rewrite hand_over_same.
    rewrite Hstop. cbn [ExecutionHandler.for_items]. rewrite hand_over_same.
    eexists. split; [reflexivity|].
    repeat split.
  - cbn [BacktestController.dispatch]. eexists. split; [reflexivity|].
    repeat split.
Qed.

Lemma same_orders_trans (h1 h2 h3 : ExecutionHandler.t) :
  same_orders h1 h2 -> same_orders h2 h3 -> same_orders h1 h3.
Proof.
  unfold same_orders. intros (A1 & A2 & A3 & A4 & A5 & A6) (B1 & B2 & B3 & B4 & B5 & B6).
  repeat split; congruence.
Qed.

Lemma same_account_trans (p1 p2 p3 : Portfolio.t) :
  same_account p1 p2 -> same_account p2 p3 -> same_account p1 p3.
Proof.
  unfold same_account.
  intros (A1 & A2 & A3 & A4 & A5 & A6 & A7) (B1 & B2 & B3 & B4 & B5 & B6 & B7).
  repeat split; congruence.
Qed.

Lemma run_loop_market {S : Type} {sc : Strategy S} (clock : Z -> Z)
  (stream : list Event) :
  (forall s t, on_market_data s t <> None) ->
  Forall market_event stream ->
  forall (count : Z) (c : BacktestController.t) (acc : list Event),
    nothing_pending (BacktestController.execution_handler c) ->
    exists c',
      BacktestController.run_loop None clock count c stream acc
      = (acc ++ stream, Some c')
      /\ same_orders (BacktestController.execution_handler c)
           (BacktestController.execution_handler c')
      /\ same_account (BacktestController.portfolio c) (BacktestController.portfolio c').
Proof.
  intros Hstrat Hall. induction Hall as [|e stream He Hall IH]; intros count c acc Hq.
  - exists c. cbn [BacktestController.run_loop]. rewrite app_nil_r.
    split; [reflexivity|]. split; repeat split.
  - cbn [BacktestController.run_loop BacktestController.over_limit].
    destruct (dispatch_market_event
                (BacktestController.set_current_time (event_timestamp e) c) e
                (clock (count + 1)) Hstrat He Hq)
      as (c2 & Hd & _ & _ & Ho & Ha).
    rewrite Hd.
    assert (Hq2 : nothing_pending (BacktestController.execution_handler c2)).
    { destruct Ho as (_ & _ & _ & Hl & Hs & _). destruct Hq as [Hql Hqs].
      cbn [BacktestController.execution_handler BacktestController.set_current_time]
        in Hl, Hs.
      split; congruence. }
    destruct (IH (count + 1) c2 (acc ++ [e]) Hq2) as (c' & Hrun & Ho' & Ha').
    exists c'. rewrite Hrun, <- app_assoc. split; [reflexivity|]. split.
    + exact (same_orders_trans _ _ _ Ho Ho').
    + exact (same_account_trans _ _ _ Ha Ha').
Qed.


